(** * Expense tracker (Project3.py): a shallow embedding and its properties

    The program is a single Python module.  Its values are the JSON-shaped
    Python values (None, bool, int, float, str, list, dict), its strings are
    sequences of Unicode code points, its floats are IEEE binary64, and its
    functions read the keyboard, print, and read and write one file.

    The embedding keeps that shape:
    - [pystr] is a list of code points, with the character classes of
      CPython 3.11 (Unicode 14) that the program relies on;
    - floats are [spec_float] at precision 53 and maximal exponent 1024;
    - a dict is an association list in insertion order;
    - effects are threaded through a state-and-exception monad [M] whose
      state holds the list object [expenses], the file system, the clock,
      the pending keyboard input and what has been printed. *)

From Stdlib Require Import ZArith NArith List Bool Lia String Ascii.
From Stdlib Require Import Floats.SpecFloat.
From stdpp Require Import base option list sorting gmap.

Local Open Scope Z_scope.
Set Warnings "-register-all".

(** ** Strings *)

Abbreviation pystr := (list N).

(** An ASCII literal as a Python string. *)
Definition str (s : string) : pystr :=
  List.map N_of_ascii (list_ascii_of_string s).

(** The code points for which [str.isspace] holds: the ones removed by
    [str.strip()] and matched by the regular expression [\s]. *)
Definition spaces : list N :=
  [0x09; 0x0A; 0x0B; 0x0C; 0x0D; 0x1C; 0x1D; 0x1E; 0x1F; 0x20; 0x85; 0xA0;
   0x1680; 0x2000; 0x2001; 0x2002; 0x2003; 0x2004; 0x2005; 0x2006; 0x2007;
   0x2008; 0x2009; 0x200A; 0x2028; 0x2029; 0x202F; 0x205F; 0x3000]%N.

Definition is_space (c : N) : bool := existsb (N.eqb c) spaces.

(** The code point of digit zero of every block of decimal digits (general
    category Nd); each block holds the ten digits in order. *)
Definition Nd_zeros : list N :=
  [0x30; 0x660; 0x6F0; 0x7C0; 0x966; 0x9E6; 0xA66; 0xAE6; 0xB66; 0xBE6;
   0xC66; 0xCE6; 0xD66; 0xDE6; 0xE50; 0xED0; 0xF20; 0x1040; 0x1090; 0x17E0;
   0x1810; 0x1946; 0x19D0; 0x1A80; 0x1A90; 0x1B50; 0x1BB0; 0x1C40; 0x1C50;
   0xA620; 0xA8D0; 0xA900; 0xA9D0; 0xA9F0; 0xAA50; 0xABF0; 0xFF10; 0x104A0;
   0x10D30; 0x11066; 0x110F0; 0x11136; 0x111D0; 0x112F0; 0x11450; 0x114D0;
   0x11650; 0x116C0; 0x11730; 0x118E0; 0x11950; 0x11C50; 0x11D50; 0x11DA0;
   0x16A60; 0x16AC0; 0x16B50; 0x1D7CE; 0x1D7D8; 0x1D7E2; 0x1D7EC; 0x1D7F6;
   0x1E140; 0x1E2F0; 0x1E950; 0x1FBF0]%N.

Fixpoint digit_in (zeros : list N) (c : N) : option Z :=
  match zeros with
  | [] => None
  | z :: zs =>
      if ((z <=? c) && (c <? z + 10))%N then Some (Z.of_N (c - z))
      else digit_in zs c
  end.

(** The decimal value of a code point, when it is a decimal digit. *)
Definition digit_value (c : N) : option Z := digit_in Nd_zeros c.

(** The regular expression class [\d] on a str pattern. *)
Definition is_digit (c : N) : bool :=
  match digit_value c with Some _ => true | None => false end.

(** The regular expression class [[0-9]]. *)
Definition is_ascii_digit (c : N) : bool := ((0x30 <=? c) && (c <=? 0x39))%N.

Fixpoint lstrip (s : pystr) : pystr :=
  match s with
  | c :: s' => if is_space c then lstrip s' else s
  | [] => []
  end.

Definition rstrip (s : pystr) : pystr := rev (lstrip (rev s)).

(** [s.strip()] *)
Definition py_strip (s : pystr) : pystr := rstrip (lstrip s).

Definition pystr_eqb (a b : pystr) : bool := bool_decide (a = b).

(** Lower-casing of the ASCII letters.  The program lower-cases text only to
    compare it with the literals "q" and "y"; the only code points that
    [str.lower] maps to those letters are the ASCII letters themselves, and
    [str.lower] never shortens a string, so the comparison is decided by the
    ASCII letters alone. *)
Definition lower_char (c : N) : N :=
  if ((0x41 <=? c) && (c <=? 0x5A))%N then (c + 32)%N else c.

Definition py_lower (s : pystr) : pystr := List.map lower_char s.

(** ** Exceptions *)

Inductive pyexc :=
| ValueError | JSONDecodeError | UnicodeDecodeError
| IndexError | KeyError | TypeError | StopIteration | OverflowError
| RecursionError
| FileNotFoundError | PermissionError | IsADirectoryError
| EOFError | KeyboardInterrupt
| Unmodelled.

(** [Unmodelled] is not a Python exception: it marks an input outside the
    fragment of the library behaviour that the embedding covers (sorting by
    keys that are not strings).  No handler catches it. *)

Definition pyexc_eqb (a b : pyexc) : bool :=
  match a, b with
  | ValueError, ValueError | JSONDecodeError, JSONDecodeError
  | UnicodeDecodeError, UnicodeDecodeError | IndexError, IndexError
  | KeyError, KeyError | TypeError, TypeError
  | StopIteration, StopIteration | OverflowError, OverflowError
  | RecursionError, RecursionError
  | FileNotFoundError, FileNotFoundError | PermissionError, PermissionError
  | IsADirectoryError, IsADirectoryError | EOFError, EOFError
  | KeyboardInterrupt, KeyboardInterrupt | Unmodelled, Unmodelled => true
  | _, _ => false
  end.

(** [except ValueError]: the class and its subclasses. *)
Definition is_ValueError (e : pyexc) : bool :=
  match e with
  | ValueError | JSONDecodeError | UnicodeDecodeError => true
  | _ => false
  end.

(** [except Exception]. *)
Definition is_Exception (e : pyexc) : bool :=
  match e with
  | KeyboardInterrupt | Unmodelled => false
  | _ => true
  end.

(** The result of a computation that may raise. *)
Inductive res (A : Type) :=
| Ret (a : A)
| Raise (e : pyexc).
Arguments Ret {A} a.
Arguments Raise {A} e.

Definition res_bind {A B} (r : res A) (k : A -> res B) : res B :=
  match r with
  | Ret a => k a
  | Raise e => Raise e
  end.

(** ** Numbers *)

Definition prec := 53.
Definition emax := 1024.

(** The binary64 nearest to an integer (ties to even). *)
Definition SF_of_Z (z : Z) : spec_float := binary_normalize prec emax z 0 false.

(** The binary64 nearest to [(-1)^neg * m * 10^scale]. *)
Definition SF_of_decimal (neg : bool) (m : Z) (scale : Z) : spec_float :=
  match m with
  | Zpos p =>
      if 0 <=? scale
      then binary_normalize prec emax (cond_Zopp neg (m * 10 ^ scale)) 0 false
      else SFdiv prec emax (S754_finite neg p 0)
                           (S754_finite false (Z.to_pos (10 ^ (- scale))) 0)
  | _ => S754_zero neg
  end.

(** A run of decimal digits in which single underscores may separate digits
    (the rule of [int()] and [float()] on strings).  [digits_us acc n after s]
    continues a run whose value so far is [acc] over [n] digits; [after]
    tells whether the previous character was a digit.  It returns the value,
    the number of digits and the rest. *)
Fixpoint digits_us (acc : Z) (n : Z) (after : bool) (s : pystr)
  : Z * Z * pystr :=
  match s with
  | c :: s' =>
      match digit_value c with
      | Some d => digits_us (acc * 10 + d) (n + 1) true s'
      | None =>
          if ((c =? 0x5F)%N && after)%bool then
            match s' with
            | c' :: _ =>
                if is_digit c' then digits_us acc n false s' else (acc, n, s)
            | [] => (acc, n, s)
            end
          else (acc, n, s)
      end
  | [] => (acc, n, s)
  end.

Definition parse_sign (s : pystr) : bool * pystr :=
  match s with
  | 0x2D%N :: s' => (true, s')
  | 0x2B%N :: s' => (false, s')
  | _ => (false, s)
  end.

(** [int(s)] for a str [s], base ten. *)
Definition py_int (s : pystr) : res Z :=
  let '(neg, s1) := parse_sign (py_strip s) in
  let '(v, n, rest) := digits_us 0 0 false s1 in
  if (0 <? n) && pystr_eqb rest [] then Ret (if neg then - v else v)
  else Raise ValueError.

(** The optional exponent of a float literal: [None] when the text is
    malformed, otherwise the exponent and the rest. *)
Definition parse_exponent (s : pystr) : option (Z * pystr) :=
  match s with
  | c :: s' =>
      if ((c =? 0x65) || (c =? 0x45))%N then
        let '(neg, s1) := parse_sign s' in
        let '(v, n, rest) := digits_us 0 0 false s1 in
        if 0 <? n then Some (if neg then - v else v, rest) else None
      else Some (0, s)
  | [] => Some (0, s)
  end.

(** [float(s)] for a str [s]: surrounding whitespace is ignored, decimal
    digits of any script count as digits, and the value is the binary64
    nearest to the decimal written (an infinity when it is too large). *)
Definition py_float (s : pystr) : res spec_float :=
  let '(neg, s1) := parse_sign (py_strip s) in
  let low := py_lower s1 in
  if pystr_eqb low (str "inf") || pystr_eqb low (str "infinity")
  then Ret (S754_infinity neg)
  else if pystr_eqb low (str "nan") then Ret S754_nan
  else
    let '(iv, ni, s2) := digits_us 0 0 false s1 in
    let '(fv, nf, s3) :=
      match s2 with
      | 0x2E%N :: s2' => digits_us iv 0 false s2'
      | _ => (iv, 0, s2)
      end in
    if 0 <? ni + nf then
      match parse_exponent s3 with
      | Some (ex, []) => Ret (SF_of_decimal neg fv (ex - nf))
      | _ => Raise ValueError
      end
    else Raise ValueError.

(** ** sanitize_amount *)

(** The characters that [re.sub] with the class [[^\d.\-]] leaves in place. *)
Definition amount_char (c : N) : bool :=
  (is_digit c || (c =? 0x2E) || (c =? 0x2D))%N.

Definition sanitize_amount (s : pystr) : res spec_float :=
  let s := py_strip s in
  let cleaned := List.filter amount_char s in
  if pystr_eqb cleaned [] then Raise ValueError
  else py_float cleaned.


(** ** Values *)

(** The Python values that [json.load] produces and the program builds. *)
Inductive pyval :=
| PNone
| PBool (b : bool)
| PInt (z : Z)
| PFloat (f : spec_float)
| PStr (s : pystr)
| PList (l : list pyval)
| PDict (d : list (pystr * pyval)).

Fixpoint dict_lookup {V} (k : pystr) (d : list (pystr * V)) : option V :=
  match d with
  | [] => None
  | (k', v) :: d' => if pystr_eqb k k' then Some v else dict_lookup k d'
  end.

(** [d[k] = v]: an existing key keeps its place. *)
Fixpoint dict_set {V} (k : pystr) (v : V) (d : list (pystr * V))
  : list (pystr * V) :=
  match d with
  | [] => [(k, v)]
  | (k', v') :: d' =>
      if pystr_eqb k k' then (k', v) :: d' else (k', v') :: dict_set k v d'
  end.

(** Comparison of an int with a float, exact as in Python. *)
Definition Z_SF_compare (z : Z) (f : spec_float) : option comparison :=
  match f with
  | S754_nan => None
  | S754_infinity s => Some (if s then Gt else Lt)
  | S754_zero _ => Some (z ?= 0)
  | S754_finite s m e =>
      let v := cond_Zopp s (Zpos m) in
      Some (if 0 <=? e then z ?= v * 2 ^ e else z * 2 ^ (- e) ?= v)
  end.

Inductive num := NumZ (z : Z) | NumF (f : spec_float).

Definition as_num (v : pyval) : option num :=
  match v with
  | PBool b => Some (NumZ (if b then 1 else 0))
  | PInt z => Some (NumZ z)
  | PFloat f => Some (NumF f)
  | _ => None
  end.

Definition num_compare (a b : num) : option comparison :=
  match a, b with
  | NumZ x, NumZ y => Some (x ?= y)
  | NumF x, NumF y => SFcompare x y
  | NumZ x, NumF y => Z_SF_compare x y
  | NumF x, NumZ y => option_map CompOpp (Z_SF_compare y x)
  end.

Definition num_eqb (a b : num) : bool :=
  match num_compare a b with Some Eq => true | _ => false end.

(** [a == b].  Two dicts are equal when they have the same keys with equal
    values, whatever the order. *)
Fixpoint py_eqb (a b : pyval) {struct a} : bool :=
  match a, b with
  | PNone, PNone => true
  | PStr s, PStr t => pystr_eqb s t
  | PList la, PList lb =>
      (fix go (la lb : list pyval) {struct la} : bool :=
         match la, lb with
         | [], [] => true
         | x :: la', y :: lb' => py_eqb x y && go la' lb'
         | _, _ => false
         end) la lb
  | PDict da, PDict db =>
      (length da =? length db)%nat &&
      (fix go (da : list (pystr * pyval)) : bool :=
         match da with
         | [] => true
         | (k, v) :: da' =>
             match dict_lookup k db with
             | Some v' => py_eqb v v'
             | None => false
             end && go da'
         end) da
  | _, _ =>
      match as_num a, as_num b with
      | Some x, Some y => num_eqb x y
      | _, _ => false
      end
  end.

(** [v[k]] for a str key. *)
Definition py_getitem (v : pyval) (k : pystr) : res pyval :=
  match v with
  | PDict d =>
      match dict_lookup k d with
      | Some x => Ret x
      | None => Raise KeyError
      end
  | _ => Raise TypeError
  end.

(** [v[k] = x] for a str key. *)
Definition py_setitem (v : pyval) (k : pystr) (x : pyval) : res pyval :=
  match v with
  | PDict d => Ret (PDict (dict_set k x d))
  | _ => Raise TypeError
  end.

Definition is_finite_or_zero (f : spec_float) : bool :=
  match f with
  | S754_zero _ | S754_finite _ _ _ => true
  | _ => false
  end.

(** [float(v)] *)
Definition py_float_of (v : pyval) : res spec_float :=
  match v with
  | PFloat f => Ret f
  | PInt z =>
      let f := SF_of_Z z in
      if is_finite_or_zero f then Ret f else Raise OverflowError
  | PBool b => Ret (SF_of_Z (if b then 1 else 0))
  | PStr s => py_float s
  | _ => Raise TypeError
  end.

(** [v[:7]] as the program uses it, on the value of the "date" field. *)
Definition py_slice7 (v : pyval) : res pyval :=
  match v with
  | PStr s => Ret (PStr (take 7 s))
  | PList l => Ret (PList (take 7 l))
  | _ => Raise TypeError
  end.

(** ** Ordering and sorting *)

(** [a < b] on str: lexicographic on code points. *)
Fixpoint pystr_ltb (a b : pystr) : bool :=
  match a, b with
  | _, [] => false
  | [], _ :: _ => true
  | x :: a', y :: b' => (x <? y)%N || ((x =? y)%N && pystr_ltb a' b')
  end.

Section Sorting.
Context {A : Type} (lt : A -> A -> bool).

Fixpoint insert_sorted (x : A) (l : list A) : list A :=
  match l with
  | [] => [x]
  | y :: l' => if lt y x then y :: insert_sorted x l' else x :: l
  end.

(** A stable ascending sort that asks only [lt]. *)
Fixpoint stable_sort (l : list A) : list A :=
  match l with
  | [] => []
  | x :: l' => insert_sorted x (stable_sort l')
  end.

(** [x] may stand before [y] in ascending order: [y] is not below [x]. *)
Definition not_above (x y : A) : Prop := lt y x = false.

(** [list.sort(reverse=...)]: with [reverse] the list is reversed, sorted
    ascending and stably, and reversed again. *)
Definition list_sort (reverse : bool) (l : list A) : list A :=
  if reverse then rev (stable_sort (rev l)) else stable_sort l.
End Sorting.

Fixpoint map_res {A B} (f : A -> res B) (l : list A) : res (list B) :=
  match l with
  | [] => Ret []
  | x :: l' =>
      res_bind (f x) (fun y =>
      res_bind (map_res f l') (fun ys => Ret (y :: ys)))
  end.

Definition str_key (v : pyval) : option pystr :=
  match v with PStr s => Some s | _ => None end.

Fixpoint all_str_keys (kl : list (pyval * pyval))
  : option (list (pystr * pyval)) :=
  match kl with
  | [] => Some []
  | (k, x) :: kl' =>
      match str_key k, all_str_keys kl' with
      | Some s, Some r => Some ((s, x) :: r)
      | _, _ => None
      end
  end.

(** [sorted(l, key=key, reverse=reverse)].  The keys are computed first, in
    order; a list of fewer than two elements is not compared at all; str
    keys are compared as str.  Other keys are left out of the model. *)
Definition py_sorted (key : pyval -> res pyval) (reverse : bool)
  (l : list pyval) : res (list pyval) :=
  res_bind (map_res (fun x => res_bind (key x) (fun k => Ret (k, x))) l)
    (fun kl =>
       match kl with
       | [] | [_] => Ret l
       | _ =>
           match all_str_keys kl with
           | Some sl =>
               Ret (List.map snd
                      (list_sort (fun a b => pystr_ltb (fst a) (fst b))
                         reverse sl))
           | None => Raise Unmodelled
           end
       end).

(** ** Calendar *)

Definition is_leap (y : Z) : bool :=
  ((y mod 4 =? 0) && negb (y mod 100 =? 0)) || (y mod 400 =? 0).

Definition days_in_month (y m : Z) : Z :=
  if m =? 2 then (if is_leap y then 29 else 28)
  else if (m =? 4) || (m =? 6) || (m =? 9) || (m =? 11) then 30
  else 31.

Record date := mkdate { d_year : Z; d_month : Z; d_day : Z }.

(** [datetime(y, m, d)] raises ValueError outside these bounds. *)
Definition valid_date (y m d : Z) : bool :=
  (1 <=? y) && (y <=? 9999) && (1 <=? m) && (m <=? 12)
  && (1 <=? d) && (d <=? days_in_month y m).

Definition digit_char (d : Z) : N := (0x30 + Z.to_N d)%N.

Definition pad2 (n : Z) : pystr := [digit_char (n / 10 mod 10); digit_char (n mod 10)].

Definition pad4 (n : Z) : pystr :=
  [digit_char (n / 1000 mod 10); digit_char (n / 100 mod 10);
   digit_char (n / 10 mod 10); digit_char (n mod 10)].

(** ** datetime.strptime

    CPython turns a format into a regular expression, one group per
    directive, matches it at the start of the text ignoring case, and wants
    the match to end where the text ends.  The groups are then converted and
    the date is checked. *)

Inductive item :=
| IY | Im | Id | Ib | IB      (* %Y %m %d %b %B *)
| ILit (c : N)                (* any other character *)
| ISpaces.                    (* a run of whitespace in the format: \s+ *)

Definition item_eqb (a b : item) : bool :=
  match a, b with
  | IY, IY | Im, Im | Id, Id | Ib, Ib | IB, IB | ISpaces, ISpaces => true
  | ILit c, ILit c' => (c =? c')%N
  | _, _ => false
  end.

(** The format as a list of items; [None] on a directive or a literal
    character that the model does not know (it knows the five directives
    above and the separators [-] and [/]). *)
Fixpoint compile_format (fmt : pystr) : option (list item) :=
  match fmt with
  | [] => Some []
  | 0x25%N :: c :: fmt' =>
      match compile_format fmt' with
      | Some its =>
          if (c =? 0x59)%N then Some (IY :: its)
          else if (c =? 0x6D)%N then Some (Im :: its)
          else if (c =? 0x64)%N then Some (Id :: its)
          else if (c =? 0x62)%N then Some (Ib :: its)
          else if (c =? 0x42)%N then Some (IB :: its)
          else None
      | None => None
      end
  | c :: fmt' =>
      match compile_format fmt' with
      | Some its =>
          if is_space c then
            match its with
            | ISpaces :: _ => Some its
            | _ => Some (ISpaces :: its)
            end
          else if ((c =? 0x2D) || (c =? 0x2F))%N then Some (ILit c :: its)
          else None
      | None => None
      end
  end.

Definition in_range (lo hi c : N) : bool := ((lo <=? c) && (c <=? hi))%N.

Definition alt1 (p : N -> bool) (s : pystr) : list (pystr * pystr) :=
  match s with
  | a :: r => if p a then [([a], r)] else []
  | _ => []
  end.

Definition alt2 (p q : N -> bool) (s : pystr) : list (pystr * pystr) :=
  match s with
  | a :: b :: r => if p a && q b then [([a; b], r)] else []
  | _ => []
  end.

(** Case-insensitive match of a lower-case ASCII pattern letter [p] against
    a character [t], as the regular expression engine does it. *)
Definition ci_eq (p t : N) : bool :=
  ((lower_char t =? p)
   || ((p =? 0x69) && ((t =? 0x130) || (t =? 0x131)))
   || ((p =? 0x73) && (t =? 0x17F))
   || ((p =? 0x6B) && (t =? 0x212A)))%N.

Fixpoint ci_prefix (name s : pystr) : bool :=
  match name, s with
  | [], _ => true
  | p :: name', t :: s' => ci_eq p t && ci_prefix name' s'
  | _ :: _, [] => false
  end.

Definition alt_name (name s : pystr) : list (pystr * pystr) :=
  if ci_prefix name s
  then [(take (length name) s, drop (length name) s)]
  else [].

(** The months of the C locale, as [calendar.month_abbr] and
    [calendar.month_name] lower-cased. *)
Definition a_month : list pystr :=
  List.map str ["jan"; "feb"; "mar"; "apr"; "may"; "jun";
                "jul"; "aug"; "sep"; "oct"; "nov"; "dec"]%string.

Definition f_month : list pystr :=
  List.map str ["january"; "february"; "march"; "april"; "may"; "june";
                "july"; "august"; "september"; "october"; "november";
                "december"]%string.

(** The alternatives of [%B] in the order of the regular expression
    (longest names first). *)
Definition f_month_re : list pystr :=
  List.map str ["september"; "february"; "november"; "december"; "january";
                "october"; "august"; "march"; "april"; "june"; "july";
                "may"]%string.

Fixpoint space_run (s : pystr) : nat :=
  match s with
  | c :: s' => if is_space c then S (space_run s') else O
  | [] => O
  end.

(** The splits of a greedy [\s+]: longest first. *)
Fixpoint space_splits (k : nat) (s : pystr) : list (pystr * pystr) :=
  match k with
  | O => []
  | S k' => (take k s, drop k s) :: space_splits k' s
  end.

(** The ways an item can match at the start of [s], in the order in which
    the regular expression tries them: the matched text and the rest. *)
Definition alts (it : item) (s : pystr) : list (pystr * pystr) :=
  match it with
  | IY =>
      match s with
      | a :: b :: c :: d :: r =>
          if is_digit a && is_digit b && is_digit c && is_digit d
          then [([a; b; c; d], r)] else []
      | _ => []
      end
  | Im =>
      alt2 (N.eqb 0x31) (in_range 0x30 0x32) s
      ++ alt2 (N.eqb 0x30) (in_range 0x31 0x39) s
      ++ alt1 (in_range 0x31 0x39) s
  | Id =>
      alt2 (N.eqb 0x33) (in_range 0x30 0x31) s
      ++ alt2 (in_range 0x31 0x32) is_digit s
      ++ alt2 (N.eqb 0x30) (in_range 0x31 0x39) s
      ++ alt1 (in_range 0x31 0x39) s
      ++ alt2 (N.eqb 0x20) (in_range 0x31 0x39) s
  | Ib => flat_map (fun name => alt_name name s) a_month
  | IB => flat_map (fun name => alt_name name s) f_month_re
  | ILit c => alt1 (N.eqb c) s
  | ISpaces => space_splits (space_run s) s
  end.

(** The first match of the items at the start of [s]: the text of each
    group and what is left of [s]. *)
Fixpoint match_items (its : list item) (s : pystr)
  : option (list (item * pystr) * pystr) :=
  match its with
  | [] => Some ([], s)
  | it :: its' =>
      (fix first (cands : list (pystr * pystr)) :=
         match cands with
         | [] => None
         | (txt, r) :: cands' =>
             match match_items its' r with
             | Some (groups, r') => Some ((it, txt) :: groups, r')
             | None => first cands'
             end
         end) (alts it s)
  end.

Fixpoint group (it : item) (groups : list (item * pystr)) : option pystr :=
  match groups with
  | [] => None
  | (it', txt) :: groups' =>
      if item_eqb it it' then Some txt else group it groups'
  end.

Fixpoint index_of (x : pystr) (l : list pystr) (i : Z) : option Z :=
  match l with
  | [] => None
  | y :: l' => if pystr_eqb x y then Some i else index_of x l' (i + 1)
  end.

(** The month of a match: [int] of the [%m] group, or the position of the
    lower-cased [%b] or [%B] group among the month names. *)
Definition group_month (groups : list (item * pystr)) : res Z :=
  match group Im groups, group Ib groups, group IB groups with
  | Some txt, _, _ => py_int txt
  | None, Some txt, _ =>
      match index_of (py_lower txt) a_month 1 with
      | Some m => Ret m
      | None => Raise ValueError
      end
  | None, None, Some txt =>
      match index_of (py_lower txt) f_month 1 with
      | Some m => Ret m
      | None => Raise ValueError
      end
  | None, None, None => Ret 1
  end.

Definition group_int (it : item) (dflt : Z) (groups : list (item * pystr))
  : res Z :=
  match group it groups with
  | Some txt => py_int txt
  | None => Ret dflt
  end.

(** [datetime.strptime(s, fmt)], as a date. *)
Definition strptime (s fmt : pystr) : res date :=
  match compile_format fmt with
  | None => Raise Unmodelled
  | Some its =>
      match match_items its s with
      | Some (groups, []) =>
          res_bind (group_int IY 1900 groups) (fun y =>
          res_bind (group_month groups) (fun m =>
          res_bind (group_int Id 1 groups) (fun d =>
          if valid_date y m d then Ret (mkdate y m d)
          else Raise ValueError)))
      | _ => Raise ValueError
      end
  end.

(** The formats of [parse_date], in the order of the source. *)
Definition formats : list pystr :=
  List.map str ["%Y-%m-%d"; "%d-%m-%Y"; "%d/%m/%Y"; "%d %b %Y"; "%d %B %Y"]%string.

(** ** The world and the monad *)

(** What a file holds: text in the locale's encoding, or bytes that do not
    decode. *)
Inductive fdata := Text (s : pystr) | Undecodable.

Record file := mkfile { f_readable : bool; f_writable : bool; f_data : fdata }.

Record datetime := mkdt { dt_date : date; dt_hour : Z; dt_minute : Z; dt_second : Z }.

(** What [input()] finds: a line, or the user's interrupt. *)
Inductive event := Line (s : pystr) | CtrlC.

(** One constructor for each [print] of the program. *)
Inductive message :=
| MsgNotList | MsgCorrupt | MsgBackedUp (backup : pystr)
| MsgReadFailed (e : pyexc) | MsgSaveFailed (e : pyexc)
| MsgAddHeader | MsgCancelled | MsgBadAmount | MsgBadDate
| MsgSaved (amount : spec_float) (category date : pystr)
| MsgInterrupted
| MsgNoExpenses | MsgListHeader
| MsgItem (idx : Z) (d c : pyval) (amount : spec_float)
| MsgSummaryEmpty | MsgTotal (total : spec_float)
| MsgByCategory | MsgCategory (c : pyval) (amount : spec_float)
| MsgByMonth | MsgMonth (m : pystr) (amount : spec_float)
| MsgNothingToDelete | MsgDeleted | MsgNotFound | MsgInvalidSelection
| MsgNothingToEdit | MsgKeepHint | MsgKeepAmount | MsgKeepDate | MsgUpdated
| MsgWelcome | MsgMenu | MsgBye | MsgPickNumber | MsgSavingOnInterrupt.

Record state := mkstate {
  expenses : list pyval;        (* the list object that [main] passes around *)
  fs : gmap (list N) file;      (* the files of the working directory *)
  dir_writable : bool;          (* may entries be created and renamed there *)
  clock : datetime;
  stdin : list event;
  stdout : list message }.

Definition M (A : Type) : Type := state -> res A * state.

Definition ret {A} (a : A) : M A := fun s => (Ret a, s).
Definition raise {A} (e : pyexc) : M A := fun s => (Raise e, s).
Definition lift {A} (r : res A) : M A := fun s => (r, s).

Definition bind {A B} (m : M A) (k : A -> M B) : M B :=
  fun s =>
    match m s with
    | (Ret a, s') => k a s'
    | (Raise e, s') => (Raise e, s')
    end.

Notation "x <- m ;; k" := (bind m (fun x => k))
  (at level 100, m at next level, right associativity).
Notation "m ;; k" := (bind m (fun _ => k))
  (at level 100, right associativity).

(** [try: m  except <handles> as e: h e] *)
Definition try_except {A} (m : M A) (handles : pyexc -> bool)
  (h : pyexc -> M A) : M A :=
  fun s =>
    match m s with
    | (Raise e, s') => if handles e then h e s' else (Raise e, s')
    | r => r
    end.

Definition get_expenses : M (list pyval) := fun s => (Ret (expenses s), s).

(** The state in which the list object holds [l]. *)
Definition with_expenses (l : list pyval) (s : state) : state :=
  mkstate l (fs s) (dir_writable s) (clock s) (stdin s) (stdout s).

(** The state in which the pending input is [inp]. *)
Definition with_stdin (inp : list event) (s : state) : state :=
  mkstate (expenses s) (fs s) (dir_writable s) (clock s) inp (stdout s).

Definition put_expenses (l : list pyval) : M unit :=
  fun s => (Ret tt, with_expenses l s).

Definition put_fs (m : gmap (list N) file) : M unit :=
  fun s => (Ret tt, mkstate (expenses s) m (dir_writable s) (clock s) (stdin s) (stdout s)).

(** The state after the messages [msgs] have been printed. *)
Definition printed (msgs : list message) (s : state) : state :=
  mkstate (expenses s) (fs s) (dir_writable s) (clock s) (stdin s)
    (stdout s ++ msgs).

Definition print (m : message) : M unit :=
  fun s => (Ret tt, printed [m] s).

(** [input(prompt)] *)
Definition input : M pystr :=
  fun s =>
    match stdin s with
    | [] => (Raise EOFError, s)
    | ev :: rest =>
        match ev with
        | Line l => (Ret l, with_stdin rest s)
        | CtrlC => (Raise KeyboardInterrupt, with_stdin rest s)
        end
    end.

(** [datetime.now()] *)
Definition now : M datetime := fun s => (Ret (clock s), s).

(** [os.path.exists(path)] *)
Definition path_exists (path : pystr) : M bool :=
  fun s => (Ret (bool_decide (is_Some (fs s !! path))), s).

(** [open(path, "r")] followed by reading the whole file. *)
Definition read_text (path : pystr) : M pystr :=
  fun s =>
    match fs s !! path with
    | None => (Raise FileNotFoundError, s)
    | Some f =>
        if f_readable f then
          match f_data f with
          | Text t => (Ret t, s)
          | Undecodable => (Raise UnicodeDecodeError, s)
          end
        else (Raise PermissionError, s)
    end.

(** [open(path, "w")] followed by writing [t] and closing. *)
Definition write_text (path : pystr) (t : pystr) : M unit :=
  fun s =>
    match fs s !! path with
    | None =>
        if dir_writable s
        then put_fs (<[path := mkfile true true (Text t)]> (fs s)) s
        else (Raise PermissionError, s)
    | Some f =>
        if f_writable f
        then put_fs (<[path := mkfile (f_readable f) true (Text t)]> (fs s)) s
        else (Raise PermissionError, s)
    end.

(** [os.rename(src, dst)] *)
Definition rename (src dst : pystr) : M unit :=
  fun s =>
    match fs s !! src with
    | None => (Raise FileNotFoundError, s)
    | Some f =>
        if dir_writable s
        then put_fs (<[dst := f]> (delete src (fs s))) s
        else (Raise PermissionError, s)
    end.

(** [l[i]] with Python's negative indices. *)
Definition py_index {A} (l : list A) (i : Z) : res A :=
  let n := Z.of_nat (length l) in
  let j := if i <? 0 then i + n else i in
  if (0 <=? j) && (j <? n) then
    match l !! Z.to_nat j with
    | Some x => Ret x
    | None => Raise IndexError
    end
  else Raise IndexError.

(** The position of the first element equal to [item]. *)
Fixpoint find_index (item : pyval) (l : list pyval) : option nat :=
  match l with
  | [] => None
  | e :: l' =>
      if py_eqb e item then Some O
      else option_map S (find_index item l')
  end.

(** What [json.loads] makes of a text. *)
Inductive json_result :=
| JsonValue (v : pyval)
| JsonDecodeError
| JsonRecursionError.

Definition FILE_NAME : pystr := str "expenses.json".

(** A dict key must be hashable; a NaN key is left out of the model. *)
Definition hashable (v : pyval) : res pyval :=
  match v with
  | PList _ | PDict _ => Raise TypeError
  | PFloat S754_nan => Raise Unmodelled
  | _ => Ret v
  end.

Definition is_nan (f : spec_float) : bool :=
  match f with S754_nan => true | _ => false end.

(** The order of [sorted(by_cat.items(), key=lambda x: -x[1])]. *)
Definition cat_lt (a b : pyval * spec_float) : bool :=
  SFltb (SFopp (snd a)) (SFopp (snd b)).

(** [d[k] += x] on a [defaultdict(float)] kept as its items in insertion
    order. *)
Fixpoint dd_add {K} (eqb : K -> K -> bool) (k : K) (x : spec_float)
  (d : list (K * spec_float)) : list (K * spec_float) :=
  match d with
  | [] => [(k, SFadd prec emax (S754_zero false) x)]
  | (k', y) :: d' =>
      if eqb k' k then (k', SFadd prec emax y x) :: d'
      else (k', y) :: dd_add eqb k x d'
  end.

(** [try: m  except <p1>: h1  except <p2>: h2] *)
Definition try_except2 {A} (m : M A)
  (p1 : pyexc -> bool) (h1 : pyexc -> M A)
  (p2 : pyexc -> bool) (h2 : pyexc -> M A) : M A :=
  fun s =>
    match m s with
    | (Raise e, s') =>
        if p1 e then h1 e s' else if p2 e then h2 e s' else (Raise e, s')
    | r => r
    end.

(** A [while True] loop whose every turn reads a line: it cannot take more
    turns than there are lines pending, plus the one that finds none. *)
Definition with_fuel {A} (loop : nat -> M A) : M A :=
  fun s => loop (S (length (stdin s))) s.

Definition is_JSONDecodeError (e : pyexc) : bool := pyexc_eqb e JSONDecodeError.
Definition is_KeyboardInterrupt (e : pyexc) : bool := pyexc_eqb e KeyboardInterrupt.

(** ** Reference instances

    The program section below takes [str.title], the [%Y] of [strftime] and
    the [json] module as parameters.  To run the model on concrete files and
    inputs, here is one instance of each: title-casing of ASCII letters, a
    zero-padded four-digit year, and a JSON reader and writer. *)

Definition is_upper (c : N) : bool := in_range 0x41 0x5A c.
Definition is_lower (c : N) : bool := in_range 0x61 0x7A c.

(** [str.title] on ASCII letters: a letter is upper-cased after a
    character without case and lower-cased after a letter. *)
Fixpoint title_from (prev_cased : bool) (s : pystr) : pystr :=
  match s with
  | [] => []
  | c :: s' =>
      let c' :=
        if prev_cased then lower_char c
        else if is_lower c then (c - 32)%N else c in
      c' :: title_from (is_upper c || is_lower c) s'
  end.

Definition ascii_title (s : pystr) : pystr := title_from false s.

(** The decimal digits of a natural number, least significant first. *)
Fixpoint rev_digits (fuel : nat) (n : Z) : pystr :=
  match fuel with
  | O => []
  | S fuel' =>
      if n <? 10 then [digit_char n]
      else digit_char (n mod 10) :: rev_digits fuel' (n / 10)
  end.

(** [str(n)] for an int. *)
Definition decimal (n : Z) : pystr :=
  let a := Z.abs n in
  (if n <? 0 then str "-" else [])
  ++ rev (rev_digits (S (Z.to_nat (Z.log2 a))) a).

Fixpoint strip_zeros (s : pystr) : pystr :=
  match s with
  | 0x30%N :: s' => strip_zeros s'
  | _ => s
  end.

(** The exact decimal expansion of a finite float with a negative
    exponent: [k] digits after the point, trailing zeros dropped. *)
Definition fraction_digits (m : Z) (k : Z) : pystr :=
  let f := (m mod 2 ^ k) * 5 ^ k in
  let ds := rev_digits (Z.to_nat k) f in
  let ds := ds ++ repeat 0x30%N (Z.to_nat k - length ds) in
  match rev (strip_zeros ds) with
  | [] => str "0"
  | r => r
  end.

(** A float as JSON text.  The text is the exact decimal value of the
    float, which [float()] reads back as the same float; [json.dumps] writes
    the shortest such text instead. *)
Definition ref_float (f : spec_float) : pystr :=
  match f with
  | S754_nan => str "NaN"
  | S754_infinity s => (if s then str "-" else []) ++ str "Infinity"
  | S754_zero s => (if s then str "-" else []) ++ str "0.0"
  | S754_finite s m e =>
      (if s then str "-" else [])
      ++ (if 0 <=? e then decimal (Zpos m * 2 ^ e) ++ str ".0"
          else decimal (Zpos m / 2 ^ (- e)) ++ str "."
               ++ fraction_digits (Zpos m) (- e))
  end.

Definition hex_char (d : N) : N :=
  if (d <? 10)%N then (0x30 + d)%N else (0x61 + (d - 10))%N.

(** [\uXXXX] *)
Definition u_escape (c : N) : pystr :=
  str "\u" ++ [hex_char (c / 4096 mod 16); hex_char (c / 256 mod 16);
               hex_char (c / 16 mod 16); hex_char (c mod 16)]%N.

(** One character of a JSON string with [ensure_ascii]. *)
Definition ref_char (c : N) : pystr :=
  if (c =? 0x22)%N then [0x5C; 0x22]%N
  else if (c =? 0x5C)%N then str "\\"
  else if (c =? 0x0A)%N then str "\n"
  else if (c =? 0x0D)%N then str "\r"
  else if (c =? 0x09)%N then str "\t"
  else if (c =? 0x08)%N then str "\b"
  else if (c =? 0x0C)%N then str "\f"
  else if in_range 0x20 0x7E c then [c]
  else if (c <? 0x10000)%N then u_escape c
  else u_escape (0xD800 + (c - 0x10000) / 1024)
       ++ u_escape (0xDC00 + (c - 0x10000) mod 1024).

Definition ref_string (s : pystr) : pystr :=
  [0x22%N] ++ flat_map ref_char s ++ [0x22%N].

Definition newline_indent (depth : nat) : pystr :=
  [0x0A%N] ++ repeat 0x20%N (4 * depth).

(** [json.dumps(v, indent=4)] at nesting depth [depth]. *)
Fixpoint ref_dumps_at (depth : nat) (v : pyval) : pystr :=
  match v with
  | PNone => str "null"
  | PBool b => if b then str "true" else str "false"
  | PInt z => decimal z
  | PFloat f => ref_float f
  | PStr s => ref_string s
  | PList [] => str "[]"
  | PList (x :: l) =>
      str "[" ++ newline_indent (S depth) ++ ref_dumps_at (S depth) x
      ++ (fix rest (l : list pyval) : pystr :=
            match l with
            | [] => []
            | y :: l' =>
                str "," ++ newline_indent (S depth)
                ++ ref_dumps_at (S depth) y ++ rest l'
            end) l
      ++ newline_indent depth ++ str "]"
  | PDict [] => str "{}"
  | PDict ((k, x) :: d) =>
      str "{" ++ newline_indent (S depth) ++ ref_string k ++ str ": "
      ++ ref_dumps_at (S depth) x
      ++ (fix rest (d : list (pystr * pyval)) : pystr :=
            match d with
            | [] => []
            | (k', y) :: d' =>
                str "," ++ newline_indent (S depth) ++ ref_string k'
                ++ str ": " ++ ref_dumps_at (S depth) y ++ rest d'
            end) d
      ++ newline_indent depth ++ str "}"
  end.

Definition ref_json_dumps (v : pyval) : pystr := ref_dumps_at 0 v.

(** JSON whitespace. *)
Definition is_json_ws (c : N) : bool :=
  ((c =? 0x20) || (c =? 0x09) || (c =? 0x0A) || (c =? 0x0D))%N.

Fixpoint skip_ws (s : pystr) : pystr :=
  match s with
  | c :: s' => if is_json_ws c then skip_ws s' else s
  | [] => []
  end.

Definition hex_value (c : N) : option N :=
  if in_range 0x30 0x39 c then Some (c - 0x30)%N
  else if in_range 0x61 0x66 c then Some (c - 0x61 + 10)%N
  else if in_range 0x41 0x46 c then Some (c - 0x41 + 10)%N
  else None.

Definition hex4 (s : pystr) : option (N * pystr) :=
  match s with
  | a :: b :: c :: d :: r =>
      match hex_value a, hex_value b, hex_value c, hex_value d with
      | Some a, Some b, Some c, Some d =>
          Some (a * 4096 + b * 256 + c * 16 + d, r)%N
      | _, _, _, _ => None
      end
  | _ => None
  end.

(** The body of a JSON string, after the opening quote. *)
Fixpoint read_string (fuel : nat) (s : pystr) (acc : pystr)
  : option (pystr * pystr) :=
  match fuel with
  | O => None
  | S fuel' =>
      match s with
      | [] => None
      | 0x22%N :: r => Some (rev acc, r)
      | 0x5C%N :: e :: r =>
          if (e =? 0x75)%N then
            match hex4 r with
            | Some (u, r1) =>
                match r1 with
                | 0x5C%N :: 0x75%N :: r2 =>
                    match hex4 r2 with
                    | Some (u2, r3) =>
                        if in_range 0xD800 0xDBFF u && in_range 0xDC00 0xDFFF u2
                        then read_string fuel' r3
                               ((0x10000 + (u - 0xD800) * 1024
                                 + (u2 - 0xDC00))%N :: acc)
                        else read_string fuel' r1 (u :: acc)
                    | None => read_string fuel' r1 (u :: acc)
                    end
                | _ => read_string fuel' r1 (u :: acc)
                end
            | None => None
            end
          else
            let simple (c : N) := read_string fuel' r (c :: acc) in
            if (e =? 0x22)%N then simple 0x22%N
            else if (e =? 0x5C)%N then simple 0x5C%N
            else if (e =? 0x2F)%N then simple 0x2F%N
            else if (e =? 0x62)%N then simple 0x08%N
            else if (e =? 0x66)%N then simple 0x0C%N
            else if (e =? 0x6E)%N then simple 0x0A%N
            else if (e =? 0x72)%N then simple 0x0D%N
            else if (e =? 0x74)%N then simple 0x09%N
            else None
      | c :: r =>
          if (c <? 0x20)%N then None else read_string fuel' r (c :: acc)
      end
  end.

Fixpoint ascii_digits (s : pystr) : pystr * pystr :=
  match s with
  | c :: s' =>
      if is_ascii_digit c
      then let '(ds, r) := ascii_digits s' in (c :: ds, r)
      else ([], s)
  | [] => ([], [])
  end.

(** A JSON number at the start of [s]: its text, whether it is an int, and
    the rest. *)
Definition read_number (s : pystr) : option (pystr * bool * pystr) :=
  let '(sign, s1) :=
    match s with 0x2D%N :: r => ([0x2D%N], r) | _ => ([], s) end in
  let '(ip, s2) := ascii_digits s1 in
  let '(ip, s2) :=
    match ip with
    | 0x30%N :: _ :: _ => ([0x30%N], drop 1 s1)
    | _ => (ip, s2)
    end in
  match ip with
  | [] => None
  | _ =>
      let '(fp, s3) :=
        match s2 with
        | 0x2E%N :: r =>
            let '(ds, r') := ascii_digits r in
            match ds with [] => ([], s2) | _ => (0x2E%N :: ds, r') end
        | _ => ([], s2)
        end in
      let '(ep, s4) :=
        match s3 with
        | e :: r =>
            if ((e =? 0x65) || (e =? 0x45))%N then
              let '(sg, r1) :=
                match r with
                | c :: r1 =>
                    if ((c =? 0x2B) || (c =? 0x2D))%N then ([c], r1)
                    else ([], r)
                | [] => ([], r)
                end in
              let '(ds, r2) := ascii_digits r1 in
              match ds with [] => ([], s3) | _ => (e :: sg ++ ds, r2) end
            else ([], s3)
        | [] => ([], s3)
        end in
      Some (sign ++ ip ++ fp ++ ep,
            match fp, ep with [], [] => true | _, _ => false end, s4)
  end.

Fixpoint strip_prefix (p s : pystr) : option pystr :=
  match p, s with
  | [], _ => Some s
  | a :: p', b :: s' => if (a =? b)%N then strip_prefix p' s' else None
  | _ :: _, [] => None
  end.

Definition res_value {A} (r : res A) : option A :=
  match r with Ret a => Some a | Raise _ => None end.

(** One JSON value at the start of [s] (no leading whitespace). *)
Fixpoint read_value (fuel : nat) (s : pystr) : option (pyval * pystr) :=
  match fuel with
  | O => None
  | S fuel' =>
      match s with
      | 0x22%N :: r =>
          match read_string (S (length r)) r [] with
          | Some (t, r') => Some (PStr t, r')
          | None => None
          end
      | 0x5B%N :: r =>
          match skip_ws r with
          | 0x5D%N :: r' => Some (PList [], r')
          | r0 =>
              (fix elements (n : nat) (s : pystr) (acc : list pyval) :=
                 match n with
                 | O => None
                 | S n' =>
                     match read_value fuel' (skip_ws s) with
                     | Some (v, r1) =>
                         match skip_ws r1 with
                         | 0x2C%N :: r2 => elements n' r2 (v :: acc)
                         | 0x5D%N :: r2 => Some (PList (rev (v :: acc)), r2)
                         | _ => None
                         end
                     | None => None
                     end
                 end) (S (length r0)) r0 []
          end
      | 0x7B%N :: r =>
          match skip_ws r with
          | 0x7D%N :: r' => Some (PDict [], r')
          | r0 =>
              (fix members (n : nat) (s : pystr) (acc : list (pystr * pyval)) :=
                 match n with
                 | O => None
                 | S n' =>
                     match skip_ws s with
                     | 0x22%N :: r1 =>
                         match read_string (S (length r1)) r1 [] with
                         | Some (k, r2) =>
                             match skip_ws r2 with
                             | 0x3A%N :: r3 =>
                                 match read_value fuel' (skip_ws r3) with
                                 | Some (v, r4) =>
                                     match skip_ws r4 with
                                     | 0x2C%N :: r5 =>
                                         members n' r5 (dict_set k v acc)
                                     | 0x7D%N :: r5 =>
                                         Some (PDict (dict_set k v acc), r5)
                                     | _ => None
                                     end
                                 | None => None
                                 end
                             | _ => None
                             end
                         | None => None
                         end
                     | _ => None
                     end
                 end) (S (length r0)) r0 []
          end
      | _ =>
          match strip_prefix (str "null") s, strip_prefix (str "true") s,
                strip_prefix (str "false") s, strip_prefix (str "NaN") s,
                strip_prefix (str "Infinity") s,
                strip_prefix (str "-Infinity") s with
          | Some r, _, _, _, _, _ => Some (PNone, r)
          | _, Some r, _, _, _, _ => Some (PBool true, r)
          | _, _, Some r, _, _, _ => Some (PBool false, r)
          | _, _, _, Some r, _, _ => Some (PFloat S754_nan, r)
          | _, _, _, _, Some r, _ => Some (PFloat (S754_infinity false), r)
          | _, _, _, _, _, Some r => Some (PFloat (S754_infinity true), r)
          | _, _, _, _, _, _ =>
              match read_number s with
              | Some (txt, true, r) =>
                  option_map (fun z => (PInt z, r)) (res_value (py_int txt))
              | Some (txt, false, r) =>
                  option_map (fun f => (PFloat f, r)) (res_value (py_float txt))
              | None => None
              end
          end
      end
  end.

(** [json.loads(s)]; the reference reader has no limit on nesting. *)
Definition ref_json_loads (s : pystr) : json_result :=
  match read_value (S (length s)) (skip_ws s) with
  | Some (v, r) =>
      match skip_ws r with
      | [] => JsonValue v
      | _ => JsonDecodeError
      end
  | None => JsonDecodeError
  end.

(** ** The program *)

Section Program.

(** Taken as given: [str.title], the text that the platform's [strftime]
    writes for [%Y], and the two functions of the [json] module, with
    [json_dumps v] standing for [json.dumps(v, indent=4)]. *)
Variable py_title : pystr -> pystr.
Variable strftime_Y : Z -> pystr.
Variable json_dumps : pyval -> pystr.
Variable json_loads : pystr -> json_result.

(** [d.strftime("%Y-%m-%d")] *)
Definition strftime_ymd (d : date) : pystr :=
  strftime_Y (d_year d) ++ str "-" ++ pad2 (d_month d) ++ str "-"
  ++ pad2 (d_day d).

(** [t.strftime("%Y%m%d%H%M%S")] *)
Definition strftime_stamp (t : datetime) : pystr :=
  strftime_Y (d_year (dt_date t)) ++ pad2 (d_month (dt_date t))
  ++ pad2 (d_day (dt_date t)) ++ pad2 (dt_hour t) ++ pad2 (dt_minute t)
  ++ pad2 (dt_second t).

(** [with open(path, "r") as f: json.load(f)] *)
Definition json_load (path : pystr) : M pyval :=
  t <- read_text path ;;
  match json_loads t with
  | JsonValue v => ret v
  | JsonDecodeError => raise JSONDecodeError
  | JsonRecursionError => raise RecursionError
  end.

Definition backup_name (t : datetime) : pystr :=
  FILE_NAME ++ str ".backup." ++ strftime_stamp t.

Definition load_expenses : M (list pyval) :=
  ex <- path_exists FILE_NAME ;;
  if negb ex then ret []
  else
    try_except2
      (data <- json_load FILE_NAME ;;
       match data with
       | PList l => ret l
       | _ => print MsgNotList ;; ret []
       end)
      is_JSONDecodeError
      (fun _ =>
         print MsgCorrupt ;;
         try_except
           (t <- now ;;
            let backup := backup_name t in
            rename FILE_NAME backup ;;
            print (MsgBackedUp backup))
           is_Exception (fun _ => ret tt) ;;
         ret [])
      is_Exception
      (fun e => print (MsgReadFailed e) ;; ret []).

Definition save_expenses (l : list pyval) : M unit :=
  try_except (write_text FILE_NAME (json_dumps (PList l)))
    is_Exception (fun e => print (MsgSaveFailed e)).

(** The [for fmt in formats] loop of [parse_date]. *)
Fixpoint try_formats (s : pystr) (fmts : list pystr) : res pystr :=
  match fmts with
  | [] => Raise ValueError
  | fmt :: fmts' =>
      match strptime s fmt with
      | Ret d => Ret (strftime_ymd d)
      | Raise e => if is_ValueError e then try_formats s fmts' else Raise e
      end
  end.

Definition parse_date (s : pystr) : M pystr :=
  let s := py_strip s in
  if pystr_eqb s [] then
    t <- now ;; ret (strftime_ymd (dt_date t))
  else lift (try_formats s formats).

(** The first [while True] of [add_expense]; [None] when cancelled. *)
Fixpoint ask_amount (fuel : nat) : M (option spec_float) :=
  match fuel with
  | O => raise Unmodelled
  | S fuel' =>
      line <- input ;;
      let amt_input := py_strip line in
      if pystr_eqb (py_lower amt_input) (str "q")
      then print MsgCancelled ;; ret None
      else
        r <- try_except
               (amount <- lift (sanitize_amount amt_input) ;;
                ret (Some amount))
               is_ValueError (fun _ => print MsgBadAmount ;; ret None) ;;
        match r with
        | Some amount => ret (Some amount)
        | None => ask_amount fuel'
        end
  end.

(** The second [while True] of [add_expense]; [None] when cancelled. *)
Fixpoint ask_date (fuel : nat) : M (option pystr) :=
  match fuel with
  | O => raise Unmodelled
  | S fuel' =>
      date_input <- input ;;
      if pystr_eqb (py_lower (py_strip date_input)) (str "q")
      then print MsgCancelled ;; ret None
      else
        r <- try_except
               (d <- parse_date date_input ;; ret (Some d))
               is_ValueError (fun _ => print MsgBadDate ;; ret None) ;;
        match r with
        | Some d => ret (Some d)
        | None => ask_date fuel'
        end
  end.

Definition new_expense (amount : spec_float) (category date : pystr)
  : pyval :=
  PDict [(str "amount", PFloat amount); (str "category", PStr category);
         (str "date", PStr date)].

Definition add_expense : M unit :=
  print MsgAddHeader ;;
  try_except
    (a <- with_fuel ask_amount ;;
     match a with
     | None => ret tt
     | Some amount =>
         line <- input ;;
         let category := py_title (py_strip line) in
         if pystr_eqb (py_lower category) (str "q") then print MsgCancelled
         else
           let category :=
             if pystr_eqb category [] then str "Misc" else category in
           d <- with_fuel ask_date ;;
           match d with
           | None => ret tt
           | Some date =>
               l <- get_expenses ;;
               put_expenses (l ++ [new_expense amount category date]) ;;
               l' <- get_expenses ;;
               save_expenses l' ;;
               print (MsgSaved amount category date)
           end
     end)
    is_KeyboardInterrupt (fun _ => print MsgInterrupted).

(** [sorted(expenses, key=lambda x: x["date"], reverse=True)] *)
Definition sorted_by_date (l : list pyval) : res (list pyval) :=
  py_sorted (fun x => py_getitem x (str "date")) true l.

(** [float(e["amount"])] *)
Definition amount_of (e : pyval) : res spec_float :=
  res_bind (py_getitem e (str "amount")) py_float_of.

(** The [for idx, e in enumerate(..., start=1)] loop of [list_expenses]. *)
Fixpoint print_items (idx : Z) (l : list pyval) : M unit :=
  match l with
  | [] => ret tt
  | e :: l' =>
      d <- lift (py_getitem e (str "date")) ;;
      c <- lift (py_getitem e (str "category")) ;;
      a <- lift (amount_of e) ;;
      print (MsgItem idx d c a) ;;
      print_items (idx + 1) l'
  end.

Definition list_expenses : M unit :=
  l <- get_expenses ;;
  match l with
  | [] => print MsgNoExpenses
  | _ =>
      print MsgListHeader ;;
      sl <- lift (sorted_by_date l) ;;
      print_items 1 sl
  end.

(** [e["date"][:7]] as a key of [by_month]. *)
Definition month_of (e : pyval) : res pystr :=
  res_bind (py_getitem e (str "date")) (fun d =>
  res_bind (py_slice7 d) (fun m =>
  match m with
  | PStr s => Ret s
  | _ => Raise TypeError
  end)).

(** The [for e in expenses] loop of [view_summary]. *)
Fixpoint group_sums (l : list pyval)
  (by_cat : list (pyval * spec_float)) (by_month : list (pystr * spec_float))
  : res (list (pyval * spec_float) * list (pystr * spec_float)) :=
  match l with
  | [] => Ret (by_cat, by_month)
  | e :: l' =>
      res_bind (py_getitem e (str "category")) (fun c =>
      res_bind (hashable c) (fun c =>
      res_bind (amount_of e) (fun a =>
      res_bind (month_of e) (fun m =>
      res_bind (amount_of e) (fun a' =>
      group_sums l' (dd_add py_eqb c a by_cat)
                    (dd_add pystr_eqb m a' by_month))))))
  end.

(** [sorted(by_cat.items(), key=lambda x: -x[1])]; comparisons with a NaN
    are left out of the model. *)
Definition sort_by_total (items : list (pyval * spec_float))
  : res (list (pyval * spec_float)) :=
  match items with
  | [] | [_] => Ret items
  | _ =>
      if existsb (fun kv => is_nan (snd kv)) items then Raise Unmodelled
      else Ret (stable_sort cat_lt items)
  end.

Fixpoint print_all {K} (msg : K -> spec_float -> message)
  (items : list (K * spec_float)) : M unit :=
  match items with
  | [] => ret tt
  | (k, x) :: items' => print (msg k x) ;; print_all msg items'
  end.

(** [sum(float(e["amount"]) for e in expenses)] *)
Definition sum_amounts (amounts : list spec_float) : spec_float :=
  fold_left (SFadd prec emax) amounts (S754_zero false).

Definition view_summary : M unit :=
  l <- get_expenses ;;
  match l with
  | [] => print MsgSummaryEmpty
  | _ =>
      amounts <- lift (map_res amount_of l) ;;
      print (MsgTotal (sum_amounts amounts)) ;;
      groups <- lift (group_sums l [] []) ;;
      print MsgByCategory ;;
      by_cat <- lift (sort_by_total (fst groups)) ;;
      print_all MsgCategory by_cat ;;
      print MsgByMonth ;;
      print_all MsgMonth
        (stable_sort (fun a b => pystr_ltb (fst a) (fst b)) (snd groups))
  end.

Definition is_selection_error (e : pyexc) : bool :=
  pyexc_eqb e IndexError || is_ValueError e.

Definition delete_expense : M unit :=
  l <- get_expenses ;;
  match l with
  | [] => print MsgNothingToDelete
  | _ =>
      list_expenses ;;
      try_except
        (line <- input ;;
         let choice := py_strip line in
         if pystr_eqb (py_lower choice) (str "q") then print MsgCancelled
         else
           n <- lift (py_int choice) ;;
           let idx := n - 1 in
           sorted_list <- lift (sorted_by_date l) ;;
           item <- lift (py_index sorted_list idx) ;;
           _ <- lift (py_getitem item (str "category")) ;;
           _ <- lift (py_getitem item (str "amount")) ;;
           _ <- lift (py_getitem item (str "date")) ;;
           line <- input ;;
           let confirm := py_lower (py_strip line) in
           if pystr_eqb confirm (str "y") then
             match find_index item l with
             | Some i =>
                 put_expenses (delete i l) ;;
                 l' <- get_expenses ;;
                 save_expenses l' ;;
                 print MsgDeleted
             | None => print MsgNotFound
             end
           else print MsgCancelled)
        is_selection_error (fun _ => print MsgInvalidSelection)
  end.

(** [expenses[i][k] = v] *)
Definition set_field (i : nat) (k : pystr) (v : pyval) : M unit :=
  l <- get_expenses ;;
  e <- lift (py_index l (Z.of_nat i)) ;;
  e' <- lift (py_setitem e k v) ;;
  put_expenses (<[i := e']> l).

Definition is_edit_error (e : pyexc) : bool :=
  pyexc_eqb e IndexError || is_ValueError e || pyexc_eqb e StopIteration.

Definition edit_expense : M unit :=
  l <- get_expenses ;;
  match l with
  | [] => print MsgNothingToEdit
  | _ =>
      list_expenses ;;
      try_except
        (line <- input ;;
         let choice := py_strip line in
         if pystr_eqb (py_lower choice) (str "q") then print MsgCancelled
         else
           n <- lift (py_int choice) ;;
           let idx := n - 1 in
           sorted_list <- lift (sorted_by_date l) ;;
           item <- lift (py_index sorted_list idx) ;;
           orig_index <- match find_index item l with
                         | Some i => ret i
                         | None => raise StopIteration
                         end ;;
           print MsgKeepHint ;;
           _ <- lift (py_getitem item (str "amount")) ;;
           line <- input ;;
           let new_amt := py_strip line in
           (if pystr_eqb new_amt [] then ret tt
            else
              try_except
                (a <- lift (sanitize_amount new_amt) ;;
                 set_field orig_index (str "amount") (PFloat a))
                is_ValueError (fun _ => print MsgKeepAmount)) ;;
           _ <- lift (py_getitem item (str "category")) ;;
           line <- input ;;
           let new_cat := py_strip line in
           (if pystr_eqb new_cat [] then ret tt
            else set_field orig_index (str "category")
                   (PStr (py_title new_cat))) ;;
           _ <- lift (py_getitem item (str "date")) ;;
           line <- input ;;
           let new_date := py_strip line in
           (if pystr_eqb new_date [] then ret tt
            else
              try_except
                (d <- parse_date new_date ;;
                 set_field orig_index (str "date") (PStr d))
                is_ValueError (fun _ => print MsgKeepDate)) ;;
           l' <- get_expenses ;;
           save_expenses l' ;;
           print MsgUpdated)
        is_edit_error (fun _ => print MsgInvalidSelection)
  end.

(** One turn of the menu; [false] when the user leaves. *)
Definition menu_turn : M bool :=
  print MsgMenu ;;
  line <- input ;;
  let choice := py_strip line in
  if pystr_eqb choice (str "1") then add_expense ;; ret true
  else if pystr_eqb choice (str "2") then view_summary ;; ret true
  else if pystr_eqb choice (str "3") then list_expenses ;; ret true
  else if pystr_eqb choice (str "4") then edit_expense ;; ret true
  else if pystr_eqb choice (str "5") then delete_expense ;; ret true
  else if pystr_eqb choice (str "6") then print MsgBye ;; ret false
  else print MsgPickNumber ;; ret true.

Fixpoint menu_loop (fuel : nat) : M unit :=
  match fuel with
  | O => raise Unmodelled
  | S fuel' =>
      continue <- menu_turn ;;
      if continue then menu_loop fuel' else ret tt
  end.

Definition main : M unit :=
  l <- load_expenses ;;
  put_expenses l ;;
  print MsgWelcome ;;
  try_except (with_fuel menu_loop)
    is_KeyboardInterrupt
    (fun _ =>
       print MsgSavingOnInterrupt ;;
       l' <- get_expenses ;;
       save_expenses l').


(** ** The notions that the properties speak of *)


(** The platform's [%Y] writes a year of four digits as those digits. *)
Hypothesis strftime_Y_four_digits :
  forall y, 1000 <= y <= 9999 -> strftime_Y y = pad4 y.


(** The "date" of a record, for a record that has one as a str. *)
Definition date_str (v : pyval) : pystr :=
  match py_getitem v (str "date") with
  | Ret (PStr d) => d
  | _ => []
  end.

Definition has_str_date (v : pyval) : bool :=
  match py_getitem v (str "date") with
  | Ret (PStr _) => true
  | _ => false
  end.

(** An amount is a number, an int or a float, that is finite as a
    float. *)
Definition amount_ok (v : pyval) : bool :=
  match v with
  | PFloat f => is_finite_or_zero f
  | PInt z => is_finite_or_zero (SF_of_Z z)
  | _ => false
  end.

(** An expense record: a dict of exactly the three fields, an amount that
    is a finite number, a category and a date that are str. *)
Definition is_record (v : pyval) : bool :=
  match v with
  | PDict d =>
      (length d =? 3)%nat &&
      match dict_lookup (str "amount") d, dict_lookup (str "category") d,
            dict_lookup (str "date") d with
      | Some a, Some (PStr _), Some (PStr _) => amount_ok a
      | _, _, _ => false
      end
  | _ => false
  end.

(** The order by which the displayed list is sorted. *)
Definition date_lt (a b : pyval) : bool :=
  pystr_ltb (date_str a) (date_str b).

(** Descending order of dates: an earlier element never has the smaller
    date. *)
Definition date_desc (a b : pyval) : Prop := date_lt a b = false.

Definition has_date (d : pystr) (v : pyval) : bool :=
  pystr_eqb (date_str v) d.

(** The value of a field of a record. *)
Definition field (k : pystr) (v : pyval) : pyval :=
  match py_getitem v k with
  | Ret x => x
  | Raise _ => PNone
  end.

(** The amount of a record as a float. *)
Definition amount_float (v : pyval) : spec_float :=
  match amount_of v with
  | Ret f => f
  | Raise _ => S754_nan
  end.

(** The lines that [list_expenses] prints for the records [l], numbered
    from [idx]. *)
Fixpoint listing (idx : Z) (l : list pyval) : list message :=
  match l with
  | [] => []
  | e :: l' =>
      MsgItem idx (field (str "date") e) (field (str "category") e)
        (amount_float e) :: listing (idx + 1) l'
  end.

(** [i] is the first position of [l] that holds a value equal to
    [item]. *)
Definition first_equal (item : pyval) (l : list pyval) (i : nat) : Prop :=
  (exists e, l !! i = Some e /\ py_eqb e item = true)
  /\ forall j e', (j < i)%nat -> l !! j = Some e' -> py_eqb e' item = false.

(** The edit of one field, in the words of the specification: a blank
    input keeps the old value; an input that does not parse keeps the old
    value and warns; an input that parses gives the new value. *)
Definition edit_amount (old : pyval) (text : pystr) : pyval * list message :=
  let t := py_strip text in
  if pystr_eqb t [] then (old, [])
  else
    match sanitize_amount t with
    | Ret x => (PFloat x, [])
    | Raise _ => (old, [MsgKeepAmount])
    end.

Definition edit_category (old : pyval) (text : pystr) : pyval :=
  let t := py_strip text in
  if pystr_eqb t [] then old else PStr (py_title t).

Definition edit_date (s : state) (old : pyval) (text : pystr)
  : pyval * list message :=
  let t := py_strip text in
  if pystr_eqb t [] then (old, [])
  else
    match fst (parse_date t s) with
    | Ret d => (PStr d, [])
    | Raise _ => (old, [MsgKeepDate])
    end.

(** The record [e] after the three inputs of an edit. *)
Definition edited (s : state) (e : pyval) (a c d : pystr) : pyval :=
  match e with
  | PDict fields =>
      PDict
        (dict_set (str "date")
           (fst (edit_date s (field (str "date") e) d))
           (dict_set (str "category")
              (edit_category (field (str "category") e) c)
              (dict_set (str "amount")
                 (fst (edit_amount (field (str "amount") e) a)) fields)))
  | _ => e
  end.

(** A dict that has the three fields of a record. *)
Definition has_three_fields (v : pyval) : bool :=
  match v with
  | PDict d =>
      match dict_lookup (str "amount") d, dict_lookup (str "category") d,
            dict_lookup (str "date") d with
      | Some _, Some _, Some _ => true
      | _, _, _ => false
      end
  | _ => false
  end.

Definition all_have_fields (l : list pyval) : Prop :=
  Forall (fun v => has_three_fields v = true) l.

(** A computation keeps the invariant: from a state whose list holds only
    dicts with the three fields it ends, returning or raising, in such a
    state. *)
Definition preserves {A} (m : M A) : Prop :=
  forall s, all_have_fields (expenses s) ->
            all_have_fields (expenses (snd (m s))).

(** The category of a record, and the month of its date. *)
Definition category_str (v : pyval) : pystr :=
  match field (str "category") v with
  | PStr c => c
  | _ => []
  end.

Definition month_str (v : pyval) : pystr := take 7 (date_str v).

(** The sum, in sequence order, of the amounts of the records of [l]
    whose key is [k]. *)
Definition group_total (key : pyval -> pystr) (k : pystr) (l : list pyval)
  : spec_float :=
  sum_amounts
    (List.map amount_float (List.filter (fun e => pystr_eqb (key e) k) l)).

(** The items of the dict that the loop of [view_summary] builds for the
    key [key]. *)
Definition groups (key : pyval -> pystr) (l : list pyval)
  : list (pystr * spec_float) :=
  fold_left (fun acc e => dd_add pystr_eqb (key e) (amount_float e) acc)
    l [].

Definition str_item (kv : pystr * spec_float) : pyval * spec_float :=
  (PStr (fst kv), snd kv).

(** What [view_summary] prints for the category items [cats] and the
    month items [months]. *)
Definition summary_report (total : spec_float)
  (cats months : list (pystr * spec_float)) : list message :=
  [MsgTotal total; MsgByCategory]
  ++ List.map (fun kv => MsgCategory (PStr (fst kv)) (snd kv)) cats
  ++ [MsgByMonth]
  ++ List.map (fun kv => MsgMonth (fst kv) (snd kv)) months.

(** The grouping of [l] by [key]: one item for each key that occurs, with
    the total of its records. *)
Definition groups_of (key : pyval -> pystr) (l : list pyval)
  (items : list (pystr * spec_float)) : Prop :=
  NoDup (List.map fst items)
  /\ (forall k, k ∈ List.map fst items <-> exists e, e ∈ l /\ key e = k)
  /\ (forall k v, (k, v) ∈ items -> v = group_total key k l).

(** The orders of the two reports on items with str keys. *)
Definition total_lt (a b : pystr * spec_float) : bool :=
  SFltb (SFopp (snd a)) (SFopp (snd b)).

Definition key_lt (a b : pystr * spec_float) : bool :=
  pystr_ltb (fst a) (fst b).

(** Descending order of totals: an earlier item never has the smaller
    total. *)
Definition total_desc (a b : pystr * spec_float) : Prop :=
  SFltb (snd a) (snd b) = false.

(** Ascending order of keys. *)
Definition key_asc (a b : pystr * spec_float) : Prop :=
  pystr_ltb (fst a) (fst b) = true.

(** The three records of the summary example. *)
Definition example_record (amount : Z) (category date : string) : pyval :=
  PDict [(str "amount", PInt amount); (str "category", PStr (str category));
         (str "date", PStr (str date))].

Definition summary_example : list pyval :=
  [example_record 10 "Food" "2024-01-05";
   example_record 5 "Food" "2024-02-01";
   example_record 20 "Transport" "2024-01-10"].

(** The five input shapes of a calendar day. *)
Definition month_abbr : list pystr :=
  List.map str ["Jan"; "Feb"; "Mar"; "Apr"; "May"; "Jun";
                "Jul"; "Aug"; "Sep"; "Oct"; "Nov"; "Dec"]%string.

Definition month_name : list pystr :=
  List.map str ["January"; "February"; "March"; "April"; "May"; "June";
                "July"; "August"; "September"; "October"; "November";
                "December"]%string.

Definition nth_month (names : list pystr) (m : Z) : pystr :=
  nth (Z.to_nat (m - 1)) names [].

(** The day of the month without padding. *)
Definition day_text (d : Z) : pystr :=
  if d <? 10 then [digit_char d] else pad2 d.

(** YYYY-MM-DD *)
Definition shape_iso (y m d : Z) : pystr :=
  pad4 y ++ str "-" ++ pad2 m ++ str "-" ++ pad2 d.

(** DD-MM-YYYY and DD/MM/YYYY *)
Definition shape_dmy (sep : N) (y m d : Z) : pystr :=
  pad2 d ++ [sep] ++ pad2 m ++ [sep] ++ pad4 y.

(** D Mon YYYY and D Month YYYY *)
Definition shape_named (names : list pystr) (y m d : Z) : pystr :=
  day_text d ++ str " " ++ nth_month names m ++ str " " ++ pad4 y.

Definition date_shapes (y m d : Z) : list pystr :=
  [shape_iso y m d; shape_dmy 0x2D y m d; shape_dmy 0x2F y m d;
   shape_named month_abbr y m d; shape_named month_name y m d].

Definition digits4 (a b c e : Z) : pystr :=
  [digit_char a; digit_char b; digit_char c; digit_char e].


(** The items of the five formats. *)
Definition items_iso : list item := [IY; ILit 0x2D; Im; ILit 0x2D; Id].

Definition items_dmy (sep : N) : list item :=
  [Id; ILit sep; Im; ILit sep; IY].

Definition items_named (it : item) : list item :=
  [Id; ISpaces; it; ISpaces; IY].

Definition no_match (its : list item) (s : pystr) : bool :=
  match match_items its s with
  | None => true
  | Some _ => false
  end.

(** States of the examples: no file unless given, a writable directory,
    the clock at 2024-03-09 14:05:07, the lines to be typed, the list. *)
Definition example_clock : datetime := mkdt (mkdate 2024 3 9) 14 5 7.

Definition example_state (files : list (pystr * file)) (input : list pystr)
  (l : list pyval) : state :=
  mkstate l (list_to_map files) true example_clock (List.map Line input) [].

Definition text_file (t : string) : file := mkfile true true (Text (str t)).

Definition corrupt_state : state :=
  example_state [(FILE_NAME, text_file "not json")] [] [].

Definition stored_state : state := example_state [] [] [].

Definition delete_state : state :=
  example_state [] [str "1"; str " Y "] summary_example.

Definition edit_state : state :=
  example_state []
    [str "1"; str "12.5"; str "eating out"; str "someday"] summary_example.

Definition summary_state : state := example_state [] [] summary_example.

Definition zero_state : state :=
  example_state [] [str "0"; str "y"] summary_example.

Definition zero_edit_state : state :=
  example_state [] [str "0"; str "99"; []; []] summary_example.

Definition bare_state : state :=
  example_state [(FILE_NAME, text_file "[{}]")] [str "6"] [].

(** ** What an operation leaves alone *)

(** [m] takes every state to one that [R] relates to it, whether it
    returns or raises. *)
Definition only {A} (R : state -> state -> Prop) (m : M A) : Prop :=
  forall s, R s (snd (m s)).

(** Nothing happened but printing. *)
Definition prints_only (s s' : state) : Prop :=
  exists out, s' = printed out s.

(** Only the console was used: lines were read and messages printed; the
    list, the files, the directory and the clock are as they were. *)
Definition console_only (s s' : state) : Prop :=
  expenses s' = expenses s /\ fs s' = fs s
  /\ dir_writable s' = dir_writable s /\ clock s' = clock s
  /\ (exists used, stdin s = used ++ stdin s')
  /\ (exists out, stdout s' = stdout s ++ out).

(** ** Selections that change nothing *)

(** The message with which the edit and delete prompts turn down the
    trimmed answer [choice] when [n] records are displayed; [None] when the
    answer selects a record. *)
Definition selection_message (n : nat) (choice : pystr) : option message :=
  if pystr_eqb (py_lower choice) (str "q") then Some MsgCancelled
  else
    match py_int choice with
    | Ret k =>
        if (1 - Z.of_nat n <=? k) && (k <=? Z.of_nat n) then None
        else Some MsgInvalidSelection
    | Raise _ => Some MsgInvalidSelection
    end.

(** [datetime(y, m, d)]: the date, or a [ValueError] when there is no such
    day. *)
Definition checked_date (y m d : Z) : res date :=
  if valid_date y m d then Ret (mkdate y m d) else Raise ValueError.

(** ** Answers that are asked again *)

(** An amount that is not [q] and does not parse. *)
Definition rejected_amount (t : pystr) : bool :=
  negb (pystr_eqb (py_lower (py_strip t)) (str "q"))
  && match sanitize_amount (py_strip t) with
     | Ret _ => false
     | Raise _ => true
     end.

(** A date that is not [q] and does not parse, in the state [s]. *)
Definition rejected_date (s : state) (t : pystr) : bool :=
  negb (pystr_eqb (py_lower (py_strip t)) (str "q"))
  && match fst (parse_date t s) with
     | Ret _ => false
     | Raise _ => true
     end.

(** The category under which [add_expense] files the answer [c]. *)
Definition category_of (c : pystr) : pystr :=
  if pystr_eqb (py_title (py_strip c)) [] then str "Misc"
  else py_title (py_strip c).

(** The message with which a prompt of [add_expense] gives up: [q], in
    either case and with blanks around it, cancels (at the category prompt
    the answer is title-cased first), and Ctrl-C interrupts; [None] when the
    answer is taken as a value. *)
Definition stop_message (titled : bool) (ev : event) : option message :=
  match ev with
  | CtrlC => Some MsgInterrupted
  | Line t =>
      let t' := if titled then py_title (py_strip t) else py_strip t in
      if pystr_eqb (py_lower t') (str "q") then Some MsgCancelled else None
  end.

(** ** The menu *)

(** The trimmed answer is one of [1] to [6]. *)
Definition menu_choice (t : pystr) : bool :=
  existsb (pystr_eqb (py_strip t))
    (List.map str ["1"; "2"; "3"; "4"; "5"; "6"]%string).

(** What is printed while [n] answers are turned down. *)
Fixpoint menu_noise (n : nat) : list message :=
  match n with
  | O => []
  | S n' => MsgMenu :: MsgPickNumber :: menu_noise n'
  end.

(** ** Records with a field missing *)

(** [v] is a dict with the key [k]. *)
Definition has_key (k : pystr) (v : pyval) : bool :=
  match py_getitem v k with
  | Ret _ => true
  | Raise _ => false
  end.

(** [float(v["amount"])] is a number. *)
Definition has_amount (v : pyval) : bool :=
  match amount_of v with
  | Ret _ => true
  | Raise _ => false
  end.

(** ** Amounts written in decimal *)

(** The number written by the decimal digits [ds]. *)
Definition digits_value (ds : list Z) : Z :=
  fold_left (fun acc d => acc * 10 + d) ds 0.

(** The ASCII text of the digits [ds]. *)
Definition digits_text (ds : list Z) : pystr := List.map digit_char ds.

Definition is_decimal_digit (d : Z) : bool := (0 <=? d) && (d <=? 9).

(** ** An edit that is interrupted *)

(** The record [e] after the amount typed in an edit. *)
Definition amount_edited (e : pyval) (a : pystr) : pyval :=
  match e with
  | PDict fields =>
      PDict (dict_set (str "amount")
               (fst (edit_amount (field (str "amount") e) a)) fields)
  | _ => e
  end.

(** ** States of further examples *)

Definition refused_state : state :=
  example_state [] [str "7"] summary_example.

Definition typing_state : state :=
  example_state []
    [str "abc"; str "Rs 1,250.50"; str " food  court "; str "31/02/2023"; []]
    [].

Definition leaving_state : state := example_state [] [str "9"; str "6"] [].

Definition fieldless_state : state :=
  example_state [] [] [example_record 10 "Food" "2024-01-05"; PDict []].

Definition interrupted_state : state :=
  mkstate summary_example ∅ true example_clock
    [Line (str "1"); Line (str "99"); CtrlC] [].

(** * Properties *)

(** ** Amounts *)

Lemma is_space_not_amount_char c :
  is_space c = true -> amount_char c = false.
Proof.
  unfold is_space. intros H.
  apply existsb_exists in H as (x & Hx & Hc).
  apply N.eqb_eq in Hc. subst x.
  assert (Hall : forallb (fun c => negb (amount_char c)) spaces = true)
    by (vm_compute; reflexivity).
  rewrite forallb_forall in Hall.
  specialize (Hall c Hx). now apply negb_true_iff in Hall.
Qed.

Lemma filter_lstrip s :
  List.filter amount_char (lstrip s) = List.filter amount_char s.
Proof.
  induction s as [|c s IH]; simpl; [reflexivity|].
  destruct (is_space c) eqn:Hc; [|reflexivity].
  rewrite IH. now rewrite (is_space_not_amount_char c Hc).
Qed.

Lemma filter_py_strip s :
  List.filter amount_char (py_strip s) = List.filter amount_char s.
Proof.
  unfold py_strip, rstrip.
  rewrite List.filter_rev, filter_lstrip, <- List.filter_rev, rev_involutive.
  apply filter_lstrip.
Qed.

Lemma filter_nil_existsb {A} (p : A -> bool) (l : list A) :
  List.filter p l = [] <-> existsb p l = false.
Proof.
  induction l as [|x l IH]; simpl; [tauto|].
  destruct (p x); simpl; [split; discriminate | exact IH].
Qed.

Lemma py_float_raises_ValueError s e :
  py_float s = Raise e -> e = ValueError.
Proof.
  unfold py_float.
  destruct (parse_sign (py_strip s)) as [neg s1].
  destruct (pystr_eqb _ _ || pystr_eqb _ _); [discriminate|].
  destruct (pystr_eqb _ _); [discriminate|].
  destruct (digits_us 0 0 false s1) as [[iv ni] s2].
  destruct (match s2 with
            | 0x2E%N :: s2' => digits_us iv 0 false s2'
            | _ => (iv, 0, s2)
            end) as [[fv nf] s3].
  destruct (0 <? ni + nf); [|congruence].
  destruct (parse_exponent s3) as [[ex [|c r]]|]; congruence.
Qed.

Lemma sanitize_amount_unfold (s : pystr) :
  sanitize_amount s =
    (if existsb amount_char s then py_float (List.filter amount_char s)
     else Raise ValueError).
Proof.
  unfold sanitize_amount, pystr_eqb. rewrite filter_py_strip.
  destruct (existsb amount_char s) eqn:Hex.
  - rewrite bool_decide_eq_false_2; [reflexivity|].
    rewrite filter_nil_existsb. congruence.
  - rewrite bool_decide_eq_true_2; [reflexivity|].
    now apply filter_nil_existsb.
Qed.

Lemma sanitize_amount_raises_ValueError s e :
  sanitize_amount s = Raise e -> e = ValueError.
Proof.
  rewrite sanitize_amount_unfold.
  destruct (existsb amount_char s); [|congruence].
  apply py_float_raises_ValueError.
Qed.


(** ** Loading *)

Lemma is_ascii_digit_digit_char k :
  is_ascii_digit (digit_char (k mod 10)) = true.
Proof.
  unfold is_ascii_digit, digit_char.
  pose proof (Z.mod_pos_bound k 10 ltac:(lia)).
  apply andb_true_intro; split; apply N.leb_le; lia.
Qed.

Lemma strftime_stamp_form (t : datetime) :
  1000 <= d_year (dt_date t) <= 9999 ->
  strftime_stamp t =
    pad4 (d_year (dt_date t)) ++ pad2 (d_month (dt_date t))
    ++ pad2 (d_day (dt_date t)) ++ pad2 (dt_hour t) ++ pad2 (dt_minute t)
    ++ pad2 (dt_second t)
  /\ length (strftime_stamp t) = 14%nat
  /\ forallb is_ascii_digit (strftime_stamp t) = true.
Proof.
  intros Hy. unfold strftime_stamp.
  rewrite (strftime_Y_four_digits _ Hy).
  split; [reflexivity|]. split; [reflexivity|].
  unfold pad4, pad2. simpl.
  now rewrite !is_ascii_digit_digit_char.
Qed.

(** C1.  [load_expenses] returns from every state, whatever the backing
    file holds, and it touches neither the list in memory nor the pending
    input.  With no file it returns the empty list and does nothing else.
    When the text does not parse as JSON it warns, returns the empty list,
    and renames the file to the backup name if the directory allows it
    (a refused rename changes nothing and is not reported).  When the text
    parses to something that is not a list it warns, returns the empty
    list and leaves the files alone.  When the text parses to a list it
    returns that list.  Any other failure to read is reported and gives
    the empty list.  The backup name is the file name, [.backup.] and the
    fourteen digits of the clock's year, month, day, hour, minute and
    second. *)
Theorem load_expenses_never_raises (s : state) :
  1000 <= d_year (dt_date (clock s)) <= 9999 ->
  let backup := backup_name (clock s) in
  (backup = FILE_NAME ++ str ".backup." ++ strftime_stamp (clock s)
   /\ length (strftime_stamp (clock s)) = 14%nat
   /\ forallb is_ascii_digit (strftime_stamp (clock s)) = true)
  /\ exists l s',
    load_expenses s = (Ret l, s')
    /\ expenses s' = expenses s /\ stdin s' = stdin s
    /\ match fs s !! FILE_NAME with
       | None => l = [] /\ s' = s
       | Some f =>
           if f_readable f then
             match f_data f with
             | Text t =>
                 match json_loads t with
                 | JsonValue (PList l0) => l = l0 /\ s' = s
                 | JsonValue _ =>
                     l = [] /\ fs s' = fs s
                     /\ stdout s' = stdout s ++ [MsgNotList]
                 | JsonDecodeError =>
                     l = []
                     /\ if dir_writable s then
                          fs s' = <[backup := f]> (delete FILE_NAME (fs s))
                          /\ stdout s' =
                               stdout s ++ [MsgCorrupt; MsgBackedUp backup]
                        else
                          fs s' = fs s
                          /\ stdout s' = stdout s ++ [MsgCorrupt]
                 | JsonRecursionError =>
                     l = [] /\ fs s' = fs s
                     /\ stdout s' =
                          stdout s ++ [MsgReadFailed RecursionError]
                 end
             | Undecodable =>
                 l = [] /\ fs s' = fs s
                 /\ stdout s' =
                      stdout s ++ [MsgReadFailed UnicodeDecodeError]
             end
           else
             l = [] /\ fs s' = fs s
             /\ stdout s' = stdout s ++ [MsgReadFailed PermissionError]
       end.
Proof.
  intros Hy backup. split.
  { split; [reflexivity|]. apply (strftime_stamp_form _ Hy). }
  destruct s as [l0 files dw clk inp out]. simpl in *.
  unfold load_expenses, try_except2, try_except, json_load, bind,
    path_exists, read_text, rename, print, printed, put_fs, now, ret, raise.
  simpl.
  destruct (files !! FILE_NAME) as [f|] eqn:Hf.
  2:{ rewrite bool_decide_eq_false_2 by (intros [? ?]; discriminate).
      simpl. eauto 10. }
  rewrite bool_decide_eq_true_2 by eauto. simpl. rewrite Hf.
  destruct (f_readable f); simpl; [|eauto 10].
  destruct (f_data f) as [t|]; simpl; [|eauto 10].
  destruct (json_loads t) as [v| |]; simpl.
  - destruct v; simpl; eauto 10.
  - rewrite Hf. destruct dw; simpl; rewrite <- ?app_assoc; simpl;
      eauto 10.
  - eauto 10.
Qed.

(** ** Saving, then loading *)


(** ** Sorting *)

Section SortingFacts.
Context {A : Type} (lt : A -> A -> bool) (P : A -> Prop).

Lemma insert_sorted_perm x l : insert_sorted lt x l ≡ₚ x :: l.
Proof.
  induction l as [|y l IH]; simpl; [reflexivity|].
  destruct (lt y x); [|reflexivity].
  rewrite IH. apply Permutation_swap.
Qed.

Lemma stable_sort_perm l : stable_sort lt l ≡ₚ l.
Proof.
  induction l as [|x l IH]; simpl; [reflexivity|].
  rewrite insert_sorted_perm. now rewrite IH.
Qed.

(** An element of a class whose members are never below one another
    stays in front of the members already there. *)
Lemma insert_sorted_filter (p : A -> bool) x l :
  (forall y, p x = true -> p y = true -> lt y x = false) ->
  List.filter p (insert_sorted lt x l) = List.filter p (x :: l).
Proof.
  intros Hp. induction l as [|y l IH]; simpl; [reflexivity|].
  destruct (lt y x) eqn:Hlt; [|reflexivity].
  simpl in *. rewrite IH. pose proof (Hp y) as Hpy.
  destruct (p x) eqn:Hx, (p y) eqn:Hy; try reflexivity.
  rewrite Hpy in Hlt by reflexivity. discriminate.
Qed.

Lemma stable_sort_filter (p : A -> bool) l :
  (forall x y, p x = true -> p y = true -> lt y x = false) ->
  List.filter p (stable_sort lt l) = List.filter p l.
Proof.
  intros Hp. induction l as [|x l IH]; simpl; [reflexivity|].
  rewrite insert_sorted_filter by eauto. simpl. now rewrite IH.
Qed.

Hypothesis lt_asym :
  forall x y, P x -> P y -> lt x y = true -> lt y x = false.
Hypothesis lt_cotrans :
  forall x y z, P x -> P y -> P z ->
    lt x z = true -> lt x y = true \/ lt y z = true.

Lemma insert_sorted_sorted x l :
  P x -> Forall P l -> StronglySorted (not_above lt) l ->
  StronglySorted (not_above lt) (insert_sorted lt x l).
Proof.
  intros Hx Hl Hs. induction l as [|y l IH]; simpl.
  - repeat constructor.
  - apply Forall_cons in Hl as [Hy Hl].
    apply StronglySorted_cons in Hs as [Hyl Hs].
    destruct (lt y x) eqn:Hlt.
    + apply StronglySorted_cons. split; [|now apply IH].
      rewrite insert_sorted_perm. constructor; [|exact Hyl].
      unfold not_above. now apply lt_asym.
    + apply StronglySorted_cons. split.
      * constructor; [exact Hlt|].
        rewrite Forall_forall in Hyl, Hl |- *. intros z Hz.
        unfold not_above in *.
        destruct (lt z x) eqn:Hzx; [|reflexivity].
        destruct (lt_cotrans z y x) as [H|H]; auto.
        -- rewrite Hyl in H by assumption. discriminate.
        -- congruence.
      * apply StronglySorted_cons. now split.
Qed.

Lemma stable_sort_sorted l :
  Forall P l -> StronglySorted (not_above lt) (stable_sort lt l).
Proof.
  induction l as [|x l IH]; simpl; intros Hl; [constructor|].
  apply Forall_cons in Hl as [Hx Hl].
  apply insert_sorted_sorted; auto.
  now rewrite stable_sort_perm.
Qed.
End SortingFacts.

Lemma StronglySorted_rev {A} (R : A -> A -> Prop) (l : list A) :
  StronglySorted R l -> StronglySorted (flip R) (rev l).
Proof.
  induction 1 as [|x l Hs IH Hx]; simpl; [constructor|].
  apply StronglySorted_app. split; [|split].
  - intros a b Ha Hb. apply list_elem_of_singleton in Hb. subst b.
    apply list_elem_of_In, in_rev, list_elem_of_In in Ha.
    rewrite Forall_forall in Hx. unfold flip. auto.
  - exact IH.
  - apply StronglySorted_cons. split; constructor.
Qed.

(** Sorting the decorated list and dropping the keys is sorting by the
    key. *)
Lemma insert_sorted_decorated {A K} (ltk : K -> K -> bool) (k : A -> K)
  (x : A) (l : list (K * A)) :
  Forall (fun p => fst p = k (snd p)) l ->
  List.map snd (insert_sorted (fun a b => ltk (fst a) (fst b)) (k x, x) l)
  = insert_sorted (fun a b => ltk (k a) (k b)) x (List.map snd l).
Proof.
  induction 1 as [|[ky y] l Hy Hl IH]; simpl; [reflexivity|].
  simpl in Hy. subst ky.
  destruct (ltk (k y) (k x)); simpl; [|reflexivity].
  now rewrite IH.
Qed.

Lemma stable_sort_decorated {A K} (ltk : K -> K -> bool) (k : A -> K)
  (l : list A) :
  List.map snd (stable_sort (fun a b => ltk (fst a) (fst b))
                  (List.map (fun x => (k x, x)) l))
  = stable_sort (fun a b => ltk (k a) (k b)) l.
Proof.
  induction l as [|x l IH]; simpl; [reflexivity|].
  rewrite insert_sorted_decorated, IH; [reflexivity|].
  rewrite stable_sort_perm. apply Forall_forall.
  intros p Hp. apply list_elem_of_In, in_map_iff in Hp as (y & <- & _).
  reflexivity.
Qed.

Lemma pystr_ltb_irrefl a : pystr_ltb a a = false.
Proof.
  induction a as [|x a IH]; simpl; [reflexivity|].
  rewrite N.ltb_irrefl, N.eqb_refl. exact IH.
Qed.

Lemma pystr_ltb_asym a b : pystr_ltb a b = true -> pystr_ltb b a = false.
Proof.
  revert b. induction a as [|x a IH]; intros [|y b]; simpl; try congruence.
  destruct (N.ltb_spec x y), (N.ltb_spec y x), (N.eqb_spec x y),
    (N.eqb_spec y x); simpl; try lia; try congruence.
  apply IH.
Qed.

Lemma pystr_ltb_cotrans a b c :
  pystr_ltb a c = true -> pystr_ltb a b = true \/ pystr_ltb b c = true.
Proof.
  clear py_title strftime_Y_four_digits strftime_Y json_dumps json_loads.
  revert b c.
  induction a as [|x a IH]; intros [|y b] [|z c]; simpl; try tauto;
    try congruence.
  destruct (N.ltb_spec x z), (N.ltb_spec x y), (N.ltb_spec y z),
    (N.eqb_spec x z), (N.eqb_spec x y), (N.eqb_spec y z); simpl;
    try lia; try tauto; try congruence.
  apply IH.
Qed.

Lemma pystr_ltb_total a b :
  pystr_ltb a b = false -> pystr_ltb b a = false -> a = b.
Proof.
  revert b. induction a as [|x a IH]; intros [|y b]; simpl; try congruence.
  destruct (N.ltb_spec x y), (N.ltb_spec y x), (N.eqb_spec x y),
    (N.eqb_spec y x); simpl; try lia; try congruence.
  intros H1 H2. f_equal; [assumption|]. now apply IH.
Qed.

Lemma map_res_date_keys l :
  Forall (fun v => has_str_date v = true) l ->
  map_res (fun x => res_bind (py_getitem x (str "date"))
                      (fun k => Ret (k, x))) l
  = Ret (List.map (fun x => (PStr (date_str x), x)) l).
Proof.
  induction 1 as [|x l Hx Hl IH]; simpl; [reflexivity|].
  rewrite IH. unfold has_str_date, date_str in *.
  destruct (py_getitem x (str "date")) as [[]|]; try discriminate.
  reflexivity.
Qed.

Lemma all_str_keys_dates (l : list pyval) :
  all_str_keys (List.map (fun x => (PStr (date_str x), x)) l)
  = Some (List.map (fun x => (date_str x, x)) l).
Proof.
  induction l as [|x l IH]; simpl; [reflexivity|]. now rewrite IH.
Qed.

Lemma sorted_by_date_records l :
  Forall (fun v => has_str_date v = true) l ->
  sorted_by_date l = Ret (list_sort date_lt true l).
Proof.
  intros Hl. unfold sorted_by_date, py_sorted.
  rewrite (map_res_date_keys l Hl). simpl.
  destruct l as [|x [|y l]]; try reflexivity.
  change (all_str_keys
            (List.map (fun x => (PStr (date_str x), x)) (x :: y :: l)))
    with (all_str_keys
            (List.map (fun x => (PStr (date_str x), x)) (x :: y :: l))).
  set (l' := x :: y :: l).
  change ((PStr (date_str x), x) :: (PStr (date_str y), y)
            :: List.map (fun x => (PStr (date_str x), x)) l)
    with (List.map (fun x => (PStr (date_str x), x)) l').
  rewrite all_str_keys_dates.
  unfold list_sort. rewrite <- map_rev, List.map_rev.
  now rewrite (stable_sort_decorated pystr_ltb date_str).
Qed.

(** ** Records *)

Lemma is_record_inv v :
  is_record v = true ->
  exists d a c dt,
    v = PDict d /\ length d = 3%nat
    /\ dict_lookup (str "amount") d = Some a /\ amount_ok a = true
    /\ dict_lookup (str "category") d = Some (PStr c)
    /\ dict_lookup (str "date") d = Some (PStr dt).
Proof.
  destruct v as [| | | | |?|d]; try discriminate. simpl.
  intros H. apply andb_prop in H as [Hlen H].
  apply Nat.eqb_eq in Hlen.
  destruct (dict_lookup (str "amount") d) as [a|] eqn:Ha; [|discriminate].
  destruct (dict_lookup (str "category") d) as [[| | | |c| |]|] eqn:Hc;
    try discriminate.
  destruct (dict_lookup (str "date") d) as [[| | | |dt| |]|] eqn:Hd;
    try discriminate.
  exists d, a, c, dt. repeat split; auto.
Qed.

Lemma is_record_has_str_date v :
  is_record v = true -> has_str_date v = true.
Proof.
  intros H. apply is_record_inv in H as (d & a & c & dt & -> & _ & _ & _ & _ & Hd).
  unfold has_str_date. simpl. now rewrite Hd.
Qed.

Lemma amount_ok_float a :
  amount_ok a = true ->
  exists f, py_float_of a = Ret f /\ is_finite_or_zero f = true.
Proof.
  destruct a; simpl; try discriminate; intros H.
  - rewrite H. eauto.
  - eauto.
Qed.

Lemma is_record_amount v :
  is_record v = true ->
  exists f, amount_of v = Ret f /\ is_finite_or_zero f = true.
Proof.
  intros H. apply is_record_inv in H as (d & a & c & dt & -> & _ & Ha & Hok & _ & _).
  unfold amount_of. simpl. rewrite Ha. simpl. now apply amount_ok_float.
Qed.

Lemma Forall_records_dates l :
  Forall (fun v => is_record v = true) l ->
  Forall (fun v => has_str_date v = true) l.
Proof.
  intros H. eapply Forall_impl; [exact H|]. exact is_record_has_str_date.
Qed.

(** ** The displayed order *)

Lemma list_sort_date_perm l : list_sort date_lt true l ≡ₚ l.
Proof.
  unfold list_sort.
  now rewrite <- Permutation_rev, stable_sort_perm, <- Permutation_rev.
Qed.

(** C9.  For every sequence of records, the displayed ordering, the one
    that [list_expenses], [edit_expense] and [delete_expense] all compute
    with [sorted_by_date], holds the same records as the sequence, is in
    descending order of the date text compared code point by code point,
    and is stable: the records of any one date come in the order they
    have in the sequence. *)
Theorem displayed_order_is_stable_date_descending (l : list pyval) :
  Forall (fun v => is_record v = true) l ->
  exists sl,
    sorted_by_date l = Ret sl
    /\ sl ≡ₚ l
    /\ StronglySorted date_desc sl
    /\ forall d, List.filter (has_date d) sl = List.filter (has_date d) l.
Proof.
  intros Hl. exists (list_sort date_lt true l).
  split; [apply sorted_by_date_records, Forall_records_dates, Hl|].
  split; [apply list_sort_date_perm|]. split.
  - unfold list_sort.
    apply (StronglySorted_rev (not_above date_lt)).
    apply (stable_sort_sorted date_lt (fun _ => True)).
    + intros x y _ _. apply pystr_ltb_asym.
    + intros x y z _ _ _. apply pystr_ltb_cotrans.
    + apply Forall_forall. auto.
  - intros d. unfold list_sort.
    rewrite List.filter_rev, stable_sort_filter, <- List.filter_rev.
    + now rewrite rev_involutive.
    + unfold has_date, pystr_eqb, date_lt. intros x y Hx Hy.
      apply bool_decide_eq_true in Hx, Hy. rewrite Hx, Hy.
      apply pystr_ltb_irrefl.
Qed.

(** ** Running the listing *)

Lemma printed_printed a b s : printed b (printed a s) = printed (a ++ b) s.
Proof. destruct s. unfold printed. simpl. now rewrite app_assoc. Qed.

Lemma print_items_records idx l s :
  Forall (fun v => is_record v = true) l ->
  print_items idx l s = (Ret tt, printed (listing idx l) s).
Proof.
  intros Hl. revert idx s.
  induction Hl as [|e l He Hl IH]; intros idx s; simpl.
  - destruct s. unfold ret, printed. simpl. now rewrite app_nil_r.
  - destruct (is_record_amount e He) as (f & Hf & _).
    apply is_record_inv in He as (d & a & c & dt & -> & _ & Ha & _ & Hc & Hd).
    unfold bind, lift, print, field, amount_float. rewrite Hf.
    simpl. rewrite Hc, Hd. rewrite IH.
    now rewrite printed_printed.
Qed.

Lemma list_expenses_records s :
  expenses s <> [] ->
  Forall (fun v => is_record v = true) (expenses s) ->
  list_expenses s =
    (Ret tt,
     printed (MsgListHeader
                :: listing 1 (list_sort date_lt true (expenses s))) s).
Proof.
  intros Hne Hl.
  unfold list_expenses, bind, get_expenses, print, lift.
  destruct (expenses s) as [|e l] eqn:He; [congruence|].
  replace (expenses (printed [MsgListHeader] s)) with (e :: l)
    by (now destruct s).
  rewrite (sorted_by_date_records (e :: l))
    by (apply Forall_records_dates, Hl).
  rewrite print_items_records.
  - now rewrite printed_printed.
  - eapply Forall_forall. intros x Hx.
    rewrite Forall_forall in Hl. apply Hl.
    now rewrite <- (list_sort_date_perm (e :: l)).
Qed.

(** ** Equality of records *)

Lemma SFeqb_refl f : is_finite_or_zero f = true -> SFeqb f f = true.
Proof.
  destruct f as [s|s| |s m e]; try discriminate; intros _;
    unfold SFeqb; simpl; [reflexivity|].
  destruct s; now rewrite Z.compare_refl, Pos.compare_cont_refl.
Qed.

Lemma amount_eqb_refl a : amount_ok a = true -> py_eqb a a = true.
Proof.
  destruct a; simpl; try discriminate; intros H.
  - unfold num_eqb. simpl. now rewrite Z.compare_refl.
  - unfold num_eqb. simpl. apply SFeqb_refl in H.
    unfold SFeqb in H. destruct (SFcompare f f) as [[]|]; congruence.
Qed.

Lemma pystr_eqb_refl s : pystr_eqb s s = true.
Proof. now apply bool_decide_eq_true_2. Qed.

Lemma pystr_eqb_eq s t : pystr_eqb s t = true <-> s = t.
Proof. apply bool_decide_eq_true. Qed.

Lemma is_record_eqb_refl v : is_record v = true -> py_eqb v v = true.
Proof.
  intros H.
  apply is_record_inv in H as (d & a & c & dt & -> & Hlen & Ha & Hok & Hc & Hd).
  destruct d as [|[k1 v1] [|[k2 v2] [|[k3 v3] [|]]]]; try discriminate.
  pose proof (amount_eqb_refl a Hok) as Hea.
  assert (Hec : py_eqb (PStr c) (PStr c) = true) by apply pystr_eqb_refl.
  assert (Hed : py_eqb (PStr dt) (PStr dt) = true) by apply pystr_eqb_refl.
  simpl in Ha, Hc, Hd. unfold pystr_eqb in Ha, Hc, Hd.
  repeat (case_bool_decide; simplify_eq);
    cbn [py_eqb length Nat.eqb andb dict_lookup]; unfold pystr_eqb;
    repeat (first [ rewrite bool_decide_eq_true_2 by reflexivity
                  | rewrite bool_decide_eq_false_2 by discriminate ]);
    cbn [py_eqb]; unfold pystr_eqb;
    rewrite ?Hea, ?bool_decide_eq_true_2 by reflexivity; reflexivity.
Qed.

(** ** Selecting a record *)

Lemma find_index_first item l i :
  find_index item l = Some i -> first_equal item l i.
Proof.
  revert i. induction l as [|e l IH]; simpl; intros i; [discriminate|].
  destruct (py_eqb e item) eqn:He.
  - intros [= <-]. split; [eauto|]. intros j e' Hj. lia.
  - destruct (find_index item l) as [i'|]; [|discriminate].
    intros [= <-]. destruct (IH i' eq_refl) as [Hex Hbefore].
    split; [exact Hex|].
    intros [|j] e' Hj; simpl; [congruence|].
    apply Hbefore. lia.
Qed.

Lemma find_index_elem item l :
  item ∈ l -> py_eqb item item = true ->
  exists i, find_index item l = Some i.
Proof.
  intros Hin Hrefl. induction l as [|e l IH]; simpl.
  - apply elem_of_nil in Hin. contradiction.
  - destruct (py_eqb e item) eqn:He; [eauto|].
    apply elem_of_cons in Hin as [->|Hin]; [congruence|].
    destruct (IH Hin) as [i ->]. simpl. eauto.
Qed.

Lemma py_index_in_range {A} (l : list A) (k : Z) :
  1 <= k <= Z.of_nat (length l) ->
  exists x, l !! Z.to_nat (k - 1) = Some x /\ py_index l (k - 1) = Ret x.
Proof.
  intros Hk. unfold py_index.
  destruct (l !! Z.to_nat (k - 1)) as [x|] eqn:Hx.
  - exists x. split; [reflexivity|].
    replace (k - 1 <? 0) with false by (symmetry; apply Z.ltb_ge; lia).
    replace (0 <=? k - 1) with true by (symmetry; apply Z.leb_le; lia).
    replace (k - 1 <? Z.of_nat (length l)) with true
      by (symmetry; apply Z.ltb_lt; lia).
    simpl. now rewrite Hx.
  - apply lookup_ge_None in Hx. lia.
Qed.

Lemma lower_char_q x :
  lower_char x = 0x71%N -> x = 0x71%N \/ x = 0x51%N.
Proof.
  unfold lower_char.
  destruct ((0x41 <=? x)%N && (x <=? 0x5A)%N)%bool; lia.
Qed.

(** A text that lower-cases to [q] is not an integer. *)
Lemma py_int_not_q c k :
  py_int c = Ret k -> pystr_eqb (py_lower c) (str "q") = false.
Proof.
  intros Hint. apply bool_decide_eq_false. intros Hq.
  destruct c as [|x [|]]; try discriminate.
  injection Hq as Hq. apply lower_char_q in Hq as [-> | ->];
    vm_compute in Hint; discriminate.
Qed.

(** ** Deleting *)

Lemma record_fields_readable v :
  is_record v = true ->
  exists a c dt,
    py_getitem v (str "amount") = Ret a
    /\ py_getitem v (str "category") = Ret c
    /\ py_getitem v (str "date") = Ret dt.
Proof.
  intros H.
  apply is_record_inv in H as (d & a & c & dt & -> & _ & Ha & _ & Hc & Hd).
  simpl. rewrite Ha, Hc, Hd. now do 3 eexists.
Qed.

(** What the selection of the [k]-th displayed record finds. *)
Lemma selection_of_records l k :
  Forall (fun v => is_record v = true) l ->
  1 <= k <= Z.of_nat (length l) ->
  exists item i,
    list_sort date_lt true l !! Z.to_nat (k - 1) = Some item
    /\ py_index (list_sort date_lt true l) (k - 1) = Ret item
    /\ is_record item = true
    /\ find_index item l = Some i
    /\ first_equal item l i.
Proof.
  intros Hl Hk.
  destruct (py_index_in_range (list_sort date_lt true l) k)
    as (item & Hlook & Hidx).
  { now rewrite (Permutation_length (list_sort_date_perm l)). }
  assert (Hin : item ∈ l).
  { rewrite <- (list_sort_date_perm l).
    apply list_elem_of_lookup. eauto. }
  assert (Hrec : is_record item = true).
  { rewrite Forall_forall in Hl. auto. }
  destruct (find_index_elem item l Hin (is_record_eqb_refl _ Hrec))
    as [i Hi].
  exists item, i. repeat split; auto; apply find_index_first, Hi.
Qed.

(** C5.  Take a non-empty sequence of records, a selection that reads as
    the number [k] of a displayed position, and any answer to the
    confirmation.  The selected record is the [k]-th of the displayed
    ordering, and [i] is the first position of the sequence that holds a
    record equal to it.  If the answer, trimmed and lower-cased, is [y],
    the sequence loses exactly the element at position [i], so it is one
    shorter, and [save_expenses] is then run on the shortened sequence.
    With any other answer, the empty one included, the operation is
    cancelled: the sequence and the files are as they were. *)
Theorem delete_expense_removes_first_equal
  (s : state) (choice confirm : pystr) (rest : list event) (k : Z) :
  expenses s <> [] ->
  Forall (fun v => is_record v = true) (expenses s) ->
  stdin s = Line choice :: Line confirm :: rest ->
  py_int (py_strip choice) = Ret k ->
  1 <= k <= Z.of_nat (length (expenses s)) ->
  exists sl item i,
    sorted_by_date (expenses s) = Ret sl
    /\ sl !! Z.to_nat (k - 1) = Some item
    /\ first_equal item (expenses s) i
    /\ let shown :=
         printed (MsgListHeader :: listing 1 sl) (with_stdin rest s) in
       if pystr_eqb (py_lower (py_strip confirm)) (str "y") then
         let l' := delete i (expenses s) in
         length l' = (length (expenses s) - 1)%nat
         /\ delete_expense s =
              (Ret tt,
               printed [MsgDeleted]
                 (snd (save_expenses l' (with_expenses l' shown))))
       else
         delete_expense s = (Ret tt, printed [MsgCancelled] shown)
         /\ expenses (printed [MsgCancelled] shown) = expenses s
         /\ fs (printed [MsgCancelled] shown) = fs s.
Proof.
  intros Hne Hl Hin Hint Hk.
  destruct (selection_of_records _ k Hl Hk)
    as (item & i & Hlook & Hidx & Hrec & Hfind & Hfirst).
  destruct (record_fields_readable item Hrec)
    as (a & c & dt & Ha & Hc & Hd).
  exists (list_sort date_lt true (expenses s)), item, i.
  split; [apply sorted_by_date_records, Forall_records_dates, Hl|].
  split; [exact Hlook|]. split; [exact Hfirst|].
  assert (Hsorted := sorted_by_date_records _ (Forall_records_dates _ Hl)).
  set (shown := printed (MsgListHeader
                           :: listing 1 (list_sort date_lt true (expenses s)))
                  (with_stdin rest s)).
  assert (Hrun : delete_expense s =
    if pystr_eqb (py_lower (py_strip confirm)) (str "y") then
      (Ret tt,
       printed [MsgDeleted]
         (snd (save_expenses (delete i (expenses s))
                 (with_expenses (delete i (expenses s)) shown))))
    else (Ret tt, printed [MsgCancelled] shown)).
  { subst shown. unfold delete_expense, bind at 1, get_expenses at 1.
    destruct (expenses s) as [|e0 l0] eqn:He; [congruence|].
    unfold bind at 1. rewrite list_expenses_records by (rewrite He; auto).
    rewrite He.
    unfold try_except, bind, input, lift.
    destruct s as [l files dw clk inp out]. simpl in He, Hin. subst l inp.
    cbn [printed with_stdin with_expenses stdin expenses fs dir_writable
         clock stdout].
    rewrite (py_int_not_q _ _ Hint), Hint, Hsorted, Hidx, Hc, Ha, Hd.
    cbn [printed with_stdin with_expenses stdin expenses fs dir_writable
         clock stdout].
    destruct (pystr_eqb (py_lower (py_strip confirm)) (str "y"));
      [|reflexivity].
    rewrite Hfind.
    unfold put_expenses, get_expenses, print, with_expenses, printed.
    cbn [stdin expenses fs dir_writable clock stdout].
    destruct (save_expenses _ _) as [[[]|ex] s'] eqn:Hsave;
      [reflexivity|].
    exfalso. revert Hsave.
    unfold save_expenses, try_except, write_text, put_fs, print,
      printed. simpl.
    destruct (files !! FILE_NAME) as [f|];
      [destruct (f_writable f)|destruct dw]; simpl; discriminate. }
  rewrite Hrun.
  destruct (pystr_eqb (py_lower (py_strip confirm)) (str "y")).
  - split; [|reflexivity].
    destruct Hfirst as [[x [Hx _]] _].
    rewrite length_delete by eauto. reflexivity.
  - now destruct s.
Qed.

(** ** Editing *)

Lemma save_expenses_returns l s :
  exists s', save_expenses l s = (Ret tt, s')
             /\ expenses s' = expenses s /\ stdin s' = stdin s.
Proof.
  destruct s as [l0 files dw clk inp out].
  unfold save_expenses, try_except, write_text, put_fs, print, printed.
  simpl.
  destruct (files !! FILE_NAME) as [f|];
    [destruct (f_writable f)|destruct dw]; simpl; eauto.
Qed.

Lemma printed_nil s : printed [] s = s.
Proof. destruct s. unfold printed. simpl. now rewrite app_nil_r. Qed.

Lemma py_index_nat {A} (l : list A) (i : nat) x :
  l !! i = Some x -> py_index l (Z.of_nat i) = Ret x.
Proof.
  intros Hx. pose proof (lookup_lt_Some _ _ _ Hx) as Hlt.
  destruct (py_index_in_range l (Z.of_nat i + 1) ltac:(lia))
    as (y & Hy & Hidx).
  replace (Z.of_nat i + 1 - 1) with (Z.of_nat i) in * by lia.
  rewrite Nat2Z.id in Hy. congruence.
Qed.

Lemma set_field_run i k v d s :
  expenses s !! i = Some (PDict d) ->
  set_field i k v s =
    (Ret tt,
     with_expenses (<[i := PDict (dict_set k v d)]> (expenses s)) s).
Proof.
  intros Hi. unfold set_field, bind, get_expenses, lift, put_expenses.
  now rewrite (py_index_nat _ _ _ Hi).
Qed.

Lemma dict_set_same {V} k (v : V) d :
  dict_lookup k d = Some v -> dict_set k v d = d.
Proof.
  induction d as [|[k' v'] d IH]; simpl; [discriminate|].
  destruct (pystr_eqb k k') eqn:Hk.
  - now intros [= ->].
  - intros H. now rewrite IH.
Qed.

Lemma dict_lookup_set_eq {V} k (v : V) d :
  dict_lookup k (dict_set k v d) = Some v.
Proof.
  induction d as [|[k' v'] d IH]; simpl.
  - now rewrite pystr_eqb_refl.
  - destruct (pystr_eqb k k') eqn:Hk; simpl; now rewrite Hk.
Qed.

Lemma dict_lookup_set_ne {V} k k' (v : V) d :
  k <> k' -> dict_lookup k' (dict_set k v d) = dict_lookup k' d.
Proof.
  intros Hne. induction d as [|[k0 v0] d IH]; simpl.
  - unfold pystr_eqb. now rewrite bool_decide_eq_false_2 by congruence.
  - destruct (pystr_eqb k k0) eqn:Hk; simpl; [|now rewrite IH].
    apply pystr_eqb_eq in Hk. subst k0.
    unfold pystr_eqb. now rewrite !bool_decide_eq_false_2 by congruence.
Qed.

Lemma with_expenses_same s : with_expenses (expenses s) s = s.
Proof. now destruct s. Qed.

(** The three steps of an edit, each on a state whose list holds a dict
    at position [i]. *)
Lemma amount_step i d old text s :
  expenses s !! i = Some (PDict d) ->
  dict_lookup (str "amount") d = Some old ->
  (if pystr_eqb (py_strip text) [] then ret tt
   else
     try_except
       (a <- lift (sanitize_amount (py_strip text)) ;;
        set_field i (str "amount") (PFloat a))
       is_ValueError (fun _ => print MsgKeepAmount)) s
  = (Ret tt,
     printed (snd (edit_amount old text))
       (with_expenses
          (<[i := PDict (dict_set (str "amount")
                           (fst (edit_amount old text)) d)]> (expenses s))
          s)).
Proof.
  intros Hi Hold. unfold edit_amount.
  assert (Hkeep :
    with_expenses (<[i := PDict (dict_set (str "amount") old d)]> (expenses s)) s = s).
  { rewrite (dict_set_same _ _ _ Hold), list_insert_id by exact Hi.
    apply with_expenses_same. }
  destruct (pystr_eqb (py_strip text) []); simpl.
  { now rewrite Hkeep, printed_nil. }
  unfold try_except, bind, lift.
  destruct (sanitize_amount (py_strip text)) as [x|ex] eqn:Hs; simpl.
  - rewrite (set_field_run _ _ _ _ _ Hi). now rewrite printed_nil.
  - apply sanitize_amount_raises_ValueError in Hs. subst ex. simpl.
    now rewrite Hkeep.
Qed.

Lemma category_step i d old text s :
  expenses s !! i = Some (PDict d) ->
  dict_lookup (str "category") d = Some old ->
  (if pystr_eqb (py_strip text) [] then ret tt
   else set_field i (str "category") (PStr (py_title (py_strip text)))) s
  = (Ret tt,
     with_expenses
       (<[i := PDict (dict_set (str "category")
                        (edit_category old text) d)]> (expenses s))
       s).
Proof.
  intros Hi Hold. unfold edit_category.
  destruct (pystr_eqb (py_strip text) []); simpl.
  - rewrite (dict_set_same _ _ _ Hold), list_insert_id by exact Hi.
    now rewrite with_expenses_same.
  - now rewrite (set_field_run _ _ _ _ _ Hi).
Qed.

Lemma py_int_raises_ValueError s e : py_int s = Raise e -> e = ValueError.
Proof.
  unfold py_int. destruct (parse_sign (py_strip s)) as [neg s1].
  destruct (digits_us 0 0 false s1) as [[v n] r].
  destruct ((0 <? n) && pystr_eqb r []); congruence.
Qed.

Lemma group_int_raises_ValueError it dflt groups e :
  group_int it dflt groups = Raise e -> e = ValueError.
Proof.
  unfold group_int. destruct (group it groups); [|discriminate].
  apply py_int_raises_ValueError.
Qed.

Lemma group_month_raises_ValueError groups e :
  group_month groups = Raise e -> e = ValueError.
Proof.
  unfold group_month.
  destruct (group Im groups); [apply py_int_raises_ValueError|].
  destruct (group Ib groups);
    [destruct (index_of _ a_month 1); congruence|].
  destruct (group IB groups);
    [destruct (index_of _ f_month 1); congruence|discriminate].
Qed.

Lemma strptime_raises_ValueError s fmt its e :
  compile_format fmt = Some its ->
  strptime s fmt = Raise e -> e = ValueError.
Proof.
  intros Hc. unfold strptime. rewrite Hc.
  destruct (match_items its s) as [[groups [|]]|]; try congruence.
  destruct (group_int IY 1900 groups) as [y|ey] eqn:Hy; simpl;
    [|intros [= <-]; eapply group_int_raises_ValueError, Hy].
  destruct (group_month groups) as [m|em] eqn:Hm; simpl;
    [|intros [= <-]; eapply group_month_raises_ValueError, Hm].
  destruct (group_int Id 1 groups) as [d|ed] eqn:Hd; simpl;
    [|intros [= <-]; eapply group_int_raises_ValueError, Hd].
  destruct (valid_date y m d); congruence.
Qed.

Lemma try_formats_raises_ValueError s fmts e :
  Forall (fun fmt => is_Some (compile_format fmt)) fmts ->
  try_formats s fmts = Raise e -> e = ValueError.
Proof.
  induction 1 as [|fmt fmts [its Hc] _ IH]; simpl; [congruence|].
  destruct (strptime s fmt) as [d|ex] eqn:Hs; [discriminate|].
  apply (strptime_raises_ValueError _ _ _ _ Hc) in Hs. subst ex. simpl.
  exact IH.
Qed.

Lemma formats_compile :
  Forall (fun fmt => is_Some (compile_format fmt)) formats.
Proof. repeat constructor; vm_compute; eauto. Qed.

Lemma parse_date_run t s :
  parse_date t s = (fst (parse_date t s), s).
Proof.
  unfold parse_date, bind, now, ret, lift.
  now destruct (pystr_eqb (py_strip t) []).
Qed.

Lemma parse_date_same_clock t s1 s2 :
  clock s1 = clock s2 -> fst (parse_date t s1) = fst (parse_date t s2).
Proof.
  intros Hc. unfold parse_date, bind, now, ret, lift.
  destruct (pystr_eqb (py_strip t) []); simpl; [now rewrite Hc|reflexivity].
Qed.

Lemma parse_date_raises_ValueError t s e :
  fst (parse_date t s) = Raise e -> e = ValueError.
Proof.
  unfold parse_date, bind, now, ret, lift.
  destruct (pystr_eqb (py_strip t) []); cbn [fst]; [discriminate|].
  intros H.
  exact (try_formats_raises_ValueError _ _ _ formats_compile H).
Qed.

Lemma date_step s0 i d old text s :
  clock s = clock s0 ->
  expenses s !! i = Some (PDict d) ->
  dict_lookup (str "date") d = Some old ->
  (if pystr_eqb (py_strip text) [] then ret tt
   else
     try_except
       (x <- parse_date (py_strip text) ;;
        set_field i (str "date") (PStr x))
       is_ValueError (fun _ => print MsgKeepDate)) s
  = (Ret tt,
     printed (snd (edit_date s0 old text))
       (with_expenses
          (<[i := PDict (dict_set (str "date")
                           (fst (edit_date s0 old text)) d)]> (expenses s))
          s)).
Proof.
  intros Hclock Hi Hold. unfold edit_date.
  assert (Hkeep :
    with_expenses (<[i := PDict (dict_set (str "date") old d)]> (expenses s)) s = s).
  { rewrite (dict_set_same _ _ _ Hold), list_insert_id by exact Hi.
    apply with_expenses_same. }
  destruct (pystr_eqb (py_strip text) []); simpl.
  { now rewrite Hkeep, printed_nil. }
  unfold try_except, bind. rewrite parse_date_run.
  rewrite (parse_date_same_clock _ s s0 Hclock).
  destruct (fst (parse_date (py_strip text) s0)) as [x|ex] eqn:Hp; simpl.
  - rewrite (set_field_run _ _ _ _ _ Hi). now rewrite printed_nil.
  - apply parse_date_raises_ValueError in Hp. subst ex. simpl.
    now rewrite Hkeep.
Qed.

Lemma match_nonempty {A B} (l : list A) (x y : B) :
  l <> [] -> match l with [] => x | _ :: _ => y end = y.
Proof. now destruct l. Qed.

Lemma bind_run {A B} (m : M A) (k : A -> M B) s :
  bind m k s =
    match m s with
    | (Ret a, s') => k a s'
    | (Raise e, s') => (Raise e, s')
    end.
Proof. reflexivity. Qed.

Ltac proj_state :=
  unfold printed, with_stdin, with_expenses;
  cbn [expenses fs dir_writable clock stdin stdout].

(** One statement of the program: a bind whose first computation is the
    primitive [c]. *)
Ltac run c :=
  rewrite bind_run; unfold c at 1; proj_state; cbv beta iota.

(** C6.  Take a non-empty sequence of records, a selection that reads as
    the number [k] of a displayed position, and the three lines typed for
    the amount, the category and the date.  The record edited is the
    first one of the sequence equal to the selected record.  Each of its
    fields is set on its own: a blank line keeps the value; a line that
    does not parse keeps the old value and prints a warning, and the
    edit goes on with the other fields; a line that parses sets the
    value, the category being title-cased.  [save_expenses] is then run
    on the resulting sequence, whether or not a field changed. *)
Theorem edit_expense_updates_fields_independently
  (s : state) (choice a c d : pystr) (rest : list event) (k : Z) :
  expenses s <> [] ->
  Forall (fun v => is_record v = true) (expenses s) ->
  stdin s = Line choice :: Line a :: Line c :: Line d :: rest ->
  py_int (py_strip choice) = Ret k ->
  1 <= k <= Z.of_nat (length (expenses s)) ->
  exists sl item i e,
    sorted_by_date (expenses s) = Ret sl
    /\ sl !! Z.to_nat (k - 1) = Some item
    /\ first_equal item (expenses s) i
    /\ expenses s !! i = Some e
    /\ let l' := <[i := edited s e a c d]> (expenses s) in
       let shown :=
         printed
           (MsgListHeader :: listing 1 sl ++ [MsgKeepHint]
            ++ snd (edit_amount (field (str "amount") e) a)
            ++ snd (edit_date s (field (str "date") e) d))
           (with_stdin rest s) in
       edit_expense s =
         (Ret tt,
          printed [MsgUpdated]
            (snd (save_expenses l' (with_expenses l' shown)))).
Proof.
  intros Hne Hl Hin Hint Hk.
  destruct (selection_of_records _ k Hl Hk)
    as (item & i & Hlook & Hidx & Hrec & Hfind & Hfirst).
  destruct (record_fields_readable item Hrec)
    as (ia & ic & idt & Hia & Hic & Hid).
  destruct Hfirst as [[e [He Heq]] Hbefore].
  assert (Hrece : is_record e = true).
  { rewrite Forall_forall in Hl. apply Hl, list_elem_of_lookup. eauto. }
  exists (list_sort date_lt true (expenses s)), item, i, e.
  split; [apply sorted_by_date_records, Forall_records_dates, Hl|].
  split; [exact Hlook|]. split; [split; eauto|]. split; [exact He|].
  assert (Hsorted := sorted_by_date_records _ (Forall_records_dates _ Hl)).
  apply is_record_inv in Hrece
    as (fields & a0 & c0 & d0 & -> & _ & Ha0 & _ & Hc0 & Hd0).
  cbv zeta.
  assert (Hi : (i < length (expenses s))%nat)
    by (eapply lookup_lt_Some; eauto).
  (* the values that the three steps write *)
  set (v1 := fst (edit_amount a0 a)).
  set (v2 := edit_category (PStr c0) c).
  set (v3 := fst (edit_date s (PStr d0) d)).
  set (d1 := dict_set (str "amount") v1 fields).
  set (d2 := dict_set (str "category") v2 d1).
  set (d3 := dict_set (str "date") v3 d2).
  assert (Hedited : edited s (PDict fields) a c d = PDict d3).
  { unfold edited, field. simpl. now rewrite Ha0, Hc0, Hd0. }
  rewrite Hedited. unfold field. simpl py_getitem. rewrite Ha0, Hd0.
  assert (Hc1 : dict_lookup (str "category") d1 = Some (PStr c0)).
  { subst d1. now rewrite dict_lookup_set_ne by discriminate. }
  assert (Hd2 : dict_lookup (str "date") d2 = Some (PStr d0)).
  { subst d2 d1. now rewrite !dict_lookup_set_ne by discriminate. }
  match goal with |- _ = ?r => set (R := r) end.
  unfold edit_expense. run @get_expenses.
  rewrite (match_nonempty (expenses s)) by assumption.
  rewrite bind_run, list_expenses_records by assumption.
  destruct s as [l files dw clk inp out]. simpl in Hin. subst inp.
  cbn [expenses] in *. proj_state.
  unfold try_except at 1.
  run @input. rewrite (py_int_not_q _ _ Hint).
  run @lift. rewrite Hint.
  run @lift. rewrite Hsorted.
  run @lift. rewrite Hidx.
  rewrite bind_run. rewrite Hfind. unfold ret at 1.
  run @print. run @lift. rewrite Hia. run @input.
  rewrite bind_run.
  rewrite (amount_step i fields a0 a) by assumption. proj_state.
  fold v1 d1.
  run @lift. rewrite Hic. run @input.
  rewrite bind_run.
  rewrite (category_step i d1 (PStr c0) c)
    by (try assumption; proj_state; now apply list_lookup_insert_eq).
  proj_state. fold v2 d2. rewrite list_insert_insert_eq.
  run @lift. rewrite Hid. run @input.
  rewrite bind_run.
  rewrite (date_step (mkstate l files dw clk
                        (Line choice :: Line a :: Line c :: Line d :: rest)
                        out) i d2 (PStr d0) d)
    by (try assumption; try reflexivity; proj_state;
        now apply list_lookup_insert_eq).
  proj_state. fold v3 d3. rewrite list_insert_insert_eq.
  run @get_expenses.
  subst R. proj_state.
  rewrite <- !app_assoc. cbn [app].
  rewrite bind_run.
  match goal with
  | |- context [save_expenses ?l ?st] =>
      destruct (save_expenses_returns l st) as (s' & Hs' & _ & _)
  end.
  rewrite Hs'. reflexivity.
Qed.

(** ** The three fields stay *)

Lemma preserves_unchanged {A} (m : M A) :
  (forall s, expenses (snd (m s)) = expenses s) -> preserves m.
Proof. intros H s Hs. now rewrite H. Qed.

Lemma preserves_ret {A} (a : A) : preserves (ret a).
Proof. now apply preserves_unchanged. Qed.

Lemma preserves_raise {A} e : preserves (@raise A e).
Proof. now apply preserves_unchanged. Qed.

Lemma preserves_lift {A} (r : res A) : preserves (lift r).
Proof. now apply preserves_unchanged. Qed.

Lemma preserves_print m : preserves (print m).
Proof. now apply preserves_unchanged. Qed.

Lemma preserves_now : preserves now.
Proof. now apply preserves_unchanged. Qed.

Lemma preserves_input : preserves input.
Proof.
  apply preserves_unchanged. intros s. unfold input.
  destruct (stdin s) as [|[] ?]; reflexivity.
Qed.

Lemma preserves_save l : preserves (save_expenses l).
Proof.
  apply preserves_unchanged. intros s.
  destruct (save_expenses_returns l s) as (s' & -> & H & _). exact H.
Qed.

Lemma preserves_bind {A B} (m : M A) (k : A -> M B) :
  preserves m -> (forall a, preserves (k a)) -> preserves (bind m k).
Proof.
  intros Hm Hk s Hs. unfold bind. specialize (Hm s Hs).
  destruct (m s) as [[a|e] s']; simpl in *; [now apply Hk|exact Hm].
Qed.

(** After [l <- get_expenses] the list [l] is known to hold only dicts
    with the three fields. *)
Lemma preserves_bind_get {B} (k : list pyval -> M B) :
  (forall l, all_have_fields l -> preserves (k l)) ->
  preserves (bind get_expenses k).
Proof. intros Hk s Hs. unfold bind, get_expenses. now apply Hk. Qed.

(** After [a <- lift r] the result [r] is known to be [Ret a]. *)
Lemma preserves_bind_lift {A B} (r : res A) (k : A -> M B) :
  (forall a, r = Ret a -> preserves (k a)) -> preserves (bind (lift r) k).
Proof.
  intros Hk s Hs. unfold bind, lift.
  destruct r as [a|e]; simpl; [now apply Hk|exact Hs].
Qed.

Lemma preserves_try_except {A} (m : M A) p h :
  preserves m -> (forall e, preserves (h e)) ->
  preserves (try_except m p h).
Proof.
  intros Hm Hh s Hs. unfold try_except. specialize (Hm s Hs).
  destruct (m s) as [[a|e] s']; simpl in *; [exact Hm|].
  destruct (p e); [now apply Hh|exact Hm].
Qed.

Lemma preserves_with_fuel {A} (loop : nat -> M A) :
  (forall n, preserves (loop n)) -> preserves (with_fuel loop).
Proof. intros H s. apply H. Qed.

Lemma preserves_put l : all_have_fields l -> preserves (put_expenses l).
Proof. intros Hl s _. exact Hl. Qed.

Lemma preserves_parse_date t : preserves (parse_date t).
Proof.
  apply preserves_unchanged. intros s. now rewrite parse_date_run.
Qed.

Lemma new_expense_has_fields a c d :
  has_three_fields (new_expense a c d) = true.
Proof. reflexivity. Qed.

Lemma py_index_elem {A} (l : list A) i x : py_index l i = Ret x -> x ∈ l.
Proof.
  unfold py_index.
  destruct ((0 <=? _) && _); [|discriminate].
  destruct (l !! _) as [y|] eqn:Hy; [|discriminate].
  intros [= <-]. apply list_elem_of_lookup. eauto.
Qed.

Lemma is_Some_lookup_set {V} k k' (v : V) d :
  is_Some (dict_lookup k' d) -> is_Some (dict_lookup k' (dict_set k v d)).
Proof.
  induction d as [|[k0 v0] d IH]; simpl; [intros [? [=]]|].
  destruct (pystr_eqb k k0) eqn:Hk; simpl.
  - destruct (pystr_eqb k' k0); eauto.
  - destruct (pystr_eqb k' k0); eauto.
Qed.

Lemma setitem_has_fields e k v e' :
  has_three_fields e = true -> py_setitem e k v = Ret e' ->
  has_three_fields e' = true.
Proof.
  destruct e as [| | | | | |d]; try discriminate. simpl.
  intros H [= <-]. simpl.
  destruct (dict_lookup (str "amount") d) eqn:Ha; [|discriminate].
  destruct (dict_lookup (str "category") d) eqn:Hc; [|discriminate].
  destruct (dict_lookup (str "date") d) eqn:Hd; [|discriminate].
  destruct (is_Some_lookup_set k (str "amount") v d) as [? ->]; [eauto|].
  destruct (is_Some_lookup_set k (str "category") v d) as [? ->]; [eauto|].
  destruct (is_Some_lookup_set k (str "date") v d) as [? ->]; [eauto|].
  reflexivity.
Qed.

Lemma preserves_set_field i k v : preserves (set_field i k v).
Proof.
  unfold set_field. apply preserves_bind_get. intros l Hl.
  apply preserves_bind_lift. intros e He.
  apply preserves_bind_lift. intros e' He'.
  apply preserves_put. apply Forall_insert; [exact Hl|].
  apply py_index_elem in He. unfold all_have_fields in Hl.
  rewrite Forall_forall in Hl.
  eapply setitem_has_fields; eauto.
Qed.

Ltac pres_step :=
  lazymatch goal with
  | |- preserves (ret _) => apply preserves_ret
  | |- preserves (raise _) => apply preserves_raise
  | |- preserves (lift _) => apply preserves_lift
  | |- preserves (print _) => apply preserves_print
  | |- preserves now => apply preserves_now
  | |- preserves input => apply preserves_input
  | |- preserves (save_expenses _) => apply preserves_save
  | |- preserves (parse_date _) => apply preserves_parse_date
  | |- preserves (set_field _ _ _) => apply preserves_set_field
  | |- preserves (bind get_expenses _) =>
      apply preserves_bind_get; intros ? ?
  | |- preserves (bind (lift _) _) =>
      apply preserves_bind_lift; intros ? ?
  | |- preserves (bind _ _) => apply preserves_bind; [|intros ?]
  | |- preserves (try_except _ _ _) =>
      apply preserves_try_except; [|intros ?]
  | |- preserves (with_fuel _) => apply preserves_with_fuel; intros ?
  | |- preserves (if ?b then _ else _) => destruct b
  | |- preserves (match ?x with _ => _ end) => destruct x
  end.

Ltac pres := repeat pres_step.

Lemma preserves_ask_amount n : preserves (ask_amount n).
Proof. induction n as [|n IH]; simpl; pres; exact IH. Qed.

Lemma preserves_ask_date n : preserves (ask_date n).
Proof. induction n as [|n IH]; simpl; pres; exact IH. Qed.

Lemma preserves_add_expense : preserves add_expense.
Proof.
  unfold add_expense. pres; try apply preserves_ask_amount;
    try apply preserves_ask_date.
  all: apply preserves_put, Forall_app; split; try assumption;
    repeat constructor.
Qed.

Lemma preserves_print_items idx l : preserves (print_items idx l).
Proof. revert idx. induction l as [|e l IH]; intros idx; simpl; pres; apply IH. Qed.

Lemma preserves_list_expenses : preserves list_expenses.
Proof. unfold list_expenses. pres; apply preserves_print_items. Qed.

Lemma preserves_print_all {K} (msg : K -> spec_float -> message) items :
  preserves (print_all msg items).
Proof. induction items as [|[k x] items IH]; simpl; pres; exact IH. Qed.

Lemma preserves_view_summary : preserves view_summary.
Proof. unfold view_summary. pres; apply preserves_print_all. Qed.

Lemma preserves_delete_expense : preserves delete_expense.
Proof.
  unfold delete_expense. pres; try apply preserves_list_expenses.
  apply preserves_put. now apply Forall_delete.
Qed.

Lemma preserves_edit_expense : preserves edit_expense.
Proof. unfold edit_expense. pres; apply preserves_list_expenses. Qed.

Lemma preserves_menu_turn : preserves menu_turn.
Proof.
  unfold menu_turn.
  pres; first [ apply preserves_add_expense | apply preserves_view_summary
              | apply preserves_list_expenses | apply preserves_edit_expense
              | apply preserves_delete_expense ].
Qed.

Lemma preserves_menu_loop n : preserves (menu_loop n).
Proof.
  induction n as [|n IH]; simpl; pres; [apply preserves_menu_turn|exact IH].
Qed.

(** C10, as amended.  From a state whose list holds only dicts with the
    three fields, every operation that changes the list, [add_expense],
    [edit_expense] and [delete_expense], ends in such a state, whatever
    is typed and whether it returns or raises, and so does the menu after
    any number of turns.  A record built by [add_expense] has the three
    fields.  Hence, when the list that [load_expenses] returns holds only
    such dicts, so does the list at the end of [main].  Nothing is said
    of what [load_expenses] returns: it hands over the decoded list as it
    is. *)
Theorem three_fields_are_kept (s : state) :
  all_have_fields (expenses s) ->
  (forall a c d, has_three_fields (new_expense a c d) = true)
  /\ all_have_fields (expenses (snd (add_expense s)))
  /\ all_have_fields (expenses (snd (edit_expense s)))
  /\ all_have_fields (expenses (snd (delete_expense s)))
  /\ (forall n, all_have_fields (expenses (snd (menu_loop n s))))
  /\ (forall s0 l,
        load_expenses s0 = (Ret l, s) -> all_have_fields l ->
        all_have_fields (expenses (snd (main s0)))).
Proof.
  intros Hs.
  split; [exact new_expense_has_fields|].
  split; [now apply preserves_add_expense|].
  split; [now apply preserves_edit_expense|].
  split; [now apply preserves_delete_expense|].
  split; [intros n; now apply preserves_menu_loop|].
  intros s0 l Hload Hl. unfold main. rewrite bind_run, Hload.
  assert (Hrest : preserves
    (put_expenses l ;; print MsgWelcome ;;
     try_except (with_fuel menu_loop) is_KeyboardInterrupt
       (fun _ => print MsgSavingOnInterrupt ;;
                 l' <- get_expenses ;; save_expenses l'))).
  { apply preserves_bind; [now apply preserves_put|intros _].
    pres. apply preserves_menu_loop. }
  now apply Hrest.
Qed.

(** ** Floats *)

Lemma SFltb_opp x y : SFltb (SFopp x) (SFopp y) = SFltb y x.
Proof.
  destruct x as [sx|sx| |sx mx ex], y as [sy|sy| |sy my ey];
    try reflexivity; unfold SFltb; simpl;
    try (destruct sx; reflexivity); try (destruct sy; reflexivity);
    try (destruct sx, sy; reflexivity).
  change (Pos.compare_cont Eq mx my) with (Pos.compare mx my).
  change (Pos.compare_cont Eq my mx) with (Pos.compare my mx).
  rewrite (Z.compare_antisym ex ey), (Pos.compare_antisym mx my).
  destruct sx, sy; simpl; try reflexivity;
    destruct (ex ?= ey); simpl; try reflexivity;
    destruct (mx ?= my)%positive; reflexivity.
Qed.

Lemma SFltb_asym x y : SFltb x y = true -> SFltb y x = false.
Proof.
  destruct x as [sx|sx| |sx mx ex], y as [sy|sy| |sy my ey];
    unfold SFltb; simpl; try congruence;
    try (destruct sx; congruence); try (destruct sy; congruence);
    try (destruct sx, sy; congruence).
  change (Pos.compare_cont Eq mx my) with (Pos.compare mx my).
  change (Pos.compare_cont Eq my mx) with (Pos.compare my mx).
  rewrite (Z.compare_antisym ex ey), (Pos.compare_antisym mx my).
  destruct sx, sy; simpl; try congruence;
    destruct (ex ?= ey); simpl; try congruence;
    destruct (mx ?= my)%positive; simpl; congruence.
Qed.

Lemma SFltb_cotrans x y z :
  y <> S754_nan -> SFltb x z = true ->
  SFltb x y = true \/ SFltb y z = true.
Proof.
  intros Hy.
  destruct x as [sx|sx| |sx mx ex], y as [sy|sy| |sy my ey],
    z as [sz|sz| |sz mz ez]; try congruence;
    unfold SFltb; simpl; try (intros; discriminate);
    try (destruct sx; simpl; auto; discriminate);
    try (destruct sz; simpl; auto; discriminate);
    try (destruct sy; simpl; auto; discriminate).
  all: try (destruct sx, sy; simpl; auto; discriminate).
  all: try (destruct sx, sz; simpl; auto; discriminate).
  all: try (destruct sy, sz; simpl; auto; discriminate).
  all: try (destruct sx, sy, sz; simpl; auto; discriminate).
  change (Pos.compare_cont Eq mx mz) with (Pos.compare mx mz).
  change (Pos.compare_cont Eq mx my) with (Pos.compare mx my).
  change (Pos.compare_cont Eq my mz) with (Pos.compare my mz).
  destruct (Z.compare_spec ex ez), (Z.compare_spec ex ey),
    (Z.compare_spec ey ez), (Pos.compare_spec mx mz),
    (Pos.compare_spec mx my), (Pos.compare_spec my mz);
    destruct sx, sy, sz; simpl; auto; try discriminate; lia.
Qed.

(** Rounding never makes a NaN. *)

Lemma shr_1_nonneg mrs : 0 <= shr_m mrs -> 0 <= shr_m (shr_1 mrs).
Proof.
  destruct mrs as [m r s]. simpl.
  destruct m as [|[p|p|]|[p|p|]]; simpl; lia.
Qed.

Lemma iter_pos_nonneg p mrs :
  0 <= shr_m mrs -> 0 <= shr_m (SpecFloat.iter_pos shr_1 p mrs).
Proof.
  revert mrs. induction p as [p IH|p IH|]; intros mrs H; simpl.
  - apply IH, IH, shr_1_nonneg, H.
  - apply IH, IH, H.
  - apply shr_1_nonneg, H.
Qed.

Lemma shr_nonneg mrs e n :
  0 <= shr_m mrs -> 0 <= shr_m (fst (shr mrs e n)).
Proof.
  intros H. unfold shr. destruct n; simpl; auto using iter_pos_nonneg.
Qed.

Lemma shr_fexp_nonneg pr em m e l :
  0 <= m -> 0 <= shr_m (fst (shr_fexp pr em m e l)).
Proof.
  intros H. unfold shr_fexp. apply shr_nonneg.
  destruct l as [|[]]; simpl; exact H.
Qed.

Lemma round_nearest_even_nonneg m l :
  0 <= m -> 0 <= round_nearest_even m l.
Proof.
  intros H. unfold round_nearest_even.
  destruct l as [|[]]; try lia. destruct (Z.even m); lia.
Qed.

Lemma binary_round_aux_not_nan pr em sx mx ex lx :
  0 <= mx -> binary_round_aux pr em sx mx ex lx <> S754_nan.
Proof.
  intros H. unfold binary_round_aux.
  pose proof (shr_fexp_nonneg pr em mx ex lx H) as H1.
  destruct (shr_fexp pr em mx ex lx) as [mrs' e']. simpl in H1.
  pose proof (shr_fexp_nonneg pr em
                (round_nearest_even (shr_m mrs') (loc_of_shr_record mrs'))
                e' loc_Exact (round_nearest_even_nonneg _ _ H1)) as H2.
  destruct (shr_fexp pr em _ e' loc_Exact) as [mrs'' e'']. simpl in H2.
  destruct (shr_m mrs'') as [|p|p]; try discriminate; [|lia].
  destruct (e'' <=? em - pr); discriminate.
Qed.

Lemma binary_normalize_not_nan pr em m e sz :
  binary_normalize pr em m e sz <> S754_nan.
Proof.
  unfold binary_normalize, binary_round.
  destruct m as [|p|p]; [discriminate| |].
  - destruct (shl_align p e _) as [mz ez].
    apply binary_round_aux_not_nan. lia.
  - destruct (shl_align p e _) as [mz ez].
    apply binary_round_aux_not_nan. lia.
Qed.

Lemma SFadd_not_nan pr em x y :
  x <> S754_nan -> is_finite_or_zero y = true ->
  SFadd pr em x y <> S754_nan.
Proof.
  intros Hx Hy.
  destruct x as [sx|sx| |sx mx ex], y as [sy|sy| |sy my ey];
    try discriminate; try congruence; simpl.
  - destruct sx, sy; discriminate.
  - apply binary_normalize_not_nan.
Qed.

(** ** Grouping *)

Lemma pystr_eqb_sym a b : pystr_eqb a b = pystr_eqb b a.
Proof.
  unfold pystr_eqb. destruct (decide (a = b)) as [->|Hne].
  - now rewrite !bool_decide_eq_true_2.
  - now rewrite !bool_decide_eq_false_2 by congruence.
Qed.

Lemma dd_add_lookup k k' x (d : list (pystr * spec_float)) :
  dict_lookup k (dd_add pystr_eqb k' x d) =
    if pystr_eqb k k'
    then Some (SFadd prec emax
                 (default (S754_zero false) (dict_lookup k' d)) x)
    else dict_lookup k d.
Proof.
  induction d as [|[k0 y] d IH]; simpl.
  - destruct (pystr_eqb k k'); reflexivity.
  - rewrite (pystr_eqb_sym k' k0).
    destruct (pystr_eqb k0 k') eqn:H0; simpl.
    + apply pystr_eqb_eq in H0. subst k0.
      destruct (pystr_eqb k k'); reflexivity.
    + rewrite IH. destruct (pystr_eqb k k') eqn:Hk.
      * apply pystr_eqb_eq in Hk. subst k.
        rewrite (pystr_eqb_sym k' k0), H0. reflexivity.
      * reflexivity.
Qed.

Lemma dd_add_keys k x (d : list (pystr * spec_float)) :
  List.map fst (dd_add pystr_eqb k x d) =
    if bool_decide (k ∈ List.map fst d) then List.map fst d
    else List.map fst d ++ [k].
Proof.
  induction d as [|[k0 y] d IH]; cbn [dd_add List.map fst].
  - rewrite bool_decide_eq_false_2 by apply not_elem_of_nil. reflexivity.
  - destruct (pystr_eqb k0 k) eqn:H0; cbn [List.map fst].
    + apply pystr_eqb_eq in H0. subst k0.
      rewrite bool_decide_eq_true_2 by (apply elem_of_cons; auto).
      reflexivity.
    + rewrite IH.
      assert (k0 <> k)
        by (intros ->; rewrite pystr_eqb_refl in H0; discriminate).
      destruct (decide (k ∈ List.map fst d)) as [Hin|Hin].
      * rewrite (bool_decide_eq_true_2 _ Hin).
        rewrite bool_decide_eq_true_2 by (apply elem_of_cons; auto).
        reflexivity.
      * rewrite (bool_decide_eq_false_2 _ Hin).
        rewrite bool_decide_eq_false_2; [reflexivity|].
        rewrite elem_of_cons. intros [?|?]; [congruence|contradiction].
Qed.

Lemma dd_add_nodup k x (d : list (pystr * spec_float)) :
  NoDup (List.map fst d) -> NoDup (List.map fst (dd_add pystr_eqb k x d)).
Proof.
  intros Hd. rewrite dd_add_keys. case_bool_decide; [exact Hd|].
  apply NoDup_app. split; [exact Hd|]. split.
  - intros y Hy Hy'. apply list_elem_of_singleton in Hy'. congruence.
  - apply NoDup_singleton.
Qed.

Lemma groups_snoc key l e :
  groups key (l ++ [e]) =
    dd_add pystr_eqb (key e) (amount_float e) (groups key l).
Proof. unfold groups. now rewrite fold_left_app. Qed.

Lemma groups_nodup key l : NoDup (List.map fst (groups key l)).
Proof.
  induction l as [|e l IH] using rev_ind; [constructor|].
  rewrite groups_snoc. now apply dd_add_nodup.
Qed.

Lemma sum_amounts_snoc xs x :
  sum_amounts (xs ++ [x]) = SFadd prec emax (sum_amounts xs) x.
Proof. unfold sum_amounts. now rewrite fold_left_app. Qed.

Lemma groups_lookup key l k :
  dict_lookup k (groups key l) =
    if existsb (fun e => pystr_eqb (key e) k) l
    then Some (group_total key k l) else None.
Proof.
  induction l as [|e l IH] using rev_ind; [reflexivity|].
  rewrite groups_snoc, dd_add_lookup, existsb_app. simpl.
  rewrite orb_false_r. unfold group_total. rewrite List.filter_app. simpl.
  rewrite (pystr_eqb_sym k (key e)).
  destruct (pystr_eqb (key e) k) eqn:Hk.
  - apply pystr_eqb_eq in Hk. subst k.
    rewrite orb_true_r, List.map_app. cbn [List.map].
    rewrite sum_amounts_snoc, IH.
    destruct (existsb _ l) eqn:Hex; [reflexivity|].
    simpl. apply filter_nil_existsb in Hex. now rewrite Hex.
  - rewrite orb_false_r, app_nil_r. exact IH.
Qed.

Lemma lookup_of_elem {V} k (v : V) d :
  NoDup (List.map fst d) -> (k, v) ∈ d -> dict_lookup k d = Some v.
Proof.
  induction d as [|[k0 v0] d IH]; simpl; intros Hnd Hin.
  - apply elem_of_nil in Hin. contradiction.
  - apply NoDup_cons in Hnd as [Hk0 Hnd].
    apply elem_of_cons in Hin as [[= -> ->]|Hin].
    + now rewrite pystr_eqb_refl.
    + destruct (pystr_eqb k k0) eqn:Hk; [|now apply IH].
      apply pystr_eqb_eq in Hk. subst k0. exfalso. apply Hk0.
      apply list_elem_of_In, in_map_iff. exists (k, v).
      split; [reflexivity|now apply list_elem_of_In].
Qed.

Lemma key_of_lookup {V} k (d : list (pystr * V)) :
  k ∈ List.map fst d <-> is_Some (dict_lookup k d).
Proof.
  induction d as [|[k0 v0] d IH]; simpl.
  - split; [intros H; apply elem_of_nil in H; contradiction|intros [? [=]]].
  - rewrite elem_of_cons, IH.
    destruct (pystr_eqb k k0) eqn:Hk.
    + apply pystr_eqb_eq in Hk. split; eauto.
    + split; [intros [->|H]; [|exact H]|auto].
      rewrite pystr_eqb_refl in Hk. discriminate.
Qed.

Lemma groups_are_groups key l : groups_of key l (groups key l).
Proof.
  split; [apply groups_nodup|]. split.
  - intros k. rewrite key_of_lookup, groups_lookup.
    destruct (existsb _ l) eqn:Hex.
    + apply existsb_exists in Hex as (e & He & Hk).
      apply pystr_eqb_eq in Hk. split; [|eauto].
      intros _. exists e. split; [now apply list_elem_of_In|exact Hk].
    + split; [intros [? [=]]|].
      intros (e & He & Hk). exfalso.
      assert (existsb (fun e => pystr_eqb (key e) k) l = true);
        [|congruence].
      apply existsb_exists. exists e.
      split; [now apply list_elem_of_In|now apply pystr_eqb_eq].
  - intros k v Hin.
    apply (lookup_of_elem _ _ _ (groups_nodup key l)) in Hin.
    rewrite groups_lookup in Hin.
    destruct (existsb _ l); congruence.
Qed.

Lemma groups_of_perm key l items items' :
  items ≡ₚ items' -> groups_of key l items -> groups_of key l items'.
Proof.
  intros Hp (Hnd & Hkeys & Hval).
  assert (Hpk : List.map fst items ≡ₚ List.map fst items')
    by (now apply Permutation_map).
  split; [now rewrite <- Hpk|]. split.
  - intros k. rewrite <- Hpk. apply Hkeys.
  - intros k v Hin. apply Hval. now rewrite Hp.
Qed.

(** ** Running the summary *)

Lemma amount_of_record e :
  is_record e = true -> amount_of e = Ret (amount_float e).
Proof.
  intros H. destruct (is_record_amount e H) as (f & Hf & _).
  unfold amount_float. now rewrite Hf.
Qed.

Lemma amount_float_finite e :
  is_record e = true -> is_finite_or_zero (amount_float e) = true.
Proof.
  intros H. destruct (is_record_amount e H) as (f & Hf & Hfin).
  unfold amount_float. now rewrite Hf.
Qed.

Lemma map_res_amounts l :
  Forall (fun v => is_record v = true) l ->
  map_res amount_of l = Ret (List.map amount_float l).
Proof.
  induction 1 as [|e l He Hl IH]; simpl; [reflexivity|].
  now rewrite (amount_of_record e He), IH.
Qed.

Lemma dd_add_str_item c x bc :
  dd_add py_eqb (PStr c) x (List.map str_item bc)
  = List.map str_item (dd_add pystr_eqb c x bc).
Proof.
  induction bc as [|[k y] bc IH]; simpl; [reflexivity|].
  destruct (pystr_eqb k c); simpl; [reflexivity|]. now rewrite IH.
Qed.

Lemma group_sums_records l bc bm :
  Forall (fun v => is_record v = true) l ->
  group_sums l (List.map str_item bc) bm =
    Ret (List.map str_item
           (fold_left (fun acc e =>
              dd_add pystr_eqb (category_str e) (amount_float e) acc) l bc),
         fold_left (fun acc e =>
           dd_add pystr_eqb (month_str e) (amount_float e) acc) l bm).
Proof.
  intros Hl. revert bc bm.
  induction Hl as [|e l He Hl IH]; intros bc bm; simpl; [reflexivity|].
  rewrite (amount_of_record e He).
  pose proof He as Hinv.
  apply is_record_inv in Hinv
    as (d & a & c & dt & -> & _ & Ha & _ & Hc & Hd).
  unfold month_of, month_str, date_str, category_str, field.
  simpl. rewrite Hc, Hd. simpl.
  rewrite dd_add_str_item. apply IH.
Qed.

Lemma sum_amounts_not_nan xs :
  Forall (fun x => is_finite_or_zero x = true) xs ->
  sum_amounts xs <> S754_nan.
Proof.
  induction xs as [|x xs IH] using rev_ind; [discriminate|].
  intros H. apply Forall_app in H as [Hxs Hx].
  apply Forall_cons in Hx as [Hx _].
  rewrite sum_amounts_snoc. apply SFadd_not_nan; auto.
Qed.

Lemma group_total_not_nan key k l :
  Forall (fun v => is_record v = true) l ->
  group_total key k l <> S754_nan.
Proof.
  intros Hl. unfold group_total. apply sum_amounts_not_nan.
  apply Forall_forall. intros x Hx.
  apply list_elem_of_In, in_map_iff in Hx as (e & <- & He).
  apply List.filter_In in He as [He _].
  apply amount_float_finite.
  rewrite Forall_forall in Hl. now apply Hl, list_elem_of_In.
Qed.

Lemma groups_not_nan key l :
  Forall (fun v => is_record v = true) l ->
  Forall (fun kv => snd kv <> S754_nan) (groups key l).
Proof.
  intros Hl. apply Forall_forall. intros [k v] Hin. simpl.
  destruct (groups_are_groups key l) as (_ & _ & Hval).
  rewrite (Hval k v Hin). now apply group_total_not_nan.
Qed.

Lemma stable_sort_map {A B} (f : A -> B) lt lt' (l : list A) :
  (forall a b, lt' (f a) (f b) = lt a b) ->
  stable_sort lt' (List.map f l) = List.map f (stable_sort lt l).
Proof.
  intros Hlt. induction l as [|x l IH]; simpl; [reflexivity|].
  rewrite IH. generalize (stable_sort lt l) as sl.
  induction sl as [|y sl IHs]; simpl; [reflexivity|].
  rewrite Hlt. destruct (lt y x); simpl; [now rewrite IHs|reflexivity].
Qed.

Lemma sort_by_total_items items :
  Forall (fun kv => snd kv <> S754_nan) items ->
  sort_by_total (List.map str_item items)
  = Ret (List.map str_item (stable_sort total_lt items)).
Proof.
  intros Hnn. unfold sort_by_total.
  assert (Hex : existsb (fun kv => is_nan (snd kv))
                  (List.map str_item items) = false).
  { apply not_true_is_false. intros Hex.
    apply existsb_exists in Hex as (kv & Hin & Hnan).
    apply in_map_iff in Hin as ([k v] & <- & Hin). simpl in Hnan.
    rewrite Forall_forall in Hnn.
    apply list_elem_of_In, Hnn in Hin. simpl in Hin.
    destruct v; try discriminate. congruence. }
  rewrite Hex.
  rewrite <- (stable_sort_map str_item total_lt cat_lt) by reflexivity.
  destruct items as [|x [|y items]]; reflexivity.
Qed.

Lemma print_all_run {K} (msg : K -> spec_float -> message) items s :
  print_all msg items s =
    (Ret tt, printed (List.map (fun kv => msg (fst kv) (snd kv)) items) s).
Proof.
  revert s. induction items as [|[k x] items IH]; intros s; simpl.
  - now rewrite printed_nil.
  - rewrite bind_run. unfold print at 1. rewrite IH.
    now rewrite printed_printed.
Qed.

Lemma total_sorted items :
  Forall (fun kv => snd kv <> S754_nan) items ->
  StronglySorted total_desc (stable_sort total_lt items).
Proof.
  intros Hnn.
  assert (Hs : StronglySorted (not_above total_lt)
                 (stable_sort total_lt items)).
  { apply (stable_sort_sorted total_lt (fun kv => snd kv <> S754_nan)).
    - intros x y _ _. unfold total_lt. rewrite !SFltb_opp.
      apply SFltb_asym.
    - intros x y z _ Hy _. unfold total_lt. rewrite !SFltb_opp.
      intros H. destruct (SFltb_cotrans _ (snd y) _ Hy H); auto.
    - exact Hnn. }
  eapply Sorted.StronglySorted_ind with (P := fun l => StronglySorted total_desc l);
    [constructor| |exact Hs].
  intros a l _ IH Ha. constructor; [exact IH|].
  eapply Forall_impl; [exact Ha|].
  intros b. unfold not_above, total_lt, total_desc.
  now rewrite SFltb_opp.
Qed.

Lemma key_sorted items :
  NoDup (List.map fst items) ->
  StronglySorted key_asc (stable_sort key_lt items).
Proof.
  clear py_title strftime_Y_four_digits strftime_Y json_dumps json_loads.
  intros Hnd.
  assert (Hs : StronglySorted (not_above key_lt)
                 (stable_sort key_lt items)).
  { apply (stable_sort_sorted key_lt (fun _ => True)).
    - intros x y _ _. apply pystr_ltb_asym.
    - intros x y z _ _ _. apply pystr_ltb_cotrans.
    - apply Forall_forall. auto. }
  assert (Hnd' : NoDup (List.map fst (stable_sort key_lt items))).
  { now rewrite (Permutation_map fst (stable_sort_perm key_lt items)). }
  revert Hs Hnd'. generalize (stable_sort key_lt items) as l.
  induction l as [|a l IH]; intros Hs Hnd'; [constructor|].
  apply StronglySorted_cons in Hs as [Ha Hs].
  simpl in Hnd'. apply NoDup_cons in Hnd' as [Hna Hnd'].
  constructor; [now apply IH|].
  rewrite Forall_forall in Ha |- *. intros b Hb.
  specialize (Ha b Hb). unfold not_above, key_lt, key_asc in *.
  destruct (pystr_ltb (fst a) (fst b)) eqn:Hab; [reflexivity|].
  exfalso. apply Hna.
  rewrite (pystr_ltb_total _ _ Hab Ha).
  apply list_elem_of_In, in_map, list_elem_of_In, Hb.
Qed.

Lemma view_summary_run s :
  expenses s <> [] ->
  Forall (fun v => is_record v = true) (expenses s) ->
  view_summary s =
    (Ret tt,
     printed
       (summary_report
          (sum_amounts (List.map amount_float (expenses s)))
          (stable_sort total_lt (groups category_str (expenses s)))
          (stable_sort key_lt (groups month_str (expenses s)))) s).
Proof.
  intros Hne Hl. set (l := expenses s) in *.
  unfold view_summary. run @get_expenses. fold l.
  rewrite (match_nonempty l) by assumption.
  run @lift. rewrite (map_res_amounts l Hl).
  run @print. run @lift.
  change (group_sums l [] [])
    with (group_sums l (List.map str_item []) []).
  rewrite (group_sums_records l [] [] Hl).
  run @print. cbn [fst snd]. run @lift.
  fold (groups category_str l). fold (groups month_str l).
  rewrite (sort_by_total_items _ (groups_not_nan category_str l Hl)).
  rewrite bind_run, print_all_run.
  run @print. rewrite print_all_run.
  destruct s as [l0 files dw clk inp out].
  unfold printed, summary_report. simpl.
  rewrite List.map_map. simpl.
  rewrite <- !app_assoc. reflexivity.
Qed.

(** C8.  For every non-empty sequence of records, [view_summary] prints
    the total, which is the sum of all the amounts taken in sequence
    order; then one line for each category that occurs, with the sum of
    the amounts of its records, the lines in descending order of that
    sum; then one line for each month that occurs, the month being the
    first seven characters of the date, with the sum of the amounts of
    its records, the lines in ascending order of the month.  On the three
    records of the example the total is 35, the categories are Transport
    with 20 then Food with 15, and the months are 2024-01 with 30 then
    2024-02 with 5. *)
Theorem view_summary_totals_groups_and_orders :
  (forall s : state,
     expenses s <> [] ->
     Forall (fun v => is_record v = true) (expenses s) ->
     exists cats months,
       view_summary s =
         (Ret tt,
          printed
            (summary_report
               (sum_amounts (List.map amount_float (expenses s)))
               cats months) s)
       /\ groups_of category_str (expenses s) cats
       /\ StronglySorted total_desc cats
       /\ groups_of month_str (expenses s) months
       /\ StronglySorted key_asc months)
  /\ (forall s : state,
        expenses s = summary_example ->
        view_summary s =
          (Ret tt,
           printed
             (summary_report (SF_of_Z 35)
                [(str "Transport", SF_of_Z 20); (str "Food", SF_of_Z 15)]
                [(str "2024-01", SF_of_Z 30); (str "2024-02", SF_of_Z 5)])
             s)).
Proof.
  split.
  - intros s Hne Hl.
    set (l := expenses s) in *.
    exists (stable_sort total_lt (groups category_str l)),
           (stable_sort key_lt (groups month_str l)).
    split; [|split; [|split; [|split]]].
    + now apply view_summary_run.
    + eapply groups_of_perm; [|apply groups_are_groups].
      symmetry. apply stable_sort_perm.
    + apply total_sorted, groups_not_nan, Hl.
    + eapply groups_of_perm; [|apply groups_are_groups].
      symmetry. apply stable_sort_perm.
    + apply key_sorted, groups_nodup.
  - intros s Hex.
    assert (Hrec : Forall (fun v => is_record v = true) summary_example)
      by (repeat constructor).
    rewrite view_summary_run by (rewrite Hex; first [discriminate|exact Hrec]).
    rewrite Hex. do 2 f_equal. all: vm_compute; reflexivity.
Qed.

(** ** Dates *)

Lemma forallb_range (P : Z -> bool) lo n :
  forallb P (seqZ lo n) = true -> forall k, lo <= k < lo + n -> P k = true.
Proof.
  intros H k Hk. rewrite forallb_forall in H. apply H.
  apply list_elem_of_In, elem_of_seqZ. lia.
Qed.

Lemma is_digit_digit_char k : is_digit (digit_char (k mod 10)) = true.
Proof.
  pose proof (Z.mod_pos_bound k 10 ltac:(lia)) as Hk.
  apply (forallb_range (fun j => is_digit (digit_char j)) 0 10); [|lia].
  vm_compute. reflexivity.
Qed.

Lemma is_space_digit_char k : is_space (digit_char (k mod 10)) = false.
Proof.
  pose proof (Z.mod_pos_bound k 10 ltac:(lia)) as Hk.
  apply negb_true_iff.
  apply (forallb_range (fun j => negb (is_space (digit_char j))) 0 10);
    [|lia].
  vm_compute. reflexivity.
Qed.

Lemma alts_IY_pad4 y r : alts IY (pad4 y ++ r) = [(pad4 y, r)].
Proof. unfold pad4. simpl. now rewrite !is_digit_digit_char. Qed.

Lemma py_int_digits4 a b c e :
  0 <= a <= 9 -> 0 <= b <= 9 -> 0 <= c <= 9 -> 0 <= e <= 9 ->
  py_int (digits4 a b c e) = Ret (1000 * a + 100 * b + 10 * c + e).
Proof.
  intros Ha Hb Hc He.
  pose (check := fun a b c e =>
    match py_int (digits4 a b c e) with
    | Ret v => v =? 1000 * a + 100 * b + 10 * c + e
    | Raise _ => false
    end).
  assert (H : forallb (fun a => forallb (fun b => forallb (fun c =>
                forallb (fun e => check a b c e) (seqZ 0 10))
                (seqZ 0 10)) (seqZ 0 10)) (seqZ 0 10) = true)
    by (vm_compute; reflexivity).
  pose proof (forallb_range _ 0 10 H a ltac:(lia)) as H1. cbv beta in H1.
  pose proof (forallb_range _ 0 10 H1 b ltac:(lia)) as H2. cbv beta in H2.
  pose proof (forallb_range _ 0 10 H2 c ltac:(lia)) as H3. cbv beta in H3.
  pose proof (forallb_range _ 0 10 H3 e ltac:(lia)) as H4. cbv beta in H4.
  unfold check in H4.
  destruct (py_int (digits4 a b c e)); [|discriminate].
  apply Z.eqb_eq in H4. now subst.
Qed.

Lemma py_int_pad4 y : 0 <= y <= 9999 -> py_int (pad4 y) = Ret y.
Proof.
  intros Hy.
  change (pad4 y) with (digits4 (y / 1000 mod 10) (y / 100 mod 10)
                          (y / 10 mod 10) (y mod 10)).
  pose proof (Z.mod_pos_bound (y / 1000) 10 ltac:(lia)).
  pose proof (Z.mod_pos_bound (y / 100) 10 ltac:(lia)).
  pose proof (Z.mod_pos_bound (y / 10) 10 ltac:(lia)).
  pose proof (Z.mod_pos_bound y 10 ltac:(lia)).
  rewrite py_int_digits4 by lia.
  f_equal. Z.div_mod_to_equations. lia.
Qed.

Lemma py_int_pad2 n : 0 <= n <= 99 -> py_int (pad2 n) = Ret n.
Proof.
  intros Hn.
  assert (H : forallb (fun n => match py_int (pad2 n) with
                                | Ret v => v =? n
                                | Raise _ => false
                                end) (seqZ 0 100) = true)
    by (vm_compute; reflexivity).
  pose proof (forallb_range _ 0 100 H n ltac:(lia)) as H1. cbv beta in H1.
  destruct (py_int (pad2 n)); [|discriminate].
  apply Z.eqb_eq in H1. now subst.
Qed.

(** *** Matching, item by item *)

Lemma match_items_first it its s txt r g r' :
  hd_error (alts it s) = Some (txt, r) ->
  match_items its r = Some (g, r') ->
  match_items (it :: its) s = Some ((it, txt) :: g, r').
Proof.
  intros Ha Hm. cbn [match_items].
  destruct (alts it s) as [|[txt0 r0] more]; [discriminate|].
  injection Ha as -> ->. now rewrite Hm.
Qed.

Lemma match_items_none it its s :
  Forall (fun c => match_items its (snd c) = None) (alts it s) ->
  match_items (it :: its) s = None.
Proof.
  cbn [match_items]. generalize (alts it s) as cands.
  induction cands as [|[txt r] cands IH]; intros H; [reflexivity|].
  apply Forall_cons in H as [Hr H]. simpl in Hr. rewrite Hr. now apply IH.
Qed.

Lemma match_items_no_alts it its s :
  alts it s = [] -> match_items (it :: its) s = None.
Proof. intros H. apply match_items_none. rewrite H. constructor. Qed.

Ltac cases_upto_31 d :=
  destruct d as [|d|d]; try lia;
  do 5 (try destruct d as [d|d|]); try lia.

Lemma hd_Id_pad2 d r :
  1 <= d <= 31 -> hd_error (alts Id (pad2 d ++ r)) = Some (pad2 d, r).
Proof. intros Hd. cases_upto_31 d; vm_compute; reflexivity. Qed.

Lemma hd_Im_pad2 m r :
  1 <= m <= 12 -> hd_error (alts Im (pad2 m ++ r)) = Some (pad2 m, r).
Proof. intros Hm. cases_upto_31 m; vm_compute; reflexivity. Qed.

Lemma hd_Id_day_text d r :
  1 <= d <= 31 ->
  hd_error (alts Id (day_text d ++ 0x20%N :: r))
  = Some (day_text d, 0x20%N :: r).
Proof. intros Hd. cases_upto_31 d; vm_compute; reflexivity. Qed.

Lemma hd_ILit c r : hd_error (alts (ILit c) (c :: r)) = Some ([c], r).
Proof. simpl. now rewrite N.eqb_refl. Qed.

Lemma hd_ISpaces_one a r :
  is_space a = false ->
  hd_error (alts ISpaces (0x20%N :: a :: r)) = Some ([0x20%N], a :: r).
Proof.
  intros Ha. cbn [alts space_run].
  change (is_space 0x20%N) with true. cbv iota. now rewrite Ha.
Qed.

(** After the day, a space and the month name: the name is matched and
    what follows it is left. *)
Lemma hd_space_abbr m r :
  1 <= m <= 12 ->
  hd_error (alts ISpaces (0x20%N :: nth_month month_abbr m ++ r))
  = Some ([0x20%N], nth_month month_abbr m ++ r)
  /\ hd_error (alts Ib (nth_month month_abbr m ++ 0x20%N :: r))
     = Some (nth_month month_abbr m, 0x20%N :: r)
  /\ index_of (py_lower (nth_month month_abbr m)) a_month 1 = Some m.
Proof. intros Hm. cases_upto_31 m; vm_compute; auto. Qed.

Lemma hd_space_name m r :
  1 <= m <= 12 ->
  hd_error (alts ISpaces (0x20%N :: nth_month month_name m ++ r))
  = Some ([0x20%N], nth_month month_name m ++ r)
  /\ hd_error (alts IB (nth_month month_name m ++ 0x20%N :: r))
     = Some (nth_month month_name m, 0x20%N :: r)
  /\ index_of (py_lower (nth_month month_name m)) f_month 1 = Some m.
Proof. intros Hm. cases_upto_31 m; vm_compute; auto. Qed.

Lemma py_int_day_text d : 1 <= d <= 31 -> py_int (day_text d) = Ret d.
Proof. intros Hd. cases_upto_31 d; vm_compute; reflexivity. Qed.

Lemma hd_IY_pad4 y r : hd_error (alts IY (pad4 y ++ r)) = Some (pad4 y, r).
Proof. now rewrite alts_IY_pad4. Qed.

(** *** The five shapes against their formats *)

Lemma valid_date_bounds y m d :
  valid_date y m d = true -> 1 <= y <= 9999 /\ 1 <= m <= 12 /\ 1 <= d <= 31.
Proof.
  unfold valid_date. rewrite !andb_true_iff, !Z.leb_le.
  intros [[[[[? ?] ?] ?] ?] Hd].
  assert (days_in_month y m <= 31).
  { unfold days_in_month.
    destruct (m =? 2); [destruct (is_leap y); lia|].
    destruct ((m =? 4) || (m =? 6) || (m =? 9) || (m =? 11)); lia. }
  lia.
Qed.

Lemma match_iso y m d :
  1 <= m <= 12 -> 1 <= d <= 31 ->
  match_items items_iso (shape_iso y m d)
  = Some ([(IY, pad4 y); (ILit 0x2D, [0x2D%N]); (Im, pad2 m);
           (ILit 0x2D, [0x2D%N]); (Id, pad2 d)], []).
Proof.
  intros Hm Hd. unfold items_iso, shape_iso.
  eapply match_items_first; [apply hd_IY_pad4|].
  eapply match_items_first; [apply hd_ILit|].
  eapply match_items_first; [apply hd_Im_pad2, Hm|].
  eapply match_items_first; [apply hd_ILit|].
  eapply match_items_first.
  - rewrite <- (app_nil_r (pad2 d)) at 1. apply hd_Id_pad2, Hd.
  - reflexivity.
Qed.

Lemma match_dmy sep y m d :
  1 <= m <= 12 -> 1 <= d <= 31 ->
  match_items (items_dmy sep) (shape_dmy sep y m d)
  = Some ([(Id, pad2 d); (ILit sep, [sep]); (Im, pad2 m);
           (ILit sep, [sep]); (IY, pad4 y)], []).
Proof.
  intros Hm Hd. unfold items_dmy, shape_dmy.
  eapply match_items_first; [apply hd_Id_pad2, Hd|].
  eapply match_items_first; [apply hd_ILit|].
  eapply match_items_first; [apply hd_Im_pad2, Hm|].
  eapply match_items_first; [apply hd_ILit|].
  eapply match_items_first.
  - rewrite <- (app_nil_r (pad4 y)) at 1. apply hd_IY_pad4.
  - reflexivity.
Qed.

Lemma hd_space_year y :
  hd_error (alts ISpaces (0x20%N :: pad4 y))
  = Some ([0x20%N], pad4 y ++ []).
Proof.
  rewrite app_nil_r. unfold pad4.
  apply hd_ISpaces_one, is_space_digit_char.
Qed.

Lemma match_abbr y m d :
  1 <= m <= 12 -> 1 <= d <= 31 ->
  match_items (items_named Ib) (shape_named month_abbr y m d)
  = Some ([(Id, day_text d); (ISpaces, [0x20%N]);
           (Ib, nth_month month_abbr m); (ISpaces, [0x20%N]);
           (IY, pad4 y)], []).
Proof.
  intros Hm Hd. unfold items_named, shape_named.
  destruct (hd_space_abbr m (0x20%N :: pad4 y) Hm) as (Hs & _ & _).
  destruct (hd_space_abbr m (pad4 y) Hm) as (_ & Hb & _).
  eapply match_items_first; [apply hd_Id_day_text, Hd|].
  eapply match_items_first; [exact Hs|].
  eapply match_items_first; [exact Hb|].
  eapply match_items_first; [apply hd_space_year|].
  eapply match_items_first; [apply hd_IY_pad4|].
  reflexivity.
Qed.

Lemma match_name y m d :
  1 <= m <= 12 -> 1 <= d <= 31 ->
  match_items (items_named IB) (shape_named month_name y m d)
  = Some ([(Id, day_text d); (ISpaces, [0x20%N]);
           (IB, nth_month month_name m); (ISpaces, [0x20%N]);
           (IY, pad4 y)], []).
Proof.
  intros Hm Hd. unfold items_named, shape_named.
  destruct (hd_space_name m (0x20%N :: pad4 y) Hm) as (Hs & _ & _).
  destruct (hd_space_name m (pad4 y) Hm) as (_ & Hb & _).
  eapply match_items_first; [apply hd_Id_day_text, Hd|].
  eapply match_items_first; [exact Hs|].
  eapply match_items_first; [exact Hb|].
  eapply match_items_first; [apply hd_space_year|].
  eapply match_items_first; [apply hd_IY_pad4|].
  reflexivity.
Qed.

Lemma strptime_iso y m d :
  valid_date y m d = true ->
  strptime (shape_iso y m d) (str "%Y-%m-%d") = Ret (mkdate y m d).
Proof.
  intros Hv. destruct (valid_date_bounds _ _ _ Hv) as (Hy & Hm & Hd).
  unfold strptime.
  change (compile_format (str "%Y-%m-%d")) with (Some items_iso).
  cbv beta iota.
  rewrite (match_iso y m d Hm Hd).
  unfold group_int, group_month. cbn [group item_eqb].
  rewrite (py_int_pad4 y), (py_int_pad2 m), (py_int_pad2 d) by lia.
  cbn [res_bind]. now rewrite Hv.
Qed.

Lemma strptime_dmy sep fmt y m d :
  compile_format fmt = Some (items_dmy sep) ->
  valid_date y m d = true ->
  strptime (shape_dmy sep y m d) fmt = Ret (mkdate y m d).
Proof.
  intros Hc Hv. destruct (valid_date_bounds _ _ _ Hv) as (Hy & Hm & Hd).
  unfold strptime. rewrite Hc, (match_dmy sep y m d Hm Hd).
  unfold group_int, group_month. cbn [group item_eqb].
  rewrite (py_int_pad4 y), (py_int_pad2 m), (py_int_pad2 d) by lia.
  cbn [res_bind]. now rewrite Hv.
Qed.

Lemma strptime_abbr y m d :
  valid_date y m d = true ->
  strptime (shape_named month_abbr y m d) (str "%d %b %Y")
  = Ret (mkdate y m d).
Proof.
  intros Hv. destruct (valid_date_bounds _ _ _ Hv) as (Hy & Hm & Hd).
  unfold strptime.
  change (compile_format (str "%d %b %Y")) with (Some (items_named Ib)).
  cbv beta iota.
  rewrite (match_abbr y m d Hm Hd).
  destruct (hd_space_abbr m [] Hm) as (_ & _ & Hi).
  unfold group_int, group_month. cbn [group item_eqb].
  rewrite (py_int_pad4 y), Hi, (py_int_day_text d) by lia.
  cbn [res_bind]. now rewrite Hv.
Qed.

Lemma strptime_name y m d :
  valid_date y m d = true ->
  strptime (shape_named month_name y m d) (str "%d %B %Y")
  = Ret (mkdate y m d).
Proof.
  intros Hv. destruct (valid_date_bounds _ _ _ Hv) as (Hy & Hm & Hd).
  unfold strptime.
  change (compile_format (str "%d %B %Y")) with (Some (items_named IB)).
  cbv beta iota.
  rewrite (match_name y m d Hm Hd).
  destruct (hd_space_name m [] Hm) as (_ & _ & Hi).
  unfold group_int, group_month. cbn [group item_eqb].
  rewrite (py_int_pad4 y), Hi, (py_int_day_text d) by lia.
  cbn [res_bind]. now rewrite Hv.
Qed.

(** *** The formats that come before the matching one *)

Lemma strptime_no_match s fmt its :
  compile_format fmt = Some its -> match_items its s = None ->
  strptime s fmt = Raise ValueError.
Proof. intros Hc Hm. unfold strptime. now rewrite Hc, Hm. Qed.

Lemma alts_IY_third a b c r :
  is_digit c = false -> alts IY (a :: b :: c :: r) = [].
Proof.
  intros Hc. destruct r as [|e r]; [reflexivity|]. cbn [alts].
  now rewrite Hc, andb_false_r.
Qed.

Lemma no_match_iso_dmy sep y m d :
  is_digit sep = false ->
  match_items items_iso (shape_dmy sep y m d) = None.
Proof.
  intros Hsep. apply match_items_no_alts.
  unfold shape_dmy, pad2. now apply alts_IY_third.
Qed.

Lemma no_match_dash_slash y m d :
  1 <= d <= 31 ->
  match_items (items_dmy 0x2D) (shape_dmy 0x2F y m d) = None.
Proof.
  intros Hd. unfold shape_dmy.
  generalize (pad2 m ++ [0x2F%N] ++ pad4 y) as r. intros r.
  change (match_items (items_dmy 0x2D) (pad2 d ++ 0x2F%N :: r) = None).
  assert (H : no_match (items_dmy 0x2D) (pad2 d ++ 0x2F%N :: r) = true)
    by (cases_upto_31 d; vm_compute; reflexivity).
  unfold no_match in H.
  now destruct (match_items _ (pad2 d ++ 0x2F%N :: r)).
Qed.

Lemma no_match_named names y m d :
  names = month_abbr \/ names = month_name ->
  1 <= m <= 12 -> 1 <= d <= 31 ->
  match_items items_iso (shape_named names y m d) = None
  /\ match_items (items_dmy 0x2D) (shape_named names y m d) = None
  /\ match_items (items_dmy 0x2F) (shape_named names y m d) = None.
Proof.
  intros Hn Hm Hd. unfold shape_named.
  generalize (str " " ++ pad4 y) as r. intros r.
  pose (check := fun m d =>
    let s := day_text d ++ str " " ++ nth_month names m ++ r in
    no_match items_iso s && no_match (items_dmy 0x2D) s
    && no_match (items_dmy 0x2F) s).
  assert (H : forallb (fun m => forallb (check m) (seqZ 1 31)) (seqZ 1 12)
              = true)
    by (destruct Hn; subst names; vm_compute; reflexivity).
  pose proof (forallb_range _ 1 12 H m ltac:(lia)) as H1. cbv beta in H1.
  pose proof (forallb_range _ 1 31 H1 d ltac:(lia)) as H2.
  unfold check, no_match in H2. cbv zeta in H2.
  destruct (match_items items_iso _); [discriminate|].
  destruct (match_items (items_dmy 0x2D) _); [discriminate|].
  now destruct (match_items (items_dmy 0x2F) _).
Qed.

(** The format with the abbreviated name reads a full name only where the
    two are the same word. *)
Lemma no_match_abbr_name y m d :
  1 <= m <= 12 -> m <> 5 -> 1 <= d <= 31 ->
  match_items (items_named Ib) (shape_named month_name y m d) = None.
Proof.
  intros Hm H5 Hd. unfold shape_named.
  generalize (str " " ++ pad4 y) as r. intros r.
  pose (check := fun m d =>
    no_match (items_named Ib)
      (day_text d ++ str " " ++ nth_month month_name m ++ r)).
  assert (H : forallb (fun m => forallb (check m) (seqZ 1 31))
                (seqZ 1 4 ++ seqZ 6 7) = true)
    by (vm_compute; reflexivity).
  rewrite forallb_app in H. apply andb_true_iff in H as [Ha Hb].
  assert (H1 : forallb (check m) (seqZ 1 31) = true).
  { destruct (Z_lt_le_dec m 5).
    - apply (forallb_range _ 1 4 Ha m). lia.
    - apply (forallb_range _ 6 7 Hb m). lia. }
  pose proof (forallb_range _ 1 31 H1 d ltac:(lia)) as H2.
  unfold check, no_match in H2.
  now destruct (match_items (items_named Ib) _).
Qed.

(** *** Trimming the shapes *)

Lemma lstrip_cons a s : is_space a = false -> lstrip (a :: s) = a :: s.
Proof. intros H. simpl. now rewrite H. Qed.

Lemma rstrip_snoc l c : is_space c = false -> rstrip (l ++ [c]) = l ++ [c].
Proof.
  intros H. unfold rstrip. rewrite rev_app_distr. cbn [rev app].
  rewrite lstrip_cons by exact H. cbn [rev]. now rewrite rev_involutive.
Qed.

Lemma rstrip_pad4 l y : rstrip (l ++ pad4 y) = l ++ pad4 y.
Proof.
  unfold pad4.
  change (l ++ [?a; ?b; ?c; ?e]) with (l ++ [a; b; c] ++ [e]).
  rewrite app_assoc. apply rstrip_snoc, is_space_digit_char.
Qed.

Lemma rstrip_pad2 l d : rstrip (l ++ pad2 d) = l ++ pad2 d.
Proof.
  unfold pad2.
  change (l ++ [?a; ?b]) with (l ++ [a] ++ [b]).
  rewrite app_assoc. apply rstrip_snoc, is_space_digit_char.
Qed.

Lemma is_space_day_text d r :
  1 <= d <= 31 -> lstrip (day_text d ++ r) = day_text d ++ r.
Proof.
  intros Hd. unfold day_text. destruct (d <? 10) eqn:H10.
  - apply Z.ltb_lt in H10. apply lstrip_cons.
    rewrite <- (Z.mod_small d 10) by lia. apply is_space_digit_char.
  - apply lstrip_cons, is_space_digit_char.
Qed.

Lemma lstrip_pad4 y r : lstrip (pad4 y ++ r) = pad4 y ++ r.
Proof. unfold pad4. apply lstrip_cons, is_space_digit_char. Qed.

Lemma lstrip_pad2 d r : lstrip (pad2 d ++ r) = pad2 d ++ r.
Proof. unfold pad2. apply lstrip_cons, is_space_digit_char. Qed.

Lemma py_strip_shape y m d shape :
  1 <= d <= 31 -> shape ∈ date_shapes y m d ->
  py_strip shape = shape /\ shape <> [].
Proof.
  intros Hd Hin. unfold date_shapes in Hin.
  assert (Hne : forall l y, l ++ pad4 y <> []).
  { intros l y0 H. apply app_eq_nil in H as [_ H]. discriminate. }
  assert (Hne2 : forall l y, l ++ pad2 y <> []).
  { intros l y0 H. apply app_eq_nil in H as [_ H]. discriminate. }
  unfold py_strip.
  repeat (apply elem_of_cons in Hin as [->|Hin]).
  - unfold shape_iso. rewrite !app_assoc. split; [|apply Hne2].
    rewrite <- !app_assoc. rewrite lstrip_pad4.
    rewrite !app_assoc. apply rstrip_pad2.
  - unfold shape_dmy. rewrite !app_assoc. split; [|apply Hne].
    rewrite <- !app_assoc. rewrite lstrip_pad2.
    rewrite !app_assoc. apply rstrip_pad4.
  - unfold shape_dmy. rewrite !app_assoc. split; [|apply Hne].
    rewrite <- !app_assoc. rewrite lstrip_pad2.
    rewrite !app_assoc. apply rstrip_pad4.
  - unfold shape_named. rewrite is_space_day_text by exact Hd.
    rewrite !app_assoc. split; [apply rstrip_pad4|apply Hne].
  - unfold shape_named. rewrite is_space_day_text by exact Hd.
    rewrite !app_assoc. split; [apply rstrip_pad4|apply Hne].
  - now apply elem_of_nil in Hin.
Qed.

(** *** The first format that matches wins *)

Lemma try_formats_hit s fmt fmts d :
  strptime s fmt = Ret d ->
  try_formats s (fmt :: fmts) = Ret (strftime_ymd d).
Proof. intros H. cbn [try_formats]. now rewrite H. Qed.

Lemma try_formats_miss s fmt fmts :
  strptime s fmt = Raise ValueError ->
  try_formats s (fmt :: fmts) = try_formats s fmts.
Proof. intros H. cbn [try_formats]. now rewrite H. Qed.



Lemma try_formats_shape y m d shape :
  valid_date y m d = true -> shape ∈ date_shapes y m d ->
  try_formats shape formats = Ret (strftime_ymd (mkdate y m d)).
Proof.
  intros Hv Hin. destruct (valid_date_bounds _ _ _ Hv) as (Hy & Hm & Hd).
  change formats
    with [str "%Y-%m-%d"; str "%d-%m-%Y"; str "%d/%m/%Y"; str "%d %b %Y";
          str "%d %B %Y"].
  unfold date_shapes in Hin.
  repeat (apply elem_of_cons in Hin as [->|Hin]).
  - apply try_formats_hit, strptime_iso, Hv.
  - rewrite try_formats_miss
      by (eapply strptime_no_match;
          [reflexivity|now apply no_match_iso_dmy]).
    apply try_formats_hit, (strptime_dmy 0x2D); [reflexivity|exact Hv].
  - rewrite try_formats_miss
      by (eapply strptime_no_match;
          [reflexivity|now apply no_match_iso_dmy]).
    rewrite try_formats_miss
      by (eapply strptime_no_match;
          [reflexivity|now apply no_match_dash_slash]).
    apply try_formats_hit, (strptime_dmy 0x2F); [reflexivity|exact Hv].
  - destruct (no_match_named month_abbr y m d (or_introl eq_refl) Hm Hd)
      as (H1 & H2 & H3).
    rewrite try_formats_miss
      by (eapply strptime_no_match; [reflexivity|exact H1]).
    rewrite try_formats_miss
      by (eapply strptime_no_match; [reflexivity|exact H2]).
    rewrite try_formats_miss
      by (eapply strptime_no_match; [reflexivity|exact H3]).
    apply try_formats_hit, strptime_abbr, Hv.
  - destruct (no_match_named month_name y m d (or_intror eq_refl) Hm Hd)
      as (H1 & H2 & H3).
    rewrite try_formats_miss
      by (eapply strptime_no_match; [reflexivity|exact H1]).
    rewrite try_formats_miss
      by (eapply strptime_no_match; [reflexivity|exact H2]).
    rewrite try_formats_miss
      by (eapply strptime_no_match; [reflexivity|exact H3]).
    destruct (Z.eq_dec m 5) as [->|H5].
    + change (shape_named month_name y 5 d)
        with (shape_named month_abbr y 5 d).
      apply try_formats_hit, strptime_abbr, Hv.
    + rewrite try_formats_miss
        by (eapply strptime_no_match;
            [reflexivity|now apply no_match_abbr_name]).
      apply try_formats_hit, strptime_name, Hv.
  - now apply elem_of_nil in Hin.
Qed.


(** * Further properties of the program *)

(** ** Operations that leave the list and the files alone *)

Section Only.
Variable R : state -> state -> Prop.
Hypothesis R_refl : forall s, R s s.
Hypothesis R_trans : forall s1 s2 s3, R s1 s2 -> R s2 s3 -> R s1 s3.

Lemma only_ret {A} (a : A) : only R (ret a).
Proof. intros s. apply R_refl. Qed.

Lemma only_raise {A} e : only R (@raise A e).
Proof. intros s. apply R_refl. Qed.

Lemma only_lift {A} (r : res A) : only R (lift r).
Proof. intros s. apply R_refl. Qed.

Lemma only_get : only R get_expenses.
Proof. intros s. apply R_refl. Qed.

Lemma only_now : only R now.
Proof. intros s. apply R_refl. Qed.

Lemma only_bind {A B} (m : M A) (k : A -> M B) :
  only R m -> (forall a, only R (k a)) -> only R (bind m k).
Proof.
  intros Hm Hk s. unfold bind. specialize (Hm s).
  destruct (m s) as [[a|e] s1]; simpl in *; [|exact Hm].
  eapply R_trans; [exact Hm|apply Hk].
Qed.

Lemma only_try_except {A} (m : M A) p h :
  only R m -> (forall e, only R (h e)) -> only R (try_except m p h).
Proof.
  intros Hm Hh s. unfold try_except. specialize (Hm s).
  destruct (m s) as [[a|e] s1]; simpl in *; [exact Hm|].
  destruct (p e); [|exact Hm].
  eapply R_trans; [exact Hm|apply Hh].
Qed.

Lemma only_with_fuel {A} (loop : nat -> M A) :
  (forall n, only R (loop n)) -> only R (with_fuel loop).
Proof. intros H s. apply H. Qed.

Lemma only_if {A} (b : bool) (m1 m2 : M A) :
  only R m1 -> only R m2 -> only R (if b then m1 else m2).
Proof. now destruct b. Qed.
End Only.

Lemma prints_only_refl s : prints_only s s.
Proof. exists []. now rewrite printed_nil. Qed.

Lemma prints_only_trans s1 s2 s3 :
  prints_only s1 s2 -> prints_only s2 s3 -> prints_only s1 s3.
Proof.
  intros [o1 ->] [o2 ->]. exists (o1 ++ o2). now rewrite printed_printed.
Qed.

Lemma prints_only_print m : only prints_only (print m).
Proof. intros s. now exists [m]. Qed.

Lemma prints_only_print_items idx l : only prints_only (print_items idx l).
Proof.
  revert idx. induction l as [|e l IH]; intros idx; cbn [print_items].
  - apply only_ret, prints_only_refl.
  - repeat (apply (only_bind _ prints_only_trans);
            [first [apply only_lift, prints_only_refl
                   |apply prints_only_print]|intros ?]).
    apply IH.
Qed.

Lemma prints_only_print_all {K} (msg : K -> spec_float -> message) items :
  only prints_only (print_all msg items).
Proof.
  induction items as [|[k x] items IH]; cbn [print_all].
  - apply only_ret, prints_only_refl.
  - apply (only_bind _ prints_only_trans); [apply prints_only_print|].
    intros _. exact IH.
Qed.

Lemma prints_only_list_expenses : only prints_only list_expenses.
Proof.
  unfold list_expenses.
  apply (only_bind _ prints_only_trans);
    [apply only_get, prints_only_refl|intros l].
  destruct l; [apply prints_only_print|].
  apply (only_bind _ prints_only_trans); [apply prints_only_print|intros _].
  apply (only_bind _ prints_only_trans);
    [apply only_lift, prints_only_refl|intros sl].
  apply prints_only_print_items.
Qed.

Lemma prints_only_view_summary : only prints_only view_summary.
Proof.
  unfold view_summary.
  apply (only_bind _ prints_only_trans);
    [apply only_get, prints_only_refl|intros l].
  destruct l; [apply prints_only_print|].
  repeat (apply (only_bind _ prints_only_trans);
          [first [apply only_lift, prints_only_refl
                 |apply prints_only_print
                 |apply prints_only_print_all]|intros ?]).
  apply prints_only_print_all.
Qed.

(** X1.  Listing and summarising only print: whatever the list holds, and
    whether they return or raise, the state afterwards is the state before
    with some messages added to the output; the list, the files and the
    pending input are untouched. *)
Theorem list_and_summary_only_print (s : state) :
  (exists out, snd (list_expenses s) = printed out s)
  /\ (exists out, snd (view_summary s) = printed out s).
Proof.
  split; [apply prints_only_list_expenses|apply prints_only_view_summary].
Qed.

(** ** Adding only appends *)

Lemma console_only_refl s : console_only s s.
Proof.
  repeat split; try reflexivity; exists []; [reflexivity|].
  now rewrite app_nil_r.
Qed.

Lemma console_only_trans s1 s2 s3 :
  console_only s1 s2 -> console_only s2 s3 -> console_only s1 s3.
Proof.
  intros (He & Hf & Hd & Hc & [u1 Hu1] & [o1 Ho1])
         (He' & Hf' & Hd' & Hc' & [u2 Hu2] & [o2 Ho2]).
  repeat split; try congruence.
  - exists (u1 ++ u2). rewrite Hu1, Hu2. now rewrite app_assoc.
  - exists (o1 ++ o2). rewrite Ho2, Ho1. now rewrite app_assoc.
Qed.

Lemma console_only_print m : only console_only (print m).
Proof.
  intros s. repeat split; [exists []; reflexivity|now exists [m]].
Qed.

Lemma console_only_input : only console_only input.
Proof.
  intros s. unfold input.
  destruct (stdin s) as [|[l|] rest] eqn:Hin; cbn [snd].
  - apply console_only_refl.
  - repeat split; [now exists [Line l]|exists []; simpl; now rewrite app_nil_r].
  - repeat split; [now exists [CtrlC]|exists []; simpl; now rewrite app_nil_r].
Qed.

Lemma console_only_parse_date t : only console_only (parse_date t).
Proof. intros s. rewrite parse_date_run. apply console_only_refl. Qed.

Ltac console_step :=
  first
    [ apply console_only_parse_date
    | apply console_only_print
    | apply console_only_input
    | apply only_ret, console_only_refl
    | apply only_lift, console_only_refl
    | apply (only_bind _ console_only_trans); [|intros ?]
    | apply (only_try_except _ console_only_trans); [|intros ?]
    | apply only_if
    | match goal with
      | |- only _ (match ?x with Some _ => _ | None => _ end) => destruct x
      end
    | assumption ].

Lemma console_only_ask_amount n : only console_only (ask_amount n).
Proof.
  induction n as [|n IH]; cbn [ask_amount];
    [apply only_raise, console_only_refl|].
  repeat console_step.
Qed.

Lemma console_only_ask_date n : only console_only (ask_date n).
Proof.
  induction n as [|n IH]; cbn [ask_date];
    [apply only_raise, console_only_refl|].
  repeat console_step.
Qed.

(** X2.  Whatever is typed, and however the operation ends, [add_expense]
    either leaves the list and the files as they were, or returns after
    appending exactly one new record, with a category that is not empty, to
    the end of the list: it never changes or removes a record that was
    there. *)
Theorem add_expense_only_appends (s : state) :
  let r := add_expense s in
  (expenses (snd r) = expenses s /\ fs (snd r) = fs s)
  \/ (exists a c d,
        expenses (snd r) = expenses s ++ [new_expense a c d]
        /\ c <> [] /\ fst r = Ret tt).
Proof.
  cbv zeta.
  pose (P := fun (s0 : state) (r : res unit * state) =>
    (expenses (snd r) = expenses s0 /\ fs (snd r) = fs s0)
    \/ (exists a c d,
          expenses (snd r) = expenses s0 ++ [new_expense a c d]
          /\ c <> [] /\ fst r = Ret tt)).
  change (P s (add_expense s)).
  unfold add_expense. rewrite bind_run. unfold print at 1.
  change (P s) with (P (printed [MsgAddHeader] s)).
  generalize (printed [MsgAddHeader] s) as s0. clear s. intros s0.
  unfold try_except at 1.
  assert (Hdone : forall (r : res unit) s1,
            console_only s0 s1 ->
            P s0 (match r with
                  | Ret _ => (r, s1)
                  | Raise e =>
                      if is_KeyboardInterrupt e
                      then print MsgInterrupted s1 else (r, s1)
                  end)).
  { intros r s1 (He & Hf & _). left.
    destruct r as [u|e]; [auto|].
    destruct (is_KeyboardInterrupt e); auto. }
  rewrite bind_run.
  pose proof (only_with_fuel _ _ console_only_ask_amount s0) as H1.
  destruct (with_fuel ask_amount s0) as [[[amount|]|e] s1]; cbn [snd] in H1.
  2: exact (Hdone (Ret tt) s1 H1).
  2: exact (Hdone (Raise e) s1 H1).
  rewrite bind_run.
  pose proof (console_only_input s1) as H2.
  destruct (input s1) as [[line|e] s2]; cbn [snd] in H2.
  2: exact (Hdone (Raise e) s2 (console_only_trans _ _ _ H1 H2)).
  pose proof (console_only_trans _ _ _ H1 H2) as H12.
  destruct (pystr_eqb (py_lower (py_title (py_strip line))) (str "q")).
  { apply (Hdone (Ret tt) (printed [MsgCancelled] s2)).
    exact (console_only_trans _ _ _ H12 (console_only_print _ s2)). }
  rewrite bind_run.
  pose proof (only_with_fuel _ _ console_only_ask_date s2) as H3.
  destruct (with_fuel ask_date s2) as [[[date|]|e] s3]; cbn [snd] in H3.
  2: exact (Hdone (Ret tt) s3 (console_only_trans _ _ _ H12 H3)).
  2: exact (Hdone (Raise e) s3 (console_only_trans _ _ _ H12 H3)).
  clear Hdone.
  destruct (console_only_trans _ _ _ H12 H3) as (He & _).
  set (category := if pystr_eqb (py_title (py_strip line)) []
                   then str "Misc" else py_title (py_strip line)).
  match goal with
  | |- P s0 ?X =>
      assert (HX : exists s',
                X = (Ret tt, s')
                /\ expenses s'
                   = expenses s3 ++ [new_expense amount category date])
  end.
  { run @get_expenses. run @put_expenses. run @get_expenses.
    rewrite bind_run.
    match goal with
    | |- context [save_expenses ?l ?st] =>
        destruct (save_expenses_returns l st) as (s' & Hs' & Hes & _)
    end.
    rewrite Hs'. unfold print. eexists. split; [reflexivity|].
    unfold printed. cbn [expenses]. exact Hes. }
  destruct HX as (s' & -> & Hs'). right.
  exists amount, category, date. cbn [fst snd]. rewrite Hs', He.
  split; [reflexivity|]. split; [|reflexivity].
  subst category. unfold pystr_eqb. case_bool_decide; [discriminate|assumption].
Qed.

(** ** Saving *)


(** ** Selections that are turned down *)

Lemma py_index_out_of_range {A} (l : list A) (k : Z) :
  (1 - Z.of_nat (length l) <=? k) && (k <=? Z.of_nat (length l)) = false ->
  py_index l (k - 1) = Raise IndexError.
Proof.
  intros H. unfold py_index. cbv zeta.
  apply andb_false_iff in H. rewrite !Z.leb_gt in H.
  destruct (k - 1 <? 0) eqn:Hneg; [apply Z.ltb_lt in Hneg|apply Z.ltb_ge in Hneg].
  - destruct H as [H|H]; [|lia].
    replace ((0 <=? k - 1 + Z.of_nat (length l))
             && (k - 1 + Z.of_nat (length l) <? Z.of_nat (length l)))
      with false; [reflexivity|].
    symmetry. apply andb_false_iff. left. apply Z.leb_gt. lia.
  - destruct H as [H|H]; [lia|].
    replace ((0 <=? k - 1) && (k - 1 <? Z.of_nat (length l)))
      with false; [reflexivity|].
    symmetry. apply andb_false_iff. right. apply Z.ltb_ge. lia.
Qed.

(** X4.  When the records are listed and the selection typed at the delete
    or edit prompt is [q], is not a number, or is a number above the count
    [n] of records or at most [-n], the operation prints the list and one
    message ([Cancelled] for [q], [Invalid selection] otherwise) and
    returns: the list, the files and the rest of the input are as before. *)
Theorem turned_down_selection_changes_nothing
  (s : state) (choice : pystr) (rest : list event) (msg : message) :
  expenses s <> [] ->
  Forall (fun v => is_record v = true) (expenses s) ->
  stdin s = Line choice :: rest ->
  selection_message (length (expenses s)) (py_strip choice) = Some msg ->
  let shown :=
    printed (MsgListHeader
               :: listing 1 (list_sort date_lt true (expenses s)) ++ [msg])
      (with_stdin rest s) in
  delete_expense s = (Ret tt, shown) /\ edit_expense s = (Ret tt, shown).
Proof.
  intros Hne Hl Hin Hmsg. cbv zeta.
  assert (Hsorted := sorted_by_date_records _ (Forall_records_dates _ Hl)).
  assert (Hlen : length (list_sort date_lt true (expenses s))
                 = length (expenses s))
    by (now rewrite list_sort_date_perm).
  unfold selection_message in Hmsg.
  split.
  - unfold delete_expense. run @get_expenses.
    rewrite (match_nonempty (expenses s)) by assumption.
    rewrite bind_run, list_expenses_records by assumption.
    destruct s as [l files dw clk inp out]. simpl in Hin. subst inp.
    cbn [expenses] in *. proj_state.
    unfold try_except at 1. run @input.
    destruct (pystr_eqb (py_lower (py_strip choice)) (str "q")).
    { injection Hmsg as <-. unfold print, printed. cbn.
      now rewrite <- app_assoc. }
    run @lift.
    destruct (py_int (py_strip choice)) as [k|e] eqn:Hint.
    + destruct ((1 - Z.of_nat (length l) <=? k) && (k <=? Z.of_nat (length l)))
        eqn:Hk; [discriminate|]. injection Hmsg as <-.
      run @lift. rewrite Hsorted. run @lift.
      rewrite py_index_out_of_range by (now rewrite Hlen).
      cbn. unfold print, printed. cbn. now rewrite <- app_assoc.
    + injection Hmsg as <-.
      apply py_int_raises_ValueError in Hint. subst e.
      cbn. unfold print, printed. cbn. now rewrite <- app_assoc.
  - unfold edit_expense. run @get_expenses.
    rewrite (match_nonempty (expenses s)) by assumption.
    rewrite bind_run, list_expenses_records by assumption.
    destruct s as [l files dw clk inp out]. simpl in Hin. subst inp.
    cbn [expenses] in *. proj_state.
    unfold try_except at 1. run @input.
    destruct (pystr_eqb (py_lower (py_strip choice)) (str "q")).
    { injection Hmsg as <-. unfold print, printed. cbn.
      now rewrite <- app_assoc. }
    run @lift.
    destruct (py_int (py_strip choice)) as [k|e] eqn:Hint.
    + destruct ((1 - Z.of_nat (length l) <=? k) && (k <=? Z.of_nat (length l)))
        eqn:Hk; [discriminate|]. injection Hmsg as <-.
      run @lift. rewrite Hsorted. run @lift.
      rewrite py_index_out_of_range by (now rewrite Hlen).
      cbn. unfold print, printed. cbn. now rewrite <- app_assoc.
    + injection Hmsg as <-.
      apply py_int_raises_ValueError in Hint. subst e.
      cbn. unfold print, printed. cbn. now rewrite <- app_assoc.
Qed.

(** ** Dates *)

Lemma lstrip_spaces t : forallb is_space t = true -> lstrip t = [].
Proof.
  induction t as [|c t IH]; [reflexivity|]. cbn [forallb lstrip].
  intros H. apply andb_prop in H as [-> H]. now apply IH.
Qed.

(** X5.  A date left blank, or made of white space only, is today's date by
    the clock, written as year-month-day; nothing else happens. *)
Theorem parse_date_blank_is_today (t : pystr) (s : state) :
  forallb is_space t = true ->
  parse_date t s = (Ret (strftime_ymd (dt_date (clock s))), s).
Proof.
  intros H. unfold parse_date, py_strip. rewrite (lstrip_spaces t H).
  reflexivity.
Qed.

(** X6.  [parse_date] reads its own results back: the year-month-day text of
    a calendar day with a year of four digits is parsed to itself. *)
Theorem parse_date_keeps_canonical_dates (y m d : Z) (s : state) :
  valid_date y m d = true -> 1000 <= y ->
  parse_date (strftime_ymd (mkdate y m d)) s
  = (Ret (strftime_ymd (mkdate y m d)), s).
Proof.
  intros Hv Hy. destruct (valid_date_bounds _ _ _ Hv) as (Hy' & Hm & Hd).
  assert (Hs : strftime_ymd (mkdate y m d) = shape_iso y m d).
  { unfold strftime_ymd, shape_iso. cbn [d_year d_month d_day].
    now rewrite strftime_Y_four_digits by lia. }
  rewrite Hs at 1.
  assert (Hin : shape_iso y m d ∈ date_shapes y m d) by left.
  destruct (py_strip_shape y m d _ Hd Hin) as [Hstrip Hne].
  unfold parse_date, pystr_eqb. rewrite Hstrip.
  rewrite bool_decide_eq_false_2 by exact Hne. unfold lift.
  now rewrite (try_formats_shape y m d _ Hv Hin).
Qed.

(** *** Days that are not in the calendar *)

Lemma alts_Id_rests a b r :
  Forall (fun cand => snd cand = r \/ snd cand = b :: r)
    (alts Id (a :: b :: r)).
Proof.
  unfold alts, alt2, alt1. rewrite !Forall_app.
  repeat split;
    match goal with
    | |- Forall _ (if ?c then _ else _) => destruct c
    end;
    first [apply Forall_nil_2
          |apply Forall_cons_2; [cbn [snd]; auto|apply Forall_nil_2]].
Qed.

Lemma no_match_Id_then it its a b c r :
  alts it (b :: c :: r) = [] -> alts it (c :: r) = [] ->
  match_items (Id :: it :: its) (a :: b :: c :: r) = None.
Proof.
  intros Hb Hc. apply match_items_none.
  eapply Forall_impl; [apply alts_Id_rests|].
  intros [txt rest] [H|H]; cbn [snd] in *; subst rest;
    now apply match_items_no_alts.
Qed.

Lemma alts_ILit_digit c k r :
  is_digit c = false -> alts (ILit c) (digit_char (k mod 10) :: r) = [].
Proof.
  intros Hc. cbn [alts alt1].
  destruct (N.eqb_spec c (digit_char (k mod 10))) as [->|]; [|reflexivity].
  now rewrite is_digit_digit_char in Hc.
Qed.

Lemma alts_ISpaces_digit k r :
  alts ISpaces (digit_char (k mod 10) :: r) = [].
Proof. cbn [alts space_run]. now rewrite is_space_digit_char. Qed.

Lemma alts_ISpaces_nonspace c r :
  is_space c = false -> alts ISpaces (c :: r) = [].
Proof. intros H. cbn [alts space_run]. now rewrite H. Qed.

Lemma alts_ILit_other c c' r : c <> c' -> alts (ILit c) (c' :: r) = [].
Proof.
  intros H. cbn [alts alt1]. now destruct (N.eqb_spec c c').
Qed.

(** A text that starts with the four digits of a year matches none of the
    formats that start with the day. *)
Lemma no_match_day_first_iso it its y m d :
  (forall k r, alts it (digit_char (k mod 10) :: r) = []) ->
  match_items (Id :: it :: its) (shape_iso y m d) = None.
Proof.
  intros H. unfold shape_iso, pad4. cbn [app].
  apply no_match_Id_then; apply H.
Qed.

(** A text that starts with two digits and a separator matches no format
    that wants something else after the day. *)
Lemma no_match_day_first_dmy it its sep y m d :
  (forall k r, alts it (digit_char (k mod 10) :: r) = []) ->
  (forall r, alts it (sep :: r) = []) ->
  match_items (Id :: it :: its) (shape_dmy sep y m d) = None.
Proof.
  intros H Hsep. unfold shape_dmy, pad2. cbn [app].
  apply no_match_Id_then; [apply H|apply Hsep].
Qed.

Lemma no_match_name_abbr y m d :
  1 <= m <= 12 -> m <> 5 -> 1 <= d <= 31 ->
  match_items (items_named IB) (shape_named month_abbr y m d) = None.
Proof.
  intros Hm H5 Hd. unfold shape_named.
  change (str " " ++ pad4 y) with (0x20%N :: pad4 y).
  generalize (pad4 y) as r. intros r.
  pose (check := fun m d =>
    no_match (items_named IB)
      (day_text d ++ str " " ++ nth_month month_abbr m ++ 0x20%N :: r)).
  assert (H : forallb (fun m => forallb (check m) (seqZ 1 31))
                (seqZ 1 4 ++ seqZ 6 7) = true)
    by (vm_compute; reflexivity).
  rewrite forallb_app in H. apply andb_true_iff in H as [Ha Hb].
  assert (H1 : forallb (check m) (seqZ 1 31) = true).
  { destruct (Z_lt_le_dec m 5).
    - apply (forallb_range _ 1 4 Ha m). lia.
    - apply (forallb_range _ 6 7 Hb m). lia. }
  pose proof (forallb_range _ 1 31 H1 d ltac:(lia)) as H2.
  unfold check, no_match in H2.
  now destruct (match_items (items_named IB) _).
Qed.


Lemma strptime_iso_checked y m d :
  0 <= y <= 9999 -> 1 <= m <= 12 -> 1 <= d <= 31 ->
  strptime (shape_iso y m d) (str "%Y-%m-%d") = checked_date y m d.
Proof.
  intros Hy Hm Hd. unfold strptime.
  change (compile_format (str "%Y-%m-%d")) with (Some items_iso).
  cbv beta iota. rewrite (match_iso y m d Hm Hd).
  unfold group_int, group_month. cbn [group item_eqb].
  rewrite (py_int_pad4 y), (py_int_pad2 m), (py_int_pad2 d) by lia.
  reflexivity.
Qed.

Lemma strptime_dmy_checked sep fmt y m d :
  compile_format fmt = Some (items_dmy sep) ->
  0 <= y <= 9999 -> 1 <= m <= 12 -> 1 <= d <= 31 ->
  strptime (shape_dmy sep y m d) fmt = checked_date y m d.
Proof.
  intros Hc Hy Hm Hd.
  unfold strptime. rewrite Hc, (match_dmy sep y m d Hm Hd).
  unfold group_int, group_month. cbn [group item_eqb].
  rewrite (py_int_pad4 y), (py_int_pad2 m), (py_int_pad2 d) by lia.
  reflexivity.
Qed.

Lemma strptime_abbr_checked y m d :
  0 <= y <= 9999 -> 1 <= m <= 12 -> 1 <= d <= 31 ->
  strptime (shape_named month_abbr y m d) (str "%d %b %Y")
  = checked_date y m d.
Proof.
  intros Hy Hm Hd. unfold strptime.
  change (compile_format (str "%d %b %Y")) with (Some (items_named Ib)).
  cbv beta iota. rewrite (match_abbr y m d Hm Hd).
  destruct (hd_space_abbr m [] Hm) as (_ & _ & Hi).
  unfold group_int, group_month. cbn [group item_eqb].
  rewrite (py_int_pad4 y), Hi, (py_int_day_text d) by lia.
  reflexivity.
Qed.

Lemma strptime_name_checked y m d :
  0 <= y <= 9999 -> 1 <= m <= 12 -> 1 <= d <= 31 ->
  strptime (shape_named month_name y m d) (str "%d %B %Y")
  = checked_date y m d.
Proof.
  intros Hy Hm Hd. unfold strptime.
  change (compile_format (str "%d %B %Y")) with (Some (items_named IB)).
  cbv beta iota. rewrite (match_name y m d Hm Hd).
  destruct (hd_space_name m [] Hm) as (_ & _ & Hi).
  unfold group_int, group_month. cbn [group item_eqb].
  rewrite (py_int_pad4 y), Hi, (py_int_day_text d) by lia.
  reflexivity.
Qed.

Lemma invalid_not_may y d :
  1 <= d <= 31 -> valid_date y 5 d = false -> 1 <= y <= 9999 -> False.
Proof.
  intros Hd Hv Hy. unfold valid_date in Hv.
  change (days_in_month y 5) with 31 in Hv.
  rewrite !andb_false_iff, !Z.leb_gt in Hv. cbn in Hv. lia.
Qed.

Ltac miss_by H :=
  rewrite try_formats_miss by (eapply strptime_no_match; [reflexivity|H]).

(** X7.  A day that is not in the calendar, such as 30 February, 31 April,
    or 29 February of a year that is not a leap year, is refused with a
    [ValueError] in each of the five shapes, and nothing else happens. *)
Theorem parse_date_refuses_days_not_in_calendar
  (y m d : Z) (shape : pystr) (s : state) :
  1 <= y <= 9999 -> 1 <= m <= 12 -> 1 <= d <= 31 ->
  valid_date y m d = false ->
  shape ∈ date_shapes y m d ->
  parse_date shape s = (Raise ValueError, s).
Proof.
  intros Hy Hm Hd Hv Hin.
  destruct (py_strip_shape y m d shape Hd Hin) as [Hstrip Hne].
  unfold parse_date, pystr_eqb. rewrite Hstrip.
  rewrite bool_decide_eq_false_2 by exact Hne. unfold lift. f_equal.
  assert (Hbad : checked_date y m d = Raise ValueError)
    by (unfold checked_date; now rewrite Hv).
  assert (H5 : m <> 5).
  { intros ->. exact (invalid_not_may y d Hd Hv Hy). }
  change formats
    with [str "%Y-%m-%d"; str "%d-%m-%Y"; str "%d/%m/%Y"; str "%d %b %Y";
          str "%d %B %Y"].
  unfold date_shapes in Hin.
  repeat (apply elem_of_cons in Hin as [->|Hin]).
  - rewrite try_formats_miss
      by (rewrite strptime_iso_checked by lia; exact Hbad).
    miss_by ltac:(apply no_match_day_first_iso; intros;
                  now apply alts_ILit_digit).
    miss_by ltac:(apply no_match_day_first_iso; intros;
                  now apply alts_ILit_digit).
    miss_by ltac:(apply no_match_day_first_iso; intros;
                  apply alts_ISpaces_digit).
    miss_by ltac:(apply no_match_day_first_iso; intros;
                  apply alts_ISpaces_digit).
    reflexivity.
  - miss_by ltac:(now apply no_match_iso_dmy).
    rewrite try_formats_miss
      by (rewrite (strptime_dmy_checked 0x2D) by (reflexivity || lia);
          exact Hbad).
    miss_by ltac:(apply no_match_day_first_dmy; intros;
                  [now apply alts_ILit_digit|now apply alts_ILit_other]).
    miss_by ltac:(apply no_match_day_first_dmy; intros;
                  [apply alts_ISpaces_digit|now apply alts_ISpaces_nonspace]).
    miss_by ltac:(apply no_match_day_first_dmy; intros;
                  [apply alts_ISpaces_digit|now apply alts_ISpaces_nonspace]).
    reflexivity.
  - miss_by ltac:(now apply no_match_iso_dmy).
    miss_by ltac:(now apply no_match_dash_slash).
    rewrite try_formats_miss
      by (rewrite (strptime_dmy_checked 0x2F) by (reflexivity || lia);
          exact Hbad).
    miss_by ltac:(apply no_match_day_first_dmy; intros;
                  [apply alts_ISpaces_digit|now apply alts_ISpaces_nonspace]).
    miss_by ltac:(apply no_match_day_first_dmy; intros;
                  [apply alts_ISpaces_digit|now apply alts_ISpaces_nonspace]).
    reflexivity.
  - destruct (no_match_named month_abbr y m d (or_introl eq_refl) Hm Hd)
      as (H1 & H2 & H3).
    miss_by ltac:(exact H1). miss_by ltac:(exact H2). miss_by ltac:(exact H3).
    rewrite try_formats_miss
      by (rewrite strptime_abbr_checked by lia; exact Hbad).
    miss_by ltac:(now apply no_match_name_abbr).
    reflexivity.
  - destruct (no_match_named month_name y m d (or_intror eq_refl) Hm Hd)
      as (H1 & H2 & H3).
    miss_by ltac:(exact H1). miss_by ltac:(exact H2). miss_by ltac:(exact H3).
    miss_by ltac:(now apply no_match_abbr_name).
    rewrite try_formats_miss
      by (rewrite strptime_name_checked by lia; exact Hbad).
    reflexivity.
  - now apply elem_of_nil in Hin.
Qed.

(** ** Adding a record *)

Lemma sanitize_amount_not_q t x :
  sanitize_amount t = Ret x -> pystr_eqb (py_lower t) (str "q") = false.
Proof.
  intros Hx. apply bool_decide_eq_false. intros Hq.
  destruct t as [|c [|]]; try discriminate.
  injection Hq as Hq. apply lower_char_q in Hq as [-> | ->];
    vm_compute in Hx; discriminate.
Qed.

Lemma ask_amount_run bads : forall a x rest s n,
  stdin s = List.map Line bads ++ Line a :: rest ->
  Forall (fun t => rejected_amount t = true) bads ->
  sanitize_amount (py_strip a) = Ret x ->
  (length bads < n)%nat ->
  ask_amount n s
  = (Ret (Some x),
     printed (repeat MsgBadAmount (length bads)) (with_stdin rest s)).
Proof.
  induction bads as [|t bads IH]; intros a x rest s n Hin Hbad Hx Hn;
    (destruct n as [|n]; [cbn in Hn; lia|]);
    destruct s as [l files dw clk inp out]; cbn in Hin; subst inp;
    cbn [ask_amount]; run @input.
  - rewrite (sanitize_amount_not_q _ _ Hx).
    unfold try_except, bind, lift, ret. rewrite Hx. cbn.
    unfold printed. cbn. now rewrite app_nil_r.
  - apply Forall_cons in Hbad as [Ht Hbad]. unfold rejected_amount in Ht.
    apply andb_prop in Ht as [Hq Ht]. apply negb_true_iff in Hq.
    rewrite Hq.
    destruct (sanitize_amount (py_strip t)) as [|e] eqn:He; [discriminate|].
    apply sanitize_amount_raises_ValueError in He as Hv. subst e.
    unfold try_except, bind, lift, ret, print. cbn.
    cbn in Hn.
    rewrite (IH a x rest _ n) by first [assumption|reflexivity|lia].
    unfold printed, with_stdin. cbn. now rewrite <- app_assoc.
Qed.

Lemma ask_date_run s0 bads : forall d ds rest s n,
  clock s = clock s0 ->
  stdin s = List.map Line bads ++ Line d :: rest ->
  Forall (fun t => rejected_date s0 t = true) bads ->
  pystr_eqb (py_lower (py_strip d)) (str "q") = false ->
  fst (parse_date d s0) = Ret ds ->
  (length bads < n)%nat ->
  ask_date n s
  = (Ret (Some ds),
     printed (repeat MsgBadDate (length bads)) (with_stdin rest s)).
Proof.
  induction bads as [|t bads IH]; intros d ds rest s n Hc Hin Hbad Hq Hd Hn;
    (destruct n as [|n]; [cbn in Hn; lia|]);
    destruct s as [l files dw clk inp out]; cbn in Hin, Hc; subst inp clk;
    cbn [ask_date]; run @input.
  - rewrite Hq. unfold try_except, bind, ret.
    rewrite parse_date_run.
    rewrite (parse_date_same_clock d _ s0) by reflexivity.
    rewrite Hd. cbn. unfold printed. cbn. now rewrite app_nil_r.
  - apply Forall_cons in Hbad as [Ht Hbad]. unfold rejected_date in Ht.
    apply andb_prop in Ht as [Hqt Ht]. apply negb_true_iff in Hqt.
    rewrite Hqt. unfold try_except, bind, ret, print.
    rewrite parse_date_run.
    rewrite (parse_date_same_clock t _ s0) by reflexivity.
    destruct (fst (parse_date t s0)) as [|e] eqn:He; [discriminate|].
    apply parse_date_raises_ValueError in He as Hv. subst e. cbn.
    cbn in Hn.
    rewrite (IH d ds rest _ n) by first [assumption|reflexivity|lia].
    unfold printed, with_stdin. cbn. now rewrite <- app_assoc.
Qed.

(** X8.  What [add_expense] does with what is typed. The amount is asked for
    until an answer parses, each rejected answer getting a message; the
    category is the trimmed and title-cased answer, or [Misc] for a blank
    one; the date is asked for until an answer parses. Then one record with
    these three values is appended to the list, the list is saved and the
    record is reported. *)
Theorem add_expense_appends_what_was_typed
  (s : state) (bad_amounts bad_dates : list pystr) (a c d : pystr)
  (rest : list event) (x : spec_float) (ds : pystr) :
  stdin s
  = List.map Line bad_amounts ++ Line a :: Line c
      :: List.map Line bad_dates ++ Line d :: rest ->
  Forall (fun t => rejected_amount t = true) bad_amounts ->
  sanitize_amount (py_strip a) = Ret x ->
  pystr_eqb (py_lower (py_title (py_strip c))) (str "q") = false ->
  Forall (fun t => rejected_date s t = true) bad_dates ->
  pystr_eqb (py_lower (py_strip d)) (str "q") = false ->
  fst (parse_date d s) = Ret ds ->
  let l' := expenses s ++ [new_expense x (category_of c) ds] in
  let shown :=
    printed (MsgAddHeader :: repeat MsgBadAmount (length bad_amounts)
             ++ repeat MsgBadDate (length bad_dates))
      (with_stdin rest s) in
  add_expense s
  = (Ret tt,
     printed [MsgSaved x (category_of c) ds]
       (snd (save_expenses l' (with_expenses l' shown)))).
Proof.
  intros Hin Hbada Hx Hc Hbadd Hq Hd. cbv zeta.
  unfold add_expense. run @print. unfold try_except at 1.
  rewrite bind_run. unfold with_fuel at 1.
  rewrite (ask_amount_run bad_amounts a x
             (Line c :: List.map Line bad_dates ++ Line d :: rest))
    by (proj_state; try assumption; rewrite Hin, length_app, length_map;
        cbn; lia).
  destruct s as [l files dw clk inp out]. cbn in Hin. subst inp.
  proj_state. run @input. rewrite Hc.
  rewrite bind_run. unfold with_fuel at 1.
  rewrite (ask_date_run
             (mkstate l files dw clk
                (List.map Line bad_amounts ++ Line a :: Line c
                   :: List.map Line bad_dates ++ Line d :: rest) out)
             bad_dates d ds rest)
    by (proj_state; try assumption; try reflexivity;
        rewrite length_app, length_map; cbn; lia).
  proj_state. run @get_expenses. run @put_expenses. run @get_expenses.
  rewrite bind_run. fold (category_of c).
  rewrite <- !app_assoc. cbn [app].
  match goal with
  | |- context [save_expenses ?l ?st] =>
      destruct (save_expenses_returns l st) as (s' & Hs' & _ & _)
  end.
  rewrite Hs'. reflexivity.
Qed.

Ltac stop_done :=
  unfold bind, print, ret, printed; cbn; rewrite <- ?app_assoc; reflexivity.

(** X9.  Giving up at a prompt of [add_expense]. [q] (in either case, with
    blanks around it) or Ctrl-C typed at the amount prompt, at the category
    prompt after an amount, or at the date prompt after an amount and a
    category, ends the operation with one message; no record is added and
    nothing is saved. *)
Theorem add_expense_gives_up_without_change (s : state) :
  (forall ev rest msg,
     stdin s = ev :: rest ->
     stop_message false ev = Some msg ->
     add_expense s
     = (Ret tt, printed [MsgAddHeader; msg] (with_stdin rest s)))
  /\ (forall a x ev rest msg,
        stdin s = Line a :: ev :: rest ->
        sanitize_amount (py_strip a) = Ret x ->
        stop_message true ev = Some msg ->
        add_expense s
        = (Ret tt, printed [MsgAddHeader; msg] (with_stdin rest s)))
  /\ (forall a x c ev rest msg,
        stdin s = Line a :: Line c :: ev :: rest ->
        sanitize_amount (py_strip a) = Ret x ->
        stop_message true (Line c) = None ->
        stop_message false ev = Some msg ->
        add_expense s
        = (Ret tt, printed [MsgAddHeader; msg] (with_stdin rest s))).
Proof.
  split; [|split].
  - intros ev rest msg Hin Hstop.
    destruct s as [l files dw clk inp out]. cbn in Hin. subst inp.
    unfold add_expense. run @print. unfold try_except at 1.
    rewrite bind_run. unfold with_fuel at 1. proj_state.
    cbn [length ask_amount]. rewrite bind_run. unfold input at 1.
    proj_state.
    destruct ev as [t|]; cbn [stop_message] in Hstop.
    + destruct (pystr_eqb (py_lower (py_strip t)) (str "q"));
        [|discriminate].
      injection Hstop as <-. stop_done.
    + injection Hstop as <-. stop_done.
  - intros a x ev rest msg Hin Hx Hstop.
    unfold add_expense. run @print. unfold try_except at 1.
    rewrite bind_run. unfold with_fuel at 1.
    rewrite (ask_amount_run [] a x (ev :: rest))
      by (proj_state; try assumption; try apply Forall_nil_2; cbn; lia).
    destruct s as [l files dw clk inp out]. cbn in Hin. subst inp.
    proj_state. rewrite bind_run. unfold input at 1. proj_state.
    destruct ev as [t|]; cbn [stop_message] in Hstop.
    + destruct (pystr_eqb (py_lower (py_title (py_strip t))) (str "q"));
        [|discriminate].
      injection Hstop as <-. stop_done.
    + injection Hstop as <-. stop_done.
  - intros a x c ev rest msg Hin Hx Hc Hstop.
    cbn [stop_message] in Hc.
    destruct (pystr_eqb (py_lower (py_title (py_strip c))) (str "q"))
      eqn:Hcq; [discriminate|]. clear Hc.
    unfold add_expense. run @print. unfold try_except at 1.
    rewrite bind_run. unfold with_fuel at 1.
    rewrite (ask_amount_run [] a x (Line c :: ev :: rest))
      by (proj_state; try assumption; try apply Forall_nil_2; cbn; lia).
    destruct s as [l files dw clk inp out]. cbn in Hin. subst inp.
    proj_state. run @input. rewrite Hcq.
    rewrite bind_run. unfold with_fuel at 1. proj_state.
    cbn [length ask_date]. rewrite bind_run. unfold input at 1. proj_state.
    destruct ev as [t|]; cbn [stop_message] in Hstop.
    + destruct (pystr_eqb (py_lower (py_strip t)) (str "q"));
        [|discriminate].
      injection Hstop as <-. stop_done.
    + injection Hstop as <-. stop_done.
Qed.

(** ** The menu *)

Lemma menu_loop_turns_down bads : forall tail s n,
  stdin s = List.map Line bads ++ tail ->
  Forall (fun t => menu_choice t = false) bads ->
  menu_loop (length bads + n) s
  = menu_loop n (printed (menu_noise (length bads)) (with_stdin tail s)).
Proof.
  induction bads as [|t bads IH]; intros tail s n Hin Hbad;
    destruct s as [l files dw clk inp out]; cbn in Hin; subst inp.
  - cbn. unfold printed, with_stdin. cbn. now rewrite app_nil_r.
  - apply Forall_cons in Hbad as [Ht Hbad].
    unfold menu_choice in Ht. cbn [List.map existsb] in Ht.
    repeat (apply orb_false_elim in Ht as [? Ht]).
    cbn [length Nat.add menu_loop]. rewrite bind_run.
    unfold menu_turn. run @print. run @input.
    repeat match goal with
           | H : pystr_eqb (py_strip t) _ = false |- _ => rewrite H; clear H
           end.
    run @print. unfold ret at 1. cbv beta iota.
    rewrite (IH tail) by (proj_state; auto).
    f_equal. unfold printed, with_stdin. cbn. f_equal.
    now rewrite <- !app_assoc.
Qed.

(** X10.  How [main] ends. After the list is loaded, answers other than [1]
    to [6] are turned down one by one. Then the answer [6] ends the program
    without writing any file; Ctrl-C at the menu saves the list and ends the
    program; and when the input is at its end the [EOFError] of the prompt
    is not handled: it leaves [main] and nothing is saved. *)
Theorem main_endings
  (s s1 : state) (l : list pyval) (bads : list pystr) (tail : list event) :
  load_expenses s = (Ret l, s1) ->
  stdin s1 = List.map Line bads ++ tail ->
  Forall (fun t => menu_choice t = false) bads ->
  let s2 :=
    printed (MsgWelcome :: menu_noise (length bads) ++ [MsgMenu])
      (with_stdin (List.tl tail) (with_expenses l s1)) in
  match tail with
  | [] => main s = (Raise EOFError, s2)
  | CtrlC :: _ =>
      main s
      = (Ret tt, snd (save_expenses l (printed [MsgSavingOnInterrupt] s2)))
  | Line t :: _ =>
      py_strip t = str "6" -> main s = (Ret tt, printed [MsgBye] s2)
  end.
Proof.
  intros Hload Hin Hbad. cbv zeta.
  destruct s1 as [l1 files dw clk inp out]. cbn in Hin. subst inp.
  destruct tail as [|[t|] rest]; [|intros H6|]; cbn [List.tl];
    unfold main; rewrite bind_run, Hload;
    run @put_expenses; run @print; unfold try_except at 1;
    unfold with_fuel at 1; proj_state;
    rewrite length_app, length_map;
    match goal with
    | |- context [S (length bads + length ?tl)] =>
        replace (S (length bads + length tl))
          with (length bads + S (length tl))%nat by lia;
        rewrite (menu_loop_turns_down bads tl) by (proj_state; auto)
    end;
    proj_state; cbn [menu_loop]; rewrite bind_run;
    unfold menu_turn; run @print; rewrite bind_run; unfold input at 1;
    proj_state.
  - cbn. now rewrite <- !app_assoc.
  - rewrite H6.
    change (pystr_eqb (str "6") (str "1")) with false.
    change (pystr_eqb (str "6") (str "2")) with false.
    change (pystr_eqb (str "6") (str "3")) with false.
    change (pystr_eqb (str "6") (str "4")) with false.
    change (pystr_eqb (str "6") (str "5")) with false.
    change (pystr_eqb (str "6") (str "6")) with true.
    cbv beta iota. unfold bind, print, ret, printed. cbn.
    rewrite <- !app_assoc. cbn [app]. now rewrite <- ?app_assoc.
  - cbn [is_KeyboardInterrupt pyexc_eqb].
    run @print. run @get_expenses.
    repeat first [rewrite <- app_assoc | progress cbn [app]].
    match goal with
    | |- context [save_expenses ?l ?st] =>
        destruct (save_expenses_returns l st) as (s' & Hs' & _ & _)
    end.
    rewrite Hs'. reflexivity.
Qed.

(** ** Records with a field missing *)

Lemma map_res_raises {A B} (f : A -> res B) l1 x l2 e :
  Forall (fun v => exists y, f v = Ret y) l1 -> f x = Raise e ->
  map_res f (l1 ++ x :: l2) = Raise e.
Proof.
  intros Hl Hx. induction Hl as [|v l1 [y Hy] _ IH]; cbn [app map_res].
  - now rewrite Hx.
  - rewrite Hy. cbn [res_bind]. now rewrite IH.
Qed.

Lemma sorted_by_date_raises l1 d l2 :
  Forall (fun v => has_key (str "date") v = true) l1 ->
  dict_lookup (str "date") d = None ->
  sorted_by_date (l1 ++ PDict d :: l2) = Raise KeyError.
Proof.
  intros Hl Hd. unfold sorted_by_date, py_sorted.
  rewrite (map_res_raises _ l1 (PDict d) l2 KeyError); [reflexivity| |].
  - eapply Forall_impl; [exact Hl|]. intros v Hv. unfold has_key in Hv.
    destruct (py_getitem v (str "date")) as [k|]; [|discriminate].
    now exists (k, v).
  - cbn [py_getitem]. now rewrite Hd.
Qed.

(** X11.  A record without the field it is asked for stops the operation
    with a [KeyError]. When the first record without a [date] comes after
    records that have one, listing prints its heading and raises; deleting
    and editing raise in the same way, before any question is asked, since
    they list the records outside their own handler. When the first record
    without an [amount] comes after records whose amounts are numbers, the
    summary raises before it prints anything. The list and the files are as
    before. *)
Theorem record_without_field_raises_KeyError
  (s : state) (l1 l2 : list pyval) (d : list (pystr * pyval)) :
  expenses s = l1 ++ PDict d :: l2 ->
  (Forall (fun v => has_key (str "date") v = true) l1 ->
   dict_lookup (str "date") d = None ->
   list_expenses s = (Raise KeyError, printed [MsgListHeader] s)
   /\ delete_expense s = (Raise KeyError, printed [MsgListHeader] s)
   /\ edit_expense s = (Raise KeyError, printed [MsgListHeader] s))
  /\ (Forall (fun v => has_amount v = true) l1 ->
      dict_lookup (str "amount") d = None ->
      view_summary s = (Raise KeyError, s)).
Proof.
  intros He.
  assert (Hne : expenses s <> [])
    by (rewrite He; intros H; now apply app_eq_nil in H as [_ H]).
  split.
  - intros Hl Hd.
    assert (Hlist : list_expenses s
                    = (Raise KeyError, printed [MsgListHeader] s)).
    { unfold list_expenses. run @get_expenses.
      rewrite (match_nonempty (expenses s)) by assumption.
      run @print. rewrite bind_run. unfold lift at 1.
      rewrite He at 1. now rewrite sorted_by_date_raises. }
    split; [exact Hlist|]. split.
    + unfold delete_expense. run @get_expenses.
      rewrite (match_nonempty (expenses s)) by assumption.
      now rewrite bind_run, Hlist.
    + unfold edit_expense. run @get_expenses.
      rewrite (match_nonempty (expenses s)) by assumption.
      now rewrite bind_run, Hlist.
  - intros Hl Hd. unfold view_summary. run @get_expenses.
    rewrite (match_nonempty (expenses s)) by assumption.
    rewrite bind_run. unfold lift at 1. rewrite He at 1.
    rewrite (map_res_raises _ l1 (PDict d) l2 KeyError); [reflexivity| |].
    + eapply Forall_impl; [exact Hl|]. intros v Hv. unfold has_amount in Hv.
      destruct (amount_of v) as [x|]; [|discriminate]. now exists x.
    + unfold amount_of. cbn [py_getitem]. now rewrite Hd.
Qed.

(** ** Amounts written in decimal *)

Ltac digit_cases d H :=
  unfold is_decimal_digit in H; apply andb_prop in H as [?H ?H];
  rewrite Z.leb_le in *;
  destruct d as [|d|d]; try lia;
  do 4 (try destruct d as [d|d|]); try lia.

Lemma digit_value_digit_char d :
  is_decimal_digit d = true -> digit_value (digit_char d) = Some d.
Proof. intros H. digit_cases d H; vm_compute; reflexivity. Qed.

Lemma digit_char_plain d :
  is_decimal_digit d = true ->
  is_space (digit_char d) = false
  /\ amount_char (digit_char d) = true
  /\ (forall r, parse_sign (digit_char d :: r) = (false, digit_char d :: r))
  /\ lower_char (digit_char d) = digit_char d
  /\ (digit_char d =? 0x69)%N = false /\ (digit_char d =? 0x6E)%N = false.
Proof. intros H. digit_cases d H; vm_compute; repeat split. Qed.

Lemma digits_us_digits ds : forall acc n after r,
  Forall (fun d => is_decimal_digit d = true) ds ->
  digits_us acc n after (digits_text ds ++ r)
  = digits_us (fold_left (fun acc d => acc * 10 + d) ds acc)
      (n + Z.of_nat (length ds))
      (match ds with [] => after | _ => true end) r.
Proof.
  induction ds as [|d ds IH]; intros acc n after r Hds.
  - cbn. now rewrite Z.add_0_r.
  - apply Forall_cons in Hds as [Hd Hds].
    cbn [digits_text List.map app digits_us].
    rewrite (digit_value_digit_char d Hd).
    fold (digits_text ds). rewrite IH by exact Hds.
    cbn [fold_left length].
    replace (match ds with [] => true | _ :: _ => true end) with true
      by now destruct ds.
    f_equal. lia.
Qed.

Lemma py_strip_no_space s :
  Forall (fun c => is_space c = false) s -> py_strip s = s.
Proof.
  intros H. unfold py_strip, rstrip.
  assert (Hl : forall t, Forall (fun c => is_space c = false) t ->
                         lstrip t = t).
  { intros t Ht. destruct Ht as [|c t Hc _]; [reflexivity|].
    now apply lstrip_cons. }
  rewrite (Hl s H), (Hl (rev s)); [apply rev_involutive|].
  apply Forall_forall. intros c Hc. rewrite Forall_forall in H.
  apply H. apply list_elem_of_In. apply list_elem_of_In, in_rev in Hc.
  exact Hc.
Qed.

Lemma digits_text_plain ds :
  Forall (fun d => is_decimal_digit d = true) ds ->
  Forall (fun c => is_space c = false) (digits_text ds)
  /\ List.filter amount_char (digits_text ds) = digits_text ds.
Proof.
  induction 1 as [|d ds Hd _ [IH1 IH2]]; [split; [constructor|reflexivity]|].
  destruct (digit_char_plain d Hd) as (Hs & Ha & _).
  split; [now constructor|]. cbn [digits_text List.map List.filter].
  rewrite Ha. f_equal. exact IH2.
Qed.

Lemma app_cons_not_nil_sym {A} (l1 l2 : list A) x : l1 ++ x :: l2 <> [].
Proof. intros H. symmetry in H. exact (app_cons_not_nil _ _ _ H). Qed.

Lemma digits_us_stop acc n after c r :
  digit_value c = None -> (c =? 0x5F)%N = false ->
  digits_us acc n after (c :: r) = (acc, n, c :: r).
Proof. intros Hd Hc. cbn [digits_us]. now rewrite Hd, Hc. Qed.

Lemma not_a_word h r w ws :
  (lower_char h =? w)%N = false ->
  pystr_eqb (py_lower (h :: r)) (w :: ws) = false.
Proof.
  intros H. apply bool_decide_eq_false. intros Heq.
  injection Heq as Heq _. rewrite Heq, N.eqb_refl in H. discriminate.
Qed.

Lemma not_inf_nan h r :
  (lower_char h =? 0x69)%N = false -> (lower_char h =? 0x6E)%N = false ->
  pystr_eqb (py_lower (h :: r)) (str "inf") = false
  /\ pystr_eqb (py_lower (h :: r)) (str "infinity") = false
  /\ pystr_eqb (py_lower (h :: r)) (str "nan") = false.
Proof.
  intros Hi Hn. repeat split.
  - exact (not_a_word h r 0x69%N (str "nf") Hi).
  - exact (not_a_word h r 0x69%N (str "nfinity") Hi).
  - exact (not_a_word h r 0x6E%N (str "an") Hn).
Qed.

(** [float] of a text made of ASCII digits with at most one point. *)
Lemma py_float_decimal di df (tail : pystr) :
  Forall (fun d => is_decimal_digit d = true) di ->
  Forall (fun d => is_decimal_digit d = true) df ->
  di ++ df <> [] ->
  tail = 0x2E%N :: digits_text df \/ (tail = [] /\ df = []) ->
  py_float (digits_text di ++ tail)
  = Ret (SF_of_decimal false (digits_value (di ++ df))
           (- Z.of_nat (length df))).
Proof.
  intros Hi Hf Hne Htail.
  destruct (digits_text_plain di Hi) as [Hsi _].
  destruct (digits_text_plain df Hf) as [Hsf _].
  assert (Hsp : Forall (fun c => is_space c = false) (digits_text di ++ tail)).
  { apply Forall_app. split; [exact Hsi|].
    destruct Htail as [->|[-> _]]; [|constructor].
    constructor; [reflexivity|exact Hsf]. }
  assert (Hhead : exists h r,
             digits_text di ++ tail = h :: r
             /\ parse_sign (h :: r) = (false, h :: r)
             /\ (lower_char h =? 0x69)%N = false
             /\ (lower_char h =? 0x6E)%N = false).
  { destruct Hi as [|d di Hd Hi].
    - destruct Htail as [->|[-> ->]]; [|now contradiction Hne].
      eexists _, _. split; [reflexivity|]. repeat split.
    - destruct (digit_char_plain d Hd) as (_ & _ & Hsg & Hlow & Hi' & Hn').
      eexists _, _. split; [reflexivity|]. rewrite Hlow. auto. }
  destruct Hhead as (h & r & Htext & Hsign & Hni & Hnn).
  unfold py_float. rewrite (py_strip_no_space _ Hsp).
  rewrite Htext, Hsign. cbv beta iota.
  destruct (not_inf_nan h r Hni Hnn) as (-> & -> & ->). cbn [orb].
  rewrite <- Htext. rewrite digits_us_digits by exact Hi.
  unfold digits_value. rewrite fold_left_app.
  set (iv := fold_left (fun acc d => acc * 10 + d) di 0).
  destruct Htail as [->|[-> ->]].
  - rewrite digits_us_stop by reflexivity. cbv beta iota.
    rewrite <- (app_nil_r (digits_text df)).
    rewrite digits_us_digits by exact Hf. cbn [digits_us].
    replace (0 <? 0 + Z.of_nat (length di) + (0 + Z.of_nat (length df)))
      with true.
    + cbn [parse_exponent]. do 2 f_equal. all: lia.
    + symmetry. apply Z.ltb_lt.
      destruct di, df; cbn [length] in *; try lia. now contradiction Hne.
  - cbn [digits_us fold_left length]. cbv beta iota.
    replace (0 <? 0 + Z.of_nat (length di) + 0) with true.
    + cbn [parse_exponent]. reflexivity.
    + symmetry. apply Z.ltb_lt.
      destruct di; cbn [length] in *; try lia. now contradiction Hne.
Qed.

Lemma SF_of_decimal_integer v :
  0 <= v -> SF_of_decimal false v 0 = SF_of_Z v.
Proof.
  intros Hv. unfold SF_of_decimal, SF_of_Z.
  destruct v as [|p|p]; [reflexivity| |lia].
  cbn [Z.leb Z.compare cond_Zopp]. now rewrite Z.pow_0_r, Z.mul_1_r.
Qed.

Lemma digits_value_nonneg ds :
  Forall (fun d => is_decimal_digit d = true) ds -> 0 <= digits_value ds.
Proof.
  unfold digits_value.
  assert (H : forall acc, 0 <= acc ->
            Forall (fun d => is_decimal_digit d = true) ds ->
            0 <= fold_left (fun acc d => acc * 10 + d) ds acc).
  { induction ds as [|d ds IH]; intros acc Hacc Hds; [exact Hacc|].
    apply Forall_cons in Hds as [Hd Hds]. cbn [fold_left].
    apply IH; [|exact Hds]. unfold is_decimal_digit in Hd.
    apply andb_prop in Hd as [H1 H2]. rewrite Z.leb_le in *. lia. }
  apply H. lia.
Qed.

(** X12.  Amounts written in decimal. When the characters that
    [sanitize_amount] keeps are ASCII digits with one point among them, the
    result is the double nearest to the number so written; when they are
    ASCII digits only, it is the double nearest to that integer. Currency
    signs, commas, letters and blanks anywhere in the text do not matter. *)
Theorem sanitize_amount_reads_decimal_amounts (t : pystr) (di df : list Z) :
  Forall (fun d => is_decimal_digit d = true) di ->
  Forall (fun d => is_decimal_digit d = true) df ->
  (di ++ df <> [] ->
   List.filter amount_char t = digits_text di ++ 0x2E%N :: digits_text df ->
   sanitize_amount t
   = Ret (SF_of_decimal false (digits_value (di ++ df))
            (- Z.of_nat (length df))))
  /\ (di <> [] ->
      List.filter amount_char t = digits_text di ->
      sanitize_amount t = Ret (SF_of_Z (digits_value di))).
Proof.
  intros Hi Hf.
  assert (Hex : forall kept, kept <> [] ->
            List.filter amount_char t = kept ->
            sanitize_amount t = py_float kept).
  { intros kept Hne Hk. rewrite sanitize_amount_unfold.
    destruct (existsb amount_char t) eqn:Hex; [now rewrite Hk|].
    apply filter_nil_existsb in Hex. congruence. }
  split.
  - intros Hne Hk. rewrite (Hex _ (app_cons_not_nil_sym _ _ _) Hk).
    apply py_float_decimal; auto.
  - intros Hne Hk.
    assert (Hne' : digits_text di <> [])
      by (destruct di; [congruence|discriminate]).
    rewrite (Hex _ Hne' Hk).
    rewrite <- (app_nil_r (digits_text di)).
    rewrite (py_float_decimal di [] []); auto.
    + rewrite app_nil_r. cbn [length Z.of_nat Z.opp].
      now rewrite SF_of_decimal_integer by now apply digits_value_nonneg.
    + now rewrite app_nil_r.
Qed.

(** ** No amount is a NaN *)

Lemma SFdiv_finite_not_nan pr em sx mx ex sy my ey :
  SFdiv pr em (S754_finite sx mx ex) (S754_finite sy my ey) <> S754_nan.
Proof.
  unfold SFdiv, SFdiv_core_binary.
  set (e' := Z.min _ _). set (sh := ex - ey - e').
  set (m' := match sh with
             | 0 => Z.pos mx
             | Z.pos _ => Z.shiftl (Z.pos mx) sh
             | Z.neg _ => 0
             end).
  assert (Hm' : 0 <= m').
  { subst m'. destruct sh; [lia| |lia]. apply Z.shiftl_nonneg. lia. }
  pose proof (Z.div_pos m' (Z.pos my) Hm' ltac:(lia)) as Hq.
  unfold Z.div in Hq.
  destruct (Z.div_eucl m' (Z.pos my)) as [q r].
  now apply binary_round_aux_not_nan.
Qed.

Lemma SF_of_decimal_not_nan neg m scale :
  SF_of_decimal neg m scale <> S754_nan.
Proof.
  unfold SF_of_decimal. destruct m as [|p|p]; try discriminate.
  destruct (0 <=? scale).
  - apply binary_normalize_not_nan.
  - apply SFdiv_finite_not_nan.
Qed.

Lemma lstrip_incl s c : In c (lstrip s) -> In c s.
Proof.
  induction s as [|x s IH]; [trivial|]. cbn [lstrip].
  destruct (is_space x); [right; now apply IH|trivial].
Qed.

Lemma py_strip_incl s c : In c (py_strip s) -> In c s.
Proof.
  unfold py_strip, rstrip. intros H.
  apply in_rev, lstrip_incl, in_rev in H. now apply lstrip_incl.
Qed.

Lemma parse_sign_incl s neg s1 c :
  parse_sign s = (neg, s1) -> In c s1 -> In c s.
Proof.
  unfold parse_sign. intros H Hc.
  destruct s as [|x s]; [injection H as _ <-; exact Hc|].
  destruct (N.eq_dec x 0x2D%N) as [->|H1];
    [injection H as _ <-; now right|].
  destruct (N.eq_dec x 0x2B%N) as [->|H2];
    [injection H as _ <-; now right|].
  assert (Hs : (false, x :: s) = (neg, s1)).
  { rewrite <- H. clear H Hc.
    destruct x as [|p]; [reflexivity|].
    do 6 (destruct p as [p|p|]; try reflexivity); congruence. }
  injection Hs as _ <-. exact Hc.
Qed.

Lemma lower_char_n x :
  lower_char x = 0x6E%N -> x = 0x6E%N \/ x = 0x4E%N.
Proof.
  unfold lower_char.
  destruct ((0x41 <=? x)%N && (x <=? 0x5A)%N)%bool; lia.
Qed.

Lemma py_float_not_nan s x :
  Forall (fun c => amount_char c = true) s ->
  py_float s = Ret x -> x <> S754_nan.
Proof.
  intros Hs. unfold py_float.
  destruct (parse_sign (py_strip s)) as [neg s1] eqn:Hsign.
  destruct (pystr_eqb (py_lower s1) (str "inf")
            || pystr_eqb (py_lower s1) (str "infinity"));
    [intros [= <-]; discriminate|].
  destruct (pystr_eqb (py_lower s1) (str "nan")) eqn:Hnan.
  { exfalso. apply bool_decide_eq_true in Hnan.
    destruct s1 as [|c s1]; [discriminate|].
    injection Hnan as Hc _.
    assert (Hin : In c s).
    { apply py_strip_incl. eapply parse_sign_incl; [exact Hsign|now left]. }
    rewrite Forall_forall in Hs.
    specialize (Hs c (proj2 (list_elem_of_In _ _) Hin)).
    apply lower_char_n in Hc as [-> | ->]; vm_compute in Hs; discriminate. }
  destruct (digits_us 0 0 false s1) as [[iv ni] s2].
  destruct (match s2 with
            | 0x2E%N :: s2' => digits_us iv 0 false s2'
            | _ => (iv, 0, s2)
            end) as [[fv nf] s3].
  destruct (0 <? ni + nf); [|discriminate].
  destruct (parse_exponent s3) as [[ex [|]]|]; try discriminate.
  intros [= <-]. apply SF_of_decimal_not_nan.
Qed.

(** X13.  Whatever is typed, an amount that [sanitize_amount] returns is
    never a NaN: the letters of [nan] are among the characters it removes. *)
Theorem sanitize_amount_is_never_nan (t : pystr) (x : spec_float) :
  sanitize_amount t = Ret x -> is_nan x = false.
Proof.
  rewrite sanitize_amount_unfold.
  destruct (existsb amount_char t); [|discriminate].
  intros H. apply py_float_not_nan in H.
  - now destruct x.
  - apply Forall_forall. intros c Hc.
    apply list_elem_of_In, filter_In in Hc. exact (proj2 Hc).
Qed.

(** ** Only calendar days come out of [parse_date] *)

Lemma strptime_valid s fmt dt :
  strptime s fmt = Ret dt ->
  valid_date (d_year dt) (d_month dt) (d_day dt) = true.
Proof.
  unfold strptime.
  destruct (compile_format fmt) as [its|]; [|discriminate].
  destruct (match_items its s) as [[groups [|]]|]; try discriminate.
  destruct (group_int IY 1900 groups) as [y|]; [|discriminate].
  destruct (group_month groups) as [m|]; [|discriminate].
  destruct (group_int Id 1 groups) as [d|]; [|discriminate].
  cbn [res_bind]. destruct (valid_date y m d) eqn:Hv; [|discriminate].
  intros [= <-]. exact Hv.
Qed.

Lemma try_formats_valid s fmts ds :
  try_formats s fmts = Ret ds ->
  exists dt, valid_date (d_year dt) (d_month dt) (d_day dt) = true
             /\ ds = strftime_ymd dt.
Proof.
  induction fmts as [|fmt fmts IH]; cbn [try_formats]; [discriminate|].
  destruct (strptime s fmt) as [dt|e] eqn:Hs.
  - intros [= <-]. exists dt. split; [now apply strptime_valid in Hs|reflexivity].
  - destruct (is_ValueError e); [exact IH|discriminate].
Qed.

(** X14.  A text that is not blank is never turned into anything but a day
    of the calendar: when [parse_date] returns, the result is the
    year-month-day text of a date with a year from 1 to 9999, a month from 1
    to 12 and a day that this month has in this year. *)
Theorem parse_date_returns_calendar_days (t : pystr) (s : state) (ds : pystr) :
  py_strip t <> [] ->
  fst (parse_date t s) = Ret ds ->
  exists y m d,
    valid_date y m d = true /\ ds = strftime_ymd (mkdate y m d).
Proof.
  intros Hne. unfold parse_date, pystr_eqb.
  rewrite bool_decide_eq_false_2 by exact Hne. unfold lift. cbn [fst].
  intros H. apply try_formats_valid in H as ([y m d] & Hv & ->).
  now exists y, m, d.
Qed.

(** ** Selections below one *)

Lemma py_index_wrap {A} (l : list A) (k : Z) :
  1 - Z.of_nat (length l) <= k <= 0 ->
  py_index l (k - 1) = py_index l (k + Z.of_nat (length l) - 1).
Proof.
  intros Hk. unfold py_index. cbv zeta.
  replace (k - 1 <? 0) with true by (symmetry; apply Z.ltb_lt; lia).
  replace (k + Z.of_nat (length l) - 1 <? 0) with false
    by (symmetry; apply Z.ltb_ge; lia).
  now replace (k - 1 + Z.of_nat (length l))
    with (k + Z.of_nat (length l) - 1) by lia.
Qed.

Lemma delete_expense_run s choice confirm rest k item i :
  expenses s <> [] ->
  Forall (fun v => is_record v = true) (expenses s) ->
  stdin s = Line choice :: Line confirm :: rest ->
  py_int (py_strip choice) = Ret k ->
  py_index (list_sort date_lt true (expenses s)) (k - 1) = Ret item ->
  is_record item = true ->
  find_index item (expenses s) = Some i ->
  let shown :=
    printed (MsgListHeader
               :: listing 1 (list_sort date_lt true (expenses s)))
      (with_stdin rest s) in
  delete_expense s =
    if pystr_eqb (py_lower (py_strip confirm)) (str "y") then
      (Ret tt,
       printed [MsgDeleted]
         (snd (save_expenses (delete i (expenses s))
                 (with_expenses (delete i (expenses s)) shown))))
    else (Ret tt, printed [MsgCancelled] shown).
Proof.
  intros Hne Hl Hin Hint Hidx Hrec Hfind. cbv zeta.
  destruct (record_fields_readable item Hrec)
    as (a & c & dt & Ha & Hc & Hd).
  assert (Hsorted := sorted_by_date_records _ (Forall_records_dates _ Hl)).
  unfold delete_expense. run @get_expenses.
  rewrite (match_nonempty (expenses s)) by assumption.
  rewrite bind_run, list_expenses_records by assumption.
  destruct s as [l files dw clk inp out]. cbn in Hin. subst inp.
  cbn [expenses] in *. proj_state.
  unfold try_except at 1. run @input. rewrite (py_int_not_q _ _ Hint).
  run @lift. rewrite Hint. run @lift. rewrite Hsorted.
  run @lift. rewrite Hidx.
  run @lift. rewrite Hc. run @lift. rewrite Ha. run @lift. rewrite Hd.
  run @input.
  destruct (pystr_eqb (py_lower (py_strip confirm)) (str "y"));
    [|reflexivity].
  rewrite Hfind. run @put_expenses. run @get_expenses. rewrite bind_run.
  match goal with
  | |- context [save_expenses ?l ?st] =>
      destruct (save_expenses_returns l st) as (s' & Hs' & _ & _)
  end.
  rewrite Hs'. reflexivity.
Qed.

(** X15.  A selection from [1 - n] to [0], where [n] records are displayed,
    is not turned down by the delete prompt: the number [k] typed selects
    the displayed record at position [k + n], counted from one, so [0]
    selects the last one. After the answer [y] the first stored record equal
    to it is removed and the list is saved; after any other answer nothing
    changes. *)
Theorem selection_below_one_counts_from_the_end
  (s : state) (choice confirm : pystr) (rest : list event) (k : Z) :
  expenses s <> [] ->
  Forall (fun v => is_record v = true) (expenses s) ->
  stdin s = Line choice :: Line confirm :: rest ->
  py_int (py_strip choice) = Ret k ->
  1 - Z.of_nat (length (expenses s)) <= k <= 0 ->
  let sl := list_sort date_lt true (expenses s) in
  let shown := printed (MsgListHeader :: listing 1 sl) (with_stdin rest s) in
  exists item i,
    sl !! Z.to_nat (k + Z.of_nat (length (expenses s)) - 1) = Some item
    /\ first_equal item (expenses s) i
    /\ delete_expense s =
         if pystr_eqb (py_lower (py_strip confirm)) (str "y") then
           (Ret tt,
            printed [MsgDeleted]
              (snd (save_expenses (delete i (expenses s))
                      (with_expenses (delete i (expenses s)) shown))))
         else (Ret tt, printed [MsgCancelled] shown).
Proof.
  intros Hne Hl Hin Hint Hk. cbv zeta.
  set (n := Z.of_nat (length (expenses s))) in *.
  destruct (selection_of_records _ (k + n) Hl ltac:(subst n; lia))
    as (item & i & Hlook & Hidx & Hrec & Hfind & Hfirst).
  assert (Hlen : length (list_sort date_lt true (expenses s))
                 = length (expenses s))
    by (now rewrite list_sort_date_perm).
  exists item, i. split; [exact Hlook|]. split; [exact Hfirst|].
  apply (delete_expense_run s choice confirm rest k item i); auto.
  rewrite py_index_wrap by (rewrite Hlen; fold n; lia).
  rewrite Hlen. exact Hidx.
Qed.

(** ** An edit that is interrupted *)

(** X16.  Ctrl-C at the category prompt of an edit is not handled by
    [edit_expense]: the [KeyboardInterrupt] leaves it. By then the amount
    typed has already been written into the record in memory, and nothing
    has been saved: the list holds the half-edited record, the files are as
    before. *)
Theorem interrupted_edit_keeps_the_new_amount
  (s : state) (choice a : pystr) (rest : list event) (k : Z) :
  expenses s <> [] ->
  Forall (fun v => is_record v = true) (expenses s) ->
  stdin s = Line choice :: Line a :: CtrlC :: rest ->
  py_int (py_strip choice) = Ret k ->
  1 <= k <= Z.of_nat (length (expenses s)) ->
  let sl := list_sort date_lt true (expenses s) in
  exists item i e,
    sl !! Z.to_nat (k - 1) = Some item
    /\ first_equal item (expenses s) i
    /\ expenses s !! i = Some e
    /\ edit_expense s
       = (Raise KeyboardInterrupt,
          printed
            (MsgListHeader :: listing 1 sl ++ [MsgKeepHint]
             ++ snd (edit_amount (field (str "amount") e) a))
            (with_expenses (<[i := amount_edited e a]> (expenses s))
               (with_stdin rest s))).
Proof.
  intros Hne Hl Hin Hint Hk. cbv zeta.
  destruct (selection_of_records _ k Hl Hk)
    as (item & i & Hlook & Hidx & Hrec & Hfind & Hfirst).
  destruct (record_fields_readable item Hrec)
    as (ia & ic & idt & Hia & Hic & Hid).
  destruct Hfirst as [[e [He Heq]] Hbefore].
  assert (Hrece : is_record e = true).
  { rewrite Forall_forall in Hl. apply Hl, list_elem_of_lookup. eauto. }
  exists item, i, e.
  split; [exact Hlook|]. split; [split; eauto|]. split; [exact He|].
  assert (Hsorted := sorted_by_date_records _ (Forall_records_dates _ Hl)).
  apply is_record_inv in Hrece
    as (fields & a0 & c0 & d0 & -> & _ & Ha0 & _ & Hc0 & Hd0).
  unfold amount_edited, field. cbn [py_getitem]. rewrite Ha0.
  assert (Hc1 : dict_lookup (str "category")
                  (dict_set (str "amount") (fst (edit_amount a0 a)) fields)
                = Some (PStr c0)).
  { now rewrite dict_lookup_set_ne by discriminate. }
  unfold edit_expense. run @get_expenses.
  rewrite (match_nonempty (expenses s)) by assumption.
  rewrite bind_run, list_expenses_records by assumption.
  destruct s as [l files dw clk inp out]. cbn in Hin. subst inp.
  cbn [expenses] in *. proj_state.
  unfold try_except at 1.
  run @input. rewrite (py_int_not_q _ _ Hint).
  run @lift. rewrite Hint.
  run @lift. rewrite Hsorted.
  run @lift. rewrite Hidx.
  rewrite bind_run. rewrite Hfind. unfold ret at 1.
  run @print. run @lift. rewrite Hia. run @input.
  rewrite bind_run.
  rewrite (amount_step i fields a0 a) by assumption. proj_state.
  run @lift. rewrite Hic. rewrite bind_run. unfold input at 1. proj_state.
  cbn [is_edit_error pyexc_eqb is_ValueError orb].
  rewrite <- !app_assoc. reflexivity.
Qed.

(** ** Loading a corrupt file twice *)

Lemma backup_name_is_another_name t : backup_name t <> FILE_NAME.
Proof.
  unfold backup_name. intros H.
  rewrite <- (app_nil_r FILE_NAME) in H at 2.
  apply app_inv_head in H. discriminate.
Qed.

(** X17.  A file that is not JSON is moved out of the way. In a directory
    that allows it, loading such a file returns the empty list and leaves no
    [expenses.json]: the file, unchanged, is now under the backup name, and
    the other files are as before. Loading again then finds no file and
    returns the empty list without a message. *)
Theorem corrupt_file_is_moved_away (s : state) (f : file) (t : pystr) :
  fs s !! FILE_NAME = Some f ->
  f_readable f = true -> f_data f = Text t ->
  json_loads t = JsonDecodeError ->
  dir_writable s = true ->
  let backup := backup_name (clock s) in
  exists s1,
    load_expenses s = (Ret [], s1)
    /\ fs s1 !! FILE_NAME = None
    /\ fs s1 !! backup = Some f
    /\ (forall p, p <> FILE_NAME -> p <> backup -> fs s1 !! p = fs s !! p)
    /\ expenses s1 = expenses s
    /\ load_expenses s1 = (Ret [], s1).
Proof.
  intros Hf Hr Hd Hj Hw. cbv zeta.
  pose proof (backup_name_is_another_name (clock s)) as Hb.
  destruct s as [l0 files dw clk inp out].
  cbn [fs clock dir_writable expenses] in *. subst dw.
  eexists. split.
  { unfold load_expenses, try_except2, try_except, json_load, bind,
      path_exists, read_text, rename, print, printed, put_fs, now, ret, raise.
    simpl. rewrite bool_decide_eq_true_2 by eauto. simpl.
    rewrite Hf, Hr, Hd, Hj. simpl. rewrite Hf. reflexivity. }
  cbn [fs expenses].
  assert (Hgone : <[backup_name clk := f]> (delete FILE_NAME files)
                    !! FILE_NAME = None).
  { rewrite lookup_insert_ne by exact Hb. apply lookup_delete_eq. }
  split; [exact Hgone|].
  split; [apply lookup_insert_eq|].
  split.
  { intros p Hp Hpb.
    rewrite lookup_insert_ne by congruence.
    now rewrite lookup_delete_ne by congruence. }
  split; [reflexivity|].
  unfold load_expenses, bind, path_exists, ret.
  cbn [fs]. rewrite Hgone.
  rewrite bool_decide_eq_false_2 by (intros [? ?]; discriminate).
  reflexivity.
Qed.

(** ** Listing *)

Lemma listing_length idx l : length (listing idx l) = length l.
Proof.
  revert idx. induction l as [|e l IH]; intros idx; cbn; [reflexivity|].
  now rewrite IH.
Qed.

Lemma listing_lookup l : forall idx j item,
  l !! j = Some item ->
  listing idx l !! j
  = Some (MsgItem (idx + Z.of_nat j) (field (str "date") item)
            (field (str "category") item) (amount_float item)).
Proof.
  induction l as [|e l IH]; intros idx j item Hj; [discriminate|].
  destruct j as [|j]; cbn [listing].
  - injection Hj as ->. cbn. now rewrite Z.add_0_r.
  - change ((e :: l) !! S j) with (l !! j) in Hj.
    change (listing (idx + 1) l !! j
            = Some (MsgItem (idx + Z.of_nat (S j)) (field (str "date") item)
                      (field (str "category") item) (amount_float item))).
    rewrite (IH (idx + 1) j item Hj). do 2 f_equal. lia.
Qed.

(** X18.  What [list_expenses] prints for a list of records: the heading,
    then one line for each record, in the displayed order and numbered from
    one, with the date, the category and the amount as a float of the
    record. Nothing else changes. *)
Theorem list_expenses_prints_numbered_lines (s : state) :
  expenses s <> [] ->
  Forall (fun v => is_record v = true) (expenses s) ->
  let sl := list_sort date_lt true (expenses s) in
  exists lines,
    list_expenses s = (Ret tt, printed (MsgListHeader :: lines) s)
    /\ length lines = length (expenses s)
    /\ forall j item,
         sl !! j = Some item ->
         lines !! j
         = Some (MsgItem (1 + Z.of_nat j) (field (str "date") item)
                   (field (str "category") item) (amount_float item)).
Proof.
  intros Hne Hl. cbv zeta.
  exists (listing 1 (list_sort date_lt true (expenses s))).
  split; [now apply list_expenses_records|].
  split.
  - rewrite listing_length. now rewrite list_sort_date_perm.
  - intros j item Hj. now apply listing_lookup.
Qed.

(** ** The empty list *)

(** X19.  With no expense recorded, listing, summarising, deleting and
    editing each print their one message and return at once: no line of
    input is read and nothing else changes. *)
Theorem empty_list_is_only_reported (s : state) :
  expenses s = [] ->
  list_expenses s = (Ret tt, printed [MsgNoExpenses] s)
  /\ view_summary s = (Ret tt, printed [MsgSummaryEmpty] s)
  /\ delete_expense s = (Ret tt, printed [MsgNothingToDelete] s)
  /\ edit_expense s = (Ret tt, printed [MsgNothingToEdit] s).
Proof.
  intros He.
  unfold list_expenses, view_summary, delete_expense, edit_expense.
  rewrite !bind_run. unfold get_expenses. rewrite He. repeat split.
Qed.
End Program.

(** * Concrete runs *)


(** C10, as first stated, fails after load: a file that holds [[{}]] is a
    JSON list, so [load_expenses] returns its one element, a dict with no
    field, and [main] keeps it as the list of expenses. *)
Lemma load_expenses_counterexample :
  fst (load_expenses pad4 ref_json_loads bare_state) = Ret [PDict []]
  /\ has_three_fields (PDict []) = false
  /\ expenses
       (snd (main ascii_title pad4 ref_json_dumps ref_json_loads bare_state))
     = [PDict []].
Proof. repeat split; vm_compute; reflexivity. Qed.

(** C7.  A selection of [0] is not refused.  [int(choice) - 1] is then
    [-1], which Python reads from the end of the list: with the three
    records of the example, the answer [0] to the delete prompt followed by
    [y] removes the last displayed record and writes the file, and the answer
    [0] to the edit prompt followed by a new amount changes that record. *)
Lemma selection_zero_is_taken_from_the_end :
  py_int (py_strip (str "0")) = Ret 0
  /\ (fst (delete_expense ref_json_dumps zero_state) = Ret tt
      /\ expenses (snd (delete_expense ref_json_dumps zero_state))
         = [example_record 5 "Food" "2024-02-01";
            example_record 20 "Transport" "2024-01-10"]
      /\ last (stdout (snd (delete_expense ref_json_dumps zero_state)))
         = Some MsgDeleted
      /\ fs zero_state !! FILE_NAME = None
      /\ exists f,
           fs (snd (delete_expense ref_json_dumps zero_state)) !! FILE_NAME
           = Some f)
  /\ (expenses
        (snd (edit_expense ascii_title pad4 ref_json_dumps zero_edit_state))
      = [PDict [(str "amount", PFloat (SF_of_Z 99));
                (str "category", PStr (str "Food"));
                (str "date", PStr (str "2024-01-05"))];
         example_record 5 "Food" "2024-02-01";
         example_record 20 "Transport" "2024-01-10"]
      /\ last (stdout
                 (snd (edit_expense ascii_title pad4 ref_json_dumps
                         zero_edit_state)))
         = Some MsgUpdated).
Proof.
  split; [vm_compute; reflexivity|]. split.
  - repeat (split; [vm_compute; reflexivity|]).
    eexists. vm_compute. reflexivity.
  - split; vm_compute; reflexivity.
Qed.

(** * The theorems at concrete inputs *)

(** Loading a file that is not JSON: the empty list is returned, the file
    is moved to the backup name of the clock, and both are reported. *)
Lemma load_expenses_never_raises_witness :
  1000 <= d_year (dt_date (clock corrupt_state)) <= 9999
  /\ exists s',
       load_expenses pad4 ref_json_loads corrupt_state = (Ret [], s')
       /\ stdout s'
          = [MsgCorrupt;
             MsgBackedUp (str "expenses.json.backup.20240309140507")].
Proof.
  assert (Hy : 1000 <= d_year (dt_date (clock corrupt_state)) <= 9999)
    by (simpl; lia).
  split; [exact Hy|].
  destruct (load_expenses_never_raises pad4 ref_json_loads
              (fun y _ => eq_refl) corrupt_state Hy)
    as [_ (l & s' & Hrun & _ & _ & Hcase)].
  assert (Hf : fs corrupt_state !! FILE_NAME = Some (text_file "not json")) by (vm_compute; reflexivity).
  rewrite Hf in Hcase.
  cbn [text_file f_readable f_data] in Hcase.
  change (ref_json_loads (str "not json")) with JsonDecodeError in Hcase.
  cbn [corrupt_state example_state dir_writable stdout app] in Hcase.
  destruct Hcase as (-> & _ & Hout).
  exists s'. split; [exact Hrun|exact Hout].
Defined.



(** Deleting the first displayed record after the answer [ Y ]. *)
Lemma delete_expense_removes_first_equal_witness :
  (expenses delete_state <> []
   /\ Forall (fun v => is_record v = true) (expenses delete_state)
   /\ py_int (py_strip (str "1")) = Ret 1
   /\ 1 <= 1 <= Z.of_nat (length (expenses delete_state)))
  /\ exists i s',
       delete_expense ref_json_dumps delete_state = (Ret tt, s')
       /\ length (delete i (expenses delete_state)) = 2%nat.
Proof.
  assert (H1 : expenses delete_state <> []) by (simpl; discriminate).
  assert (H2 : Forall (fun v => is_record v = true) (expenses delete_state))
    by (repeat constructor).
  assert (H3 : py_int (py_strip (str "1")) = Ret 1)
    by (vm_compute; reflexivity).
  assert (H4 : 1 <= 1 <= Z.of_nat (length (expenses delete_state)))
    by (simpl; lia).
  split; [auto|].
  destruct (delete_expense_removes_first_equal ref_json_dumps delete_state
              (str "1") (str " Y ") [] 1 H1 H2 eq_refl H3 H4)
    as (sl & item & i & _ & _ & _ & Hrun).
  cbv zeta in Hrun.
  assert (Hy : pystr_eqb (py_lower (py_strip (str " Y "))) (str "y") = true)
    by (vm_compute; reflexivity).
  rewrite Hy in Hrun. destruct Hrun as [Hlen Hrun].
  exists i. eexists. split; [exact Hrun|exact Hlen].
Defined.

(** Editing the first displayed record: a new amount, a new category, and
    a date that does not parse. *)
Lemma edit_expense_updates_fields_independently_witness :
  (expenses edit_state <> []
   /\ Forall (fun v => is_record v = true) (expenses edit_state)
   /\ py_int (py_strip (str "1")) = Ret 1
   /\ 1 <= 1 <= Z.of_nat (length (expenses edit_state)))
  /\ exists s',
       edit_expense ascii_title pad4 ref_json_dumps edit_state = (Ret tt, s').
Proof.
  assert (H1 : expenses edit_state <> []) by (simpl; discriminate).
  assert (H2 : Forall (fun v => is_record v = true) (expenses edit_state))
    by (repeat constructor).
  assert (H3 : py_int (py_strip (str "1")) = Ret 1)
    by (vm_compute; reflexivity).
  assert (H4 : 1 <= 1 <= Z.of_nat (length (expenses edit_state)))
    by (simpl; lia).
  split; [auto|].
  destruct (edit_expense_updates_fields_independently ascii_title pad4
              ref_json_dumps edit_state (str "1") (str "12.5")
              (str "eating out") (str "someday") [] 1 H1 H2 eq_refl H3 H4)
    as (sl & item & i & e & _ & _ & _ & _ & Hrun).
  eexists. exact Hrun.
Defined.

(** The summary of the three records of the example. *)
Lemma view_summary_totals_groups_and_orders_witness :
  (expenses summary_state <> []
   /\ Forall (fun v => is_record v = true) (expenses summary_state))
  /\ (exists cats months,
        view_summary summary_state
        = (Ret tt,
           printed
             (summary_report
                (sum_amounts (List.map amount_float (expenses summary_state)))
                cats months)
             summary_state)
        /\ groups_of category_str (expenses summary_state) cats
        /\ groups_of month_str (expenses summary_state) months)
  /\ view_summary summary_state
     = (Ret tt,
        printed
          (summary_report (SF_of_Z 35)
             [(str "Transport", SF_of_Z 20); (str "Food", SF_of_Z 15)]
             [(str "2024-01", SF_of_Z 30); (str "2024-02", SF_of_Z 5)])
          summary_state).
Proof.
  assert (H1 : expenses summary_state <> []) by (simpl; discriminate).
  assert (H2 : Forall (fun v => is_record v = true) (expenses summary_state))
    by (repeat constructor).
  destruct view_summary_totals_groups_and_orders as [Hall Hex].
  split; [auto|]. split.
  - destruct (Hall summary_state H1 H2)
      as (cats & months & Hrun & Hc & _ & Hm & _).
    exists cats, months. auto.
  - exact (Hex summary_state eq_refl).
Defined.

(** The displayed order of the three records of the example. *)
Lemma displayed_order_is_stable_date_descending_witness :
  Forall (fun v => is_record v = true) summary_example
  /\ exists sl,
       sorted_by_date summary_example = Ret sl
       /\ sl ≡ₚ summary_example
       /\ List.filter (has_date (str "2024-01-05")) sl
          = List.filter (has_date (str "2024-01-05")) summary_example.
Proof.
  assert (H : Forall (fun v => is_record v = true) summary_example)
    by (repeat constructor).
  split; [exact H|].
  destruct (displayed_order_is_stable_date_descending summary_example H)
    as (sl & Hs & Hp & _ & Hf).
  exists sl. auto.
Defined.

(** A delete and an edit from the three records of the example. *)
Lemma three_fields_are_kept_witness :
  all_have_fields (expenses delete_state)
  /\ all_have_fields
       (expenses (snd (delete_expense ref_json_dumps delete_state)))
  /\ all_have_fields
       (expenses
          (snd (edit_expense ascii_title pad4 ref_json_dumps delete_state))).
Proof.
  assert (H : all_have_fields (expenses delete_state))
    by (repeat constructor).
  destruct (three_fields_are_kept ascii_title pad4 ref_json_dumps
              ref_json_loads delete_state H)
    as (_ & _ & Hedit & Hdelete & _).
  split; [exact H|]. split; [exact Hdelete|exact Hedit].
Defined.

(** * The further properties at concrete inputs *)

(** The answer [7] to the delete prompt when three records are listed. *)
Lemma turned_down_selection_changes_nothing_witness :
  (expenses refused_state <> []
   /\ Forall (fun v => is_record v = true) (expenses refused_state)
   /\ selection_message (length (expenses refused_state)) (py_strip (str "7"))
      = Some MsgInvalidSelection)
  /\ fst (delete_expense ref_json_dumps refused_state) = Ret tt
  /\ expenses (snd (delete_expense ref_json_dumps refused_state))
     = expenses refused_state
  /\ fs (snd (edit_expense ascii_title pad4 ref_json_dumps refused_state))
     = fs refused_state.
Proof.
  assert (H1 : expenses refused_state <> []) by (simpl; discriminate).
  assert (H2 : Forall (fun v => is_record v = true) (expenses refused_state))
    by (repeat constructor).
  assert (H3 : selection_message (length (expenses refused_state))
                 (py_strip (str "7")) = Some MsgInvalidSelection)
    by (vm_compute; reflexivity).
  split; [auto|].
  destruct (turned_down_selection_changes_nothing ascii_title pad4
              ref_json_dumps refused_state (str "7") [] MsgInvalidSelection
              H1 H2 eq_refl H3) as [Hd He].
  rewrite Hd, He. repeat split.
Defined.

(** A date of two blanks. *)
Lemma parse_date_blank_is_today_witness :
  forallb is_space (str "  ") = true
  /\ parse_date pad4 (str "  ") stored_state
     = (Ret (str "2024-03-09"), stored_state).
Proof.
  split; [reflexivity|].
  exact (parse_date_blank_is_today pad4 (str "  ") stored_state eq_refl).
Defined.

(** The leap day of 2024. *)
Lemma parse_date_keeps_canonical_dates_witness :
  valid_date 2024 2 29 = true
  /\ parse_date pad4 (str "2024-02-29") stored_state
     = (Ret (str "2024-02-29"), stored_state).
Proof.
  split; [reflexivity|].
  exact (parse_date_keeps_canonical_dates pad4 (fun y _ => eq_refl)
           2024 2 29 stored_state eq_refl ltac:(lia)).
Defined.

(** 29 February 2023. *)
Lemma parse_date_refuses_days_not_in_calendar_witness :
  valid_date 2023 2 29 = false
  /\ parse_date pad4 (str "29 February 2023") stored_state
     = (Raise ValueError, stored_state).
Proof.
  split; [reflexivity|].
  apply (parse_date_refuses_days_not_in_calendar pad4 2023 2 29
           (str "29 February 2023") stored_state);
    try lia; [reflexivity|].
  apply (list_elem_of_lookup_2 _ 4%nat). reflexivity.
Defined.

(** An amount that is asked for twice, a category with blanks, a date that
    is asked for twice and then left blank. *)
Lemma add_expense_appends_what_was_typed_witness :
  (Forall (fun t => rejected_amount t = true) [str "abc"]
   /\ sanitize_amount (py_strip (str "Rs 1,250.50"))
      = Ret (SF_of_decimal false 125050 (-2))
   /\ Forall (fun t => rejected_date pad4 typing_state t = true)
        [str "31/02/2023"]
   /\ fst (parse_date pad4 [] typing_state) = Ret (str "2024-03-09"))
  /\ fst (add_expense ascii_title pad4 ref_json_dumps typing_state) = Ret tt
  /\ expenses (snd (add_expense ascii_title pad4 ref_json_dumps typing_state))
     = [new_expense (SF_of_decimal false 125050 (-2)) (str "Food  Court")
          (str "2024-03-09")].
Proof.
  assert (H1 : Forall (fun t => rejected_amount t = true) [str "abc"])
    by (repeat constructor).
  assert (H2 : sanitize_amount (py_strip (str "Rs 1,250.50"))
               = Ret (SF_of_decimal false 125050 (-2)))
    by (vm_compute; reflexivity).
  assert (H3 : pystr_eqb
                 (py_lower (ascii_title (py_strip (str " food  court "))))
                 (str "q") = false)
    by (vm_compute; reflexivity).
  assert (H4 : Forall (fun t => rejected_date pad4 typing_state t = true)
                 [str "31/02/2023"])
    by (repeat constructor).
  assert (H5 : pystr_eqb (py_lower (py_strip [])) (str "q") = false)
    by (vm_compute; reflexivity).
  assert (H6 : fst (parse_date pad4 [] typing_state) = Ret (str "2024-03-09"))
    by reflexivity.
  split; [auto|].
  rewrite (add_expense_appends_what_was_typed ascii_title pad4 ref_json_dumps
             typing_state [str "abc"] [str "31/02/2023"] (str "Rs 1,250.50")
             (str " food  court ") [] [] _ _ eq_refl H1 H2 H3 H4 H5 H6).
  split; vm_compute; reflexivity.
Defined.

(** A sum written with a currency mark, a comma and a point. *)
Lemma sanitize_amount_reads_decimal_amounts_witness :
  (Forall (fun d => is_decimal_digit d = true) [1; 2; 5; 0]
   /\ Forall (fun d => is_decimal_digit d = true) [5; 0])
  /\ sanitize_amount (str "Rs 1,250.50")
     = Ret (SF_of_decimal false 125050 (-2))
  /\ sanitize_amount (str "1,250 only") = Ret (SF_of_Z 1250).
Proof.
  assert (H1 : Forall (fun d => is_decimal_digit d = true) [1; 2; 5; 0])
    by (repeat constructor).
  assert (H2 : Forall (fun d => is_decimal_digit d = true) [5; 0])
    by (repeat constructor).
  split; [auto|]. split.
  - apply (proj1 (sanitize_amount_reads_decimal_amounts (str "Rs 1,250.50")
                    [1; 2; 5; 0] [5; 0] H1 H2));
      [discriminate|reflexivity].
  - apply (proj2 (sanitize_amount_reads_decimal_amounts (str "1,250 only")
                    [1; 2; 5; 0] [] H1 (Forall_nil_2 _)));
      [discriminate|reflexivity].
Defined.

(** The amount [1e5], of which the letter is dropped. *)
Lemma sanitize_amount_is_never_nan_witness :
  sanitize_amount (str "1e5") = Ret (SF_of_Z 15)
  /\ is_nan (SF_of_Z 15) = false.
Proof.
  assert (H : sanitize_amount (str "1e5") = Ret (SF_of_Z 15))
    by (vm_compute; reflexivity).
  split; [exact H|].
  exact (sanitize_amount_is_never_nan (str "1e5") (SF_of_Z 15) H).
Defined.

(** A day written with the short name of the month. *)
Lemma parse_date_returns_calendar_days_witness :
  (py_strip (str "5 Jan 2024") <> []
   /\ fst (parse_date pad4 (str "5 Jan 2024") stored_state)
      = Ret (str "2024-01-05"))
  /\ exists y m d,
       valid_date y m d = true
       /\ str "2024-01-05" = strftime_ymd pad4 (mkdate y m d).
Proof.
  assert (H1 : py_strip (str "5 Jan 2024") <> [])
    by (vm_compute; discriminate).
  assert (H2 : fst (parse_date pad4 (str "5 Jan 2024") stored_state)
               = Ret (str "2024-01-05"))
    by (vm_compute; reflexivity).
  split; [auto|].
  exact (parse_date_returns_calendar_days pad4 (str "5 Jan 2024")
           stored_state (str "2024-01-05") H1 H2).
Defined.

(** No file, the answer [9] and then the answer [6]. *)
Lemma main_endings_witness :
  (load_expenses pad4 ref_json_loads leaving_state = (Ret [], leaving_state)
   /\ Forall (fun t => menu_choice t = false) [str "9"]
   /\ py_strip (str "6") = str "6")
  /\ main ascii_title pad4 ref_json_dumps ref_json_loads leaving_state
     = (Ret tt,
        printed [MsgWelcome; MsgMenu; MsgPickNumber; MsgMenu; MsgBye]
          (with_stdin [] leaving_state)).
Proof.
  assert (H1 : load_expenses pad4 ref_json_loads leaving_state
               = (Ret [], leaving_state)) by reflexivity.
  assert (H2 : Forall (fun t => menu_choice t = false) [str "9"])
    by (repeat constructor).
  assert (H3 : py_strip (str "6") = str "6") by reflexivity.
  split; [auto|].
  exact (main_endings ascii_title pad4 ref_json_dumps ref_json_loads
           leaving_state leaving_state [] [str "9"] [Line (str "6")]
           H1 eq_refl H2 H3).
Defined.

(** A record and then a dict without any field. *)
Lemma record_without_field_raises_KeyError_witness :
  (Forall (fun v => has_key (str "date") v = true)
     [example_record 10 "Food" "2024-01-05"]
   /\ Forall (fun v => has_amount v = true)
        [example_record 10 "Food" "2024-01-05"])
  /\ fst (list_expenses fieldless_state) = Raise KeyError
  /\ fst (delete_expense ref_json_dumps fieldless_state) = Raise KeyError
  /\ fst (edit_expense ascii_title pad4 ref_json_dumps fieldless_state)
     = Raise KeyError
  /\ view_summary fieldless_state = (Raise KeyError, fieldless_state).
Proof.
  assert (H1 : Forall (fun v => has_key (str "date") v = true)
                 [example_record 10 "Food" "2024-01-05"])
    by (repeat constructor).
  assert (H2 : Forall (fun v => has_amount v = true)
                 [example_record 10 "Food" "2024-01-05"])
    by (repeat constructor).
  split; [auto|].
  destruct (record_without_field_raises_KeyError ascii_title pad4
              ref_json_dumps fieldless_state
              [example_record 10 "Food" "2024-01-05"] [] [] eq_refl)
    as [Hdate Hamount].
  destruct (Hdate H1 eq_refl) as (Hl & Hd & He).
  rewrite Hl, Hd, He. do 3 (split; [reflexivity|]).
  exact (Hamount H2 eq_refl).
Defined.

(** The answer [0] and then [y], with three records listed. *)
Lemma selection_below_one_counts_from_the_end_witness :
  (expenses zero_state <> []
   /\ Forall (fun v => is_record v = true) (expenses zero_state)
   /\ py_int (py_strip (str "0")) = Ret 0
   /\ 1 - Z.of_nat (length (expenses zero_state)) <= 0 <= 0)
  /\ exists item i s',
       list_sort date_lt true (expenses zero_state) !! 2%nat = Some item
       /\ first_equal item (expenses zero_state) i
       /\ delete_expense ref_json_dumps zero_state = (Ret tt, s').
Proof.
  assert (H1 : expenses zero_state <> []) by (simpl; discriminate).
  assert (H2 : Forall (fun v => is_record v = true) (expenses zero_state))
    by (repeat constructor).
  assert (H3 : py_int (py_strip (str "0")) = Ret 0)
    by (vm_compute; reflexivity).
  assert (H4 : 1 - Z.of_nat (length (expenses zero_state)) <= 0 <= 0)
    by (simpl; lia).
  split; [auto|].
  destruct (selection_below_one_counts_from_the_end ref_json_dumps zero_state
              (str "0") (str "y") [] 0 H1 H2 eq_refl H3 H4)
    as (item & i & Hitem & Hfirst & Hrun).
  exists item, i. eexists. split; [exact Hitem|]. split; [exact Hfirst|].
  exact Hrun.
Defined.

(** The first record, a new amount, and Ctrl-C at the category prompt. *)
Lemma interrupted_edit_keeps_the_new_amount_witness :
  (expenses interrupted_state <> []
   /\ Forall (fun v => is_record v = true) (expenses interrupted_state)
   /\ py_int (py_strip (str "1")) = Ret 1
   /\ 1 <= 1 <= Z.of_nat (length (expenses interrupted_state)))
  /\ exists s',
       edit_expense ascii_title pad4 ref_json_dumps interrupted_state
       = (Raise KeyboardInterrupt, s')
       /\ fs s' = fs interrupted_state.
Proof.
  assert (H1 : expenses interrupted_state <> []) by (simpl; discriminate).
  assert (H2 : Forall (fun v => is_record v = true)
                 (expenses interrupted_state))
    by (repeat constructor).
  assert (H3 : py_int (py_strip (str "1")) = Ret 1)
    by (vm_compute; reflexivity).
  assert (H4 : 1 <= 1 <= Z.of_nat (length (expenses interrupted_state)))
    by (simpl; lia).
  split; [auto|].
  destruct (interrupted_edit_keeps_the_new_amount ascii_title pad4
              ref_json_dumps interrupted_state (str "1") (str "99") [] 1
              H1 H2 eq_refl H3 H4)
    as (item & i & e & _ & _ & _ & Hrun).
  eexists. split; [exact Hrun|reflexivity].
Defined.

(** The file that holds [not json]. *)
Lemma corrupt_file_is_moved_away_witness :
  (fs corrupt_state !! FILE_NAME = Some (text_file "not json")
   /\ ref_json_loads (str "not json") = JsonDecodeError)
  /\ exists s1,
       load_expenses pad4 ref_json_loads corrupt_state = (Ret [], s1)
       /\ fs s1 !! FILE_NAME = None
       /\ load_expenses pad4 ref_json_loads s1 = (Ret [], s1).
Proof.
  assert (H1 : fs corrupt_state !! FILE_NAME = Some (text_file "not json"))
    by (vm_compute; reflexivity).
  assert (H2 : ref_json_loads (str "not json") = JsonDecodeError)
    by (vm_compute; reflexivity).
  split; [auto|].
  destruct (corrupt_file_is_moved_away pad4 ref_json_loads corrupt_state
              (text_file "not json") (str "not json") H1 eq_refl eq_refl H2
              eq_refl)
    as (s1 & Hload & Hgone & _ & _ & _ & Hagain).
  exists s1. auto.
Defined.

(** The three records of the summary example. *)
Lemma list_expenses_prints_numbered_lines_witness :
  (expenses summary_state <> []
   /\ Forall (fun v => is_record v = true) (expenses summary_state))
  /\ exists lines,
       list_expenses summary_state
       = (Ret tt, printed (MsgListHeader :: lines) summary_state)
       /\ length lines = 3%nat.
Proof.
  assert (H1 : expenses summary_state <> []) by (simpl; discriminate).
  assert (H2 : Forall (fun v => is_record v = true) (expenses summary_state))
    by (repeat constructor).
  split; [auto|].
  destruct (list_expenses_prints_numbered_lines summary_state H1 H2)
    as (lines & Hrun & Hlen & _).
  exists lines. auto.
Defined.

(** No record and no input. *)
Lemma empty_list_is_only_reported_witness :
  expenses stored_state = []
  /\ delete_expense ref_json_dumps stored_state
     = (Ret tt, printed [MsgNothingToDelete] stored_state)
  /\ edit_expense ascii_title pad4 ref_json_dumps stored_state
     = (Ret tt, printed [MsgNothingToEdit] stored_state).
Proof.
  split; [reflexivity|].
  destruct (empty_list_is_only_reported ascii_title pad4 ref_json_dumps
              stored_state eq_refl) as (_ & _ & Hd & He).
  auto.
Defined.
